(* ===== verification/_CoqProject ===== *)
-Q . S2P
Prelude.v
Messages.v
Engine.v
Widget.v
Storage.v
Embed.v
Host.v
Online.v
Offline.v
Routing.v
RoomCode.v
OnlineDocs.v
