(* ===== verification/Prelude.v ===== *)
(** * Pencil-chess: a verification development of the synchronisation layer

    The program (repository mindoncode/pencil-chess, Angular + TypeScript) is a
    chess front end with three routes (src/unnamed/part_000..part_001, the
    routing modules):
    - [game/offline]: the host page [GameHostComponent]
      (src/src/app/features/game-host/game-host.component.ts) holds the one
      authoritative [Chess] object (chess.js) and two iframes, each running
      [BoardEmbedComponent]
      (src/src/app/features/board-embed/board-embed.component.ts) around an
      ngx-chess-board widget.  Host and iframes talk only through
      [window.postMessage] with the closed message set [WireMessage]
      (src/unnamed/part_004).  The host persists the position through
      [StorageService] (src/src/app/services/storage.service.ts).
    - [embed-board]: one [BoardEmbedComponent] alone.
    - [game/online]: [OnlineGameComponent]
      (src/src/app/features/online-game/online-game.component.ts) keeps the
      game in a shared Firebase document [games/<code>] and reacts to its
      change stream.

    ** Files of the development (in dependency order)

    - [Prelude] (this file): the notation scope [pencil_scope]; the
      state/output monad [SW S O A := S -> S * list O * A] (a handler takes
      the component's state and returns the new state, the messages or
      writes it emits, in order, and its result) with the stdpp bind
      notation, its laws, the frame lemmas of [silent] (a computation that
      leaves a part of the state alone), the tactics [sw_unfold], [sw_simp],
      [solve_silent], [solve_keeps] (an invariant kept by following a
      computation's structure, with the hint database [keeps]),
      [bool_hyps]; the rewrite databases [pencil_rw], [pencil_seq]
      (sequencing without copying the state) and [pencil_base].
    - [Messages]: [Role], [Turn], [Reason], [WireMessage] as inductive types
      with the source's constructors (src/unnamed/part_004), decidable.
    - [Engine]: what the program relies on from chess.js as a class [Engine]
      (a [load] that fails on a bad FEN, [fen], [turn], [isCheckmate], [pgn])
      and an executable FEN-level instance [FenLite].
    - [Widget]: what it relies on from ngx-chess-board as a class
      [BoardWidget] (getFEN, setFEN, reverse, reset, the user's drag), with
      the two behaviours the source only assumes as explicit parameters.
    - [Storage]: module [StorageService] (load/save/clear over a
      [localStorage] map that may be unavailable, the [try/catch] paths),
      the JSON codec class and the module [JsonText] of flat JSON objects.
    - [Embed]: module [BoardEmbedComponent]: the record [Embed] of the
      component's fields, [onMessage] and one definition per [case],
      [ensureOrientation], [onUserMove], the drag gates.
    - [Host]: module [GameHostComponent]: the record [Host], [ngAfterViewInit]
      (resume from storage), [onMessage] per message, [newGame],
      [openOverlay], the window helpers; the iframe windows are section
      variables and posts are (window, message) outputs.
    - [Online]: module [OnlineGameComponent] over a world of one client and
      the Realtime Database (a [gmap] of room documents): constructor,
      createGame, joinGame (split at its [await]), leaveGame, the
      [onValue] callback, onUserMove, ngOnDestroy; and runs of two clients.
      [onValue] only registers the callback: the room's value reaches it
      in a later step ([notify]).  The statements of [createGame] and
      [leaveGame] after their [await] run in the same step as the write.
      A throw ends a method: [update(null)] in [joinGame] when the room
      was cleared meanwhile, and [board.reverse()] in the constructor,
      where the view's board does not exist yet (a boolean result says
      whether the method ran to its end).
    - [OnlineDocs]: the well-typedness of the room documents ([fen] loads,
      [turn] is its side to move) and its preservation by every method of
      the online client, proved with [solve_keeps].
    - [RoomCode]: module [RoomCode]: the online component's [makeCode]
      (base-36 rendering, [slice(2, 8)], [toUpperCase]) and [copyCode]
      (clipboard write, [copied] flag and its [setTimeout]/[clearTimeout]
      timer over a model of the window's timers and clock), with an
      abstract specification of the copy feedback.
    - [Offline]: the page of the offline route as one closed system: the
      host, two iframes, and their FIFO [postMessage] channels, as an
      executable [step_fn] and an inductive [step], with [reachable]; an
      iframe reload runs the embed's [ngOnDestroy] (the listener detached);
      [settle] delivers the messages in flight, to build concrete states.
    - [Routing]: the three route tables of the sources (src/unnamed/part_000
      twice, part_001) as lists of routes, and the Angular router's
      matching for such routes as an executable function [navigate].

    ** What the theorems show

    - Host: a BOARD_UPDATE from the wrong window, or with a FEN the engine
      rejects, changes nothing; an accepted move is saved, mirrored to the
      other window and the turn announced; a mating move announces
      GAME_OVER but is not mirrored (a finding); READY assigns the role of
      the window; events of another origin or with a message the host has
      no case for are dropped; New game resets, clears storage and
      broadcasts; after a move, a reload resumes that position, a
      checkmated one included although the restore is commented as
      restoring an unfinished game (a finding).
    - Embed: the orientation invariant, echo suppression (a host command
      never makes an iframe post), turn and drag gating, the behaviour of
      SYNC_STATE and RESET, and what goes wrong when the widget's [setFEN]
      keeps its orientation.
    - Storage: save/load round trip, JSON object round trip.
    - Online: the move guard, invalid moves reverted, the written document,
      checkmate handling, create, join (rejected, as white, as black), leave
      (frees only one's own seat), the callback's gating, resume in the
      constructor (a white session reattaches; a black one throws at
      [board.reverse()] before the status is set, a finding), and a race
      of two joiners that seats both as black (a finding).
    - Room documents: every method of the online client keeps every room
      document well typed.
    - Room code: a code has at most six characters, digits and capitals
      only, and fewer when the rendering is short (a finding); the copy
      feedback refines "a copy took effect less than 1200 ms ago".
    - Offline: every reachable state keeps each window's role, gating and
      orientation; a drag moves only the window's own colour; a report of
      the white iframe still queued when New game is pressed is taken into
      the new game, for every such state (a finding).
    - Routing: the wildcard table loads a component for every URL, for
      every redirect rule and budget; the lemmas [iframe_src_route] and
      [game_routes_root] evaluate the tables at the iframes' URL
      [/embed-board] (no route of part_001 matches it, a finding) and at
      the root URL of the second table of part_000 (it needs chained
      redirects, a finding).

    ** Bounds and fuel

    The handlers are not recursive: every definition is structural.  The
    router's redirect budget [fuel] bounds chains of redirects; the tables
    need at most two, and the theorems hold for every budget they state.
    The other fuel is [Offline.settle n], a scheduler that delivers at most [n]
    messages (64 in [play]); it only builds the concrete states the
    witnesses of the Offline theorems start from, whose reachability is
    proved from the run itself, so no theorem depends on the fuel being
    enough.

    ** Not modelled

    chess.js, ngx-chess-board, Firebase and the Angular router are libraries
    or services the code only calls, stated as classes, as operations on a
    map, or (the router) as a matching function for the routes used.  The
    sources of randomness of the room code and client id: [Math.random], [randomUUID] and [Date.now]
    are inputs of the model (for [makeCode], the digits of the rendering).
    The contents of [localStorage] written by other code: the program
    reads them with [JSON.parse(raw) as T], a cast, while the model's
    codecs accept only the records the program writes.  Rendering and
    templates.  The Angular test files and the empty component stubs have
    no behaviour. *)

From stdpp Require Export base list option strings gmap.

Declare Scope pencil_scope.
Delimit Scope pencil_scope with pencil.
Open Scope pencil_scope.

Create HintDb pencil.
Create Rewrite HintDb pencil_rw.
Create HintDb silent.
Create Rewrite HintDb online_rw.
(** [pencil_seq]: running a sequence [m ;; k] without copying the state;
    [pencil_base]: [pencil_rw] without the general bind rules. *)
Create Rewrite HintDb pencil_seq.
Create Rewrite HintDb pencil_base.

(** ** A state-and-output monad

    The handlers of the program mutate fields of [this] and post messages;
    [SW S O A] threads the component's state [S] and collects the messages of
    type [O] it emits, in emission order. *)

Definition SW (S O A : Type) : Type := S -> S * list O * A.

#[export] Instance sw_ret {S O} : MRet (SW S O) := fun A x s => (s, [], x).
#[export] Instance sw_bind {S O} : MBind (SW S O) := fun A B f m s =>
  let '(s1, o1, a) := m s in
  let '(s2, o2, b) := f a s1 in (s2, o1 ++ o2, b).

Definition sw_get {S O} : SW S O S := fun s => (s, [], s).
Definition sw_put {S O} (s : S) : SW S O unit := fun _ => (s, [], ()).
Definition sw_modify {S O} (f : S -> S) : SW S O unit := fun s => (f s, [], ()).
Definition emit {S O} (o : O) : SW S O unit := fun s => (s, [o], ()).
Definition emits {S O} (os : list O) : SW S O unit := fun s => (s, os, ()).
Definition skip {S O} : SW S O unit := mret ().

(** Final state and emitted messages of running [m] from [s]. *)
Definition exec {S O A} (m : SW S O A) (s : S) : S := (m s).1.1.
Definition outs {S O A} (m : SW S O A) (s : S) : list O := (m s).1.2.

Ltac sw_unfold :=
  cbv [mbind mret sw_bind sw_ret sw_get sw_put sw_modify emit emits skip exec outs] in *.
Ltac sw_simp := sw_unfold; simpl in *; rewrite ?app_nil_r in *.

(** Case on every boolean test of the goal, innermost first. *)
Ltac destruct_ifs :=
  repeat match goal with
  | |- context [if ?c then _ else _] =>
      lazymatch c with
      | context [if _ then _ else _] => fail
      | _ => destruct c eqn:?; simpl
      end
  end.

Section sw_laws.
  Context {S O : Type}.

Lemma sw_bind_ret_l {A B} (a : A) (f : A -> SW S O B) s :
    (mret a ≫= f) s = f a s.
  Proof. sw_unfold. by destruct (f a s) as [[??]?]. Qed.

Lemma sw_bind_ret_r {A} (m : SW S O A) s : (m ≫= mret) s = m s.
  Proof. sw_unfold. destruct (m s) as [[??]?]. by rewrite app_nil_r. Qed.

Lemma sw_bind_assoc {A B C} (m : SW S O A) (f : A -> SW S O B) (g : B -> SW S O C) s :
    ((m ≫= f) ≫= g) s = (m ≫= (fun a => f a ≫= g)) s.
  Proof.
    sw_unfold. destruct (m s) as [[s1 o1] a]. destruct (f a s1) as [[s2 o2] b].
    destruct (g b s2) as [[s3 o3] c]. by rewrite app_assoc.
  Qed.

  (** Running a bind: the state flows through and the outputs concatenate. *)
Lemma exec_bind {A B} (m : SW S O A) (f : A -> SW S O B) s :
    exec (m ≫= f) s = exec (f (m s).2) (exec m s).
  Proof. sw_unfold. destruct (m s) as [[??]?]. by destruct (f _ _) as [[??]?]. Qed.

Lemma outs_bind {A B} (m : SW S O A) (f : A -> SW S O B) s :
    outs (m ≫= f) s = outs m s ++ outs (f (m s).2) (exec m s).
  Proof. sw_unfold. destruct (m s) as [[??]?]. by destruct (f _ _) as [[??]?]. Qed.

Lemma exec_modify (f : S -> S) s : exec (sw_modify (O:=O) f) s = f s.
  Proof. done. Qed.
Lemma exec_emit (o : O) (s : S) : exec (emit o) s = s.
  Proof. done. Qed.
Lemma exec_ret {A} (a : A) s : exec (mret (M:=SW S O) a) s = s.
  Proof. done. Qed.
  (** A step whose value is [()] passes on its final state only. *)
Lemma exec_seq (m : SW S O unit) {B} (k : SW S O B) s : exec (m ;; k) s = exec k (exec m s).
  Proof. apply exec_bind. Qed.
Lemma outs_seq (m : SW S O unit) {B} (k : SW S O B) s :
    outs (m ;; k) s = outs m s ++ outs k (exec m s).
  Proof. apply outs_bind. Qed.

Lemma exec_skip (s : S) : exec (O:=O) skip s = s.
  Proof. done. Qed.
Lemma outs_skip (s : S) : outs (O:=O) skip s = [].
  Proof. done. Qed.

Lemma outs_modify (f : S -> S) s : outs (sw_modify (O:=O) f) s = [].
  Proof. done. Qed.
Lemma outs_emit (o : O) (s : S) : outs (emit o) s = [o].
  Proof. done. Qed.
Lemma outs_ret {A} (a : A) s : outs (mret (M:=SW S O) a) s = [].
  Proof. done. Qed.

  (** An invariant of the state that every step of [m] and [f] keeps. *)
Definition sw_keeps {A} (P : S -> Prop) (m : SW S O A) : Prop :=
    forall s, P s -> P (exec m s).

Lemma sw_keeps_bind {A B} (P : S -> Prop) (m : SW S O A) (f : A -> SW S O B) :
    sw_keeps P m -> (forall a, sw_keeps P (f a)) -> sw_keeps P (m ≫= f).
  Proof. intros Hm Hf s Hs. rewrite exec_bind. by apply Hf, Hm. Qed.

Lemma sw_keeps_emit (P : S -> Prop) (o : O) : sw_keeps P (emit o).
  Proof. by intros s. Qed.

Lemma sw_keeps_ret {A} (P : S -> Prop) (a : A) : sw_keeps P (mret a).
  Proof. by intros s. Qed.

Lemma sw_keeps_get (P : S -> Prop) : sw_keeps P sw_get.
  Proof. by intros s. Qed.

Lemma sw_keeps_modify (P : S -> Prop) f : (forall s, P s -> P (f s)) -> sw_keeps P (sw_modify f).
  Proof. intros Hf s. apply Hf. Qed.

  (** A computation that emits nothing and relates its start and end states
      by [R]: the frame a callback keeps (e.g. "the database is untouched"). *)
Definition silent {A} (R : S -> S -> Prop) (m : SW S O A) : Prop :=
    forall s, R s (exec m s) /\ outs m s = [].

  Context (R : S -> S -> Prop) `{!Reflexive R} `{!Transitive R}.

Lemma silent_ret {A} (a : A) : silent R (mret a).
  Proof. intros s. split; [reflexivity|done]. Qed.

Lemma silent_get : silent R sw_get.
  Proof. intros s. split; [reflexivity|done]. Qed.

Lemma silent_modify f : (forall s, R s (f s)) -> silent R (sw_modify f).
  Proof. intros Hf s. split; [apply Hf|done]. Qed.

Lemma silent_bind {A B} (m : SW S O A) (f : A -> SW S O B) :
    silent R m -> (forall a, silent R (f a)) -> silent R (m ≫= f).
  Proof.
    intros Hm Hf s. rewrite exec_bind, outs_bind.
    destruct (Hm s) as [H1 ->]. destruct (Hf (m s).2 (exec m s)) as [H2 ->].
    split; [by etrans|done].
  Qed.
End sw_laws.

(** A computation whose frame [R] keeps [P] keeps [P]. *)
Lemma silent_keeps {S O A} (R : S -> S -> Prop) (P : S -> Prop) (m : SW S O A) :
  (forall s s', R s s' -> P s -> P s') -> silent R m -> sw_keeps P m.
Proof. intros HR Hm s Hs. apply (HR s); [apply Hm|done]. Qed.

Create HintDb keeps.

(** Prove [sw_keeps P m] by following the structure of [m]; the
    primitives come from the hint database [keeps]. *)
Ltac solve_keeps :=
  repeat (lazymatch goal with
  | |- sw_keeps _ (_ ≫= _) => apply sw_keeps_bind; [|intros ?]
  | |- sw_keeps _ (mret _) => apply sw_keeps_ret
  | |- sw_keeps _ skip => apply sw_keeps_ret
  | |- sw_keeps _ sw_get => apply sw_keeps_get
  | |- sw_keeps _ (emit _) => apply sw_keeps_emit
  | |- sw_keeps _ (if _ then _ else _) => case_match
  | |- sw_keeps _ (match _ with _ => _ end) => case_match
  | |- sw_keeps _ _ => solve [eauto with keeps]
  end).

(** Prove [silent R m] by following the structure of [m]. *)
Ltac solve_silent :=
  repeat (lazymatch goal with
  | |- Reflexive _ => typeclasses eauto
  | |- Transitive _ => typeclasses eauto
  | |- forall _, _ => intros ?
  | |- silent _ (_ ≫= _) => apply silent_bind
  | |- silent _ (mret _) => apply silent_ret
  | |- silent _ skip => apply silent_ret
  | |- silent _ sw_get => apply silent_get
  | |- silent _ (sw_modify _) => apply silent_modify
  | |- silent _ (if _ then _ else _) => case_match
  | |- silent _ (match _ with _ => _ end) => case_match
  | |- silent _ _ => solve [eauto with silent]
  end; try done; try reflexivity; try solve [eauto with silent]).

#[export] Hint Resolve sw_keeps_bind sw_keeps_emit sw_keeps_ret : pencil.
#[export] Hint Rewrite @exec_bind @outs_bind @exec_modify @exec_emit @exec_ret
  @outs_modify @outs_emit @outs_ret : pencil_rw.
#[export] Hint Rewrite @exec_seq @outs_seq : pencil_seq.
#[export] Hint Rewrite @exec_modify @exec_emit @exec_ret @outs_modify @outs_emit @outs_ret
  @exec_skip @outs_skip @app_nil_r @app_nil_l : pencil_base.

(** Break boolean hypotheses into propositions. *)
Ltac bool_hyps :=
  repeat match goal with
  | H : _ && _ = true |- _ => apply andb_true_iff in H as [? ?]
  | H : _ && _ = false |- _ => apply andb_false_iff in H as [?|?]
  | H : _ || _ = false |- _ => apply orb_false_iff in H as [? ?]
  | H : _ || _ = true |- _ => apply orb_true_iff in H as [?|?]
  | H : negb _ = false |- _ => apply negb_false_iff in H
  | H : negb _ = true |- _ => apply negb_true_iff in H
  | H : bool_decide _ = true |- _ => apply bool_decide_eq_true in H
  | H : bool_decide _ = false |- _ => apply bool_decide_eq_false in H
  end.

(** ** Generic list and option lemmas shared by the components *)

Lemma elem_of_app_or {A} (x : A) (l1 l2 : list A) : x ∈ l1 ++ l2 <-> x ∈ l1 \/ x ∈ l2.
Proof. apply elem_of_app. Qed.

Lemma Forall_app_iff {A} (P : A -> Prop) (l1 l2 : list A) :
  Forall P (l1 ++ l2) <-> Forall P l1 /\ Forall P l2.
Proof. apply Forall_app. Qed.

#[export] Hint Rewrite @Forall_app_iff : pencil_rw.

Lemma opt_bind_Some {A B} (x : A) (f : A -> option B) : Some x ≫= f = f x.
Proof. done. Qed.

#[export] Hint Rewrite @opt_bind_Some : pencil_rw.

(** [String.append] is associative, with [""] as unit. *)
Lemma str_app_assoc (s1 s2 s3 : string) : (s1 +:+ s2) +:+ s3 = s1 +:+ (s2 +:+ s3).
Proof. induction s1 as [|a s1 IH]; [done|]. exact (f_equal (String a) IH). Qed.

Lemma str_app_nil_r (s : string) : s +:+ "" = s.
Proof. induction s as [|a s IH]; [done|]. exact (f_equal (String a) IH). Qed.

(** stdpp declares [String.append] [simpl never]; these unfold it. *)
Lemma str_app_cons a (s1 s2 : string) : String a s1 +:+ s2 = String a (s1 +:+ s2).
Proof. done. Qed.

Lemma str_app_nil_l (s : string) : "" +:+ s = s.
Proof. done. Qed.

#[export] Hint Rewrite str_app_assoc str_app_nil_r str_app_cons str_app_nil_l : pencil_rw.
#[export] Hint Rewrite str_app_assoc str_app_nil_r str_app_cons str_app_nil_l : pencil_base.

(** The last element satisfying [p] of a list, the value a stream of
    overwrites leaves behind. *)
Fixpoint last_such {A} (p : A -> bool) (l : list A) : option A :=
  match l with
  | [] => None
  | x :: l' => match last_such p l' with
               | Some y => Some y
               | None => if p x then Some x else None
               end
  end.

Lemma last_such_app {A} (p : A -> bool) (l1 l2 : list A) :
  last_such p (l1 ++ l2) =
  match last_such p l2 with Some y => Some y | None => last_such p l1 end.
Proof.
  induction l1 as [|x l1 IH]; simpl.
  - by destruct (last_such p l2).
  - rewrite IH. destruct (last_such p l2), (last_such p l1); done.
Qed.
