(* ===== verification/Messages.v ===== *)
(** * The wire protocol between the host page and the embedded boards

    Models src/unnamed/part_004 (the module [types/messages]): the two sides
    [Role], the side to move [Turn] and the closed tagged union
    [WireMessage] exchanged with [window.postMessage].  Every constructor of
    the TypeScript union is a constructor here, with the same payload; the
    optional [pgn] of [SYNC_STATE] is an [option string]. *)

From S2P Require Import Prelude.

Inductive Role := white | black.
Inductive Turn := w | b.

(** The only [reason] a [GAME_OVER] carries. *)
Inductive Reason := checkmate.

Inductive WireMessage :=
| IFRAME_READY
| ROLE_ASSIGN (role : Role)
| REQUEST_SYNC
| SYNC_STATE (fen : string) (pgn : option string)
| BOARD_UPDATE (fen : string)
| TURN (turn : Turn)
| RESET
| GAME_OVER (winner : Role) (reason : Reason).

#[export] Instance Role_eq_dec : EqDecision Role.
Proof. solve_decision. Defined.
#[export] Instance Turn_eq_dec : EqDecision Turn.
Proof. solve_decision. Defined.
#[export] Instance Reason_eq_dec : EqDecision Reason.
Proof. solve_decision. Defined.
#[export] Instance WireMessage_eq_dec : EqDecision WireMessage.
Proof. solve_decision. Defined.

(** The side whose pieces move on a turn: ['w'] is white's. *)
Definition side_of_turn (t : Turn) : Role :=
  match t with w => white | b => black end.

Definition opposite (r : Role) : Role :=
  match r with white => black | black => white end.

Definition flip (t : Turn) : Turn :=
  match t with w => b | b => w end.

Lemma opposite_involutive r : opposite (opposite r) = r.
Proof. by destruct r. Qed.

Lemma side_of_turn_flip t : side_of_turn (flip t) = opposite (side_of_turn t).
Proof. by destruct t. Qed.

Lemma side_of_turn_inj t1 t2 : side_of_turn t1 = side_of_turn t2 -> t1 = t2.
Proof. by destruct t1, t2. Qed.

#[export] Hint Rewrite opposite_involutive side_of_turn_flip : pencil_rw.

(** Messages that change whether a board may move: the iframe's gating is a
    function of these alone (see [Embed]). *)
Definition is_gate (m : WireMessage) : bool :=
  match m with TURN _ | RESET | GAME_OVER _ _ => true | _ => false end.

(** A DOM [MessageEvent<WireMessage>] as the handlers read it: the sender's
    origin, the sending window ([event.source], [None] for null) and the
    payload, [None] when it is not an object with a known [type]. *)
Record MessageEvent := mk_event {
  ev_origin : string;
  ev_source : option nat;
  ev_data : option WireMessage
}.
