(* ===== verification/Engine.v ===== *)
(** * The chess rules engine the program calls (chess.js)

    The components never implement chess rules: they call a [Chess] object of
    the chess.js library ([new Chess()], [load], [fen], [turn],
    [isCheckmate], [pgn]).  This file states what the program relies on
    from that library as a type class [Engine] over an abstract position
    type, with the laws the proofs use.  [Chess.load] throws on a malformed
    FEN and leaves the object unchanged; here [load] returns [None] then.
    The theorems of the components are proved against the class.

    [FenLite] is a small executable instance (a FEN parser for the
    placement and side-to-move fields, with a table of mate positions as
    its checkmate test) used only to run the witnesses. *)

From Stdlib Require Import Ascii.
From S2P Require Import Prelude Messages.

Class Engine (Pos : Type) := {
  (** [new Chess()]: the initial position *)
  start : Pos;
  (** [chess.load(fen)]: [None] where chess.js throws *)
  load : string -> option Pos;
  (** [chess.fen()] *)
  fen : Pos -> string;
  (** [chess.turn()]: the side to move *)
  turn : Pos -> Turn;
  (** [chess.isCheckmate()] *)
  isCheckmate : Pos -> bool;
  (** [chess.pgn()] of an object whose history was reset by [load] *)
  pgn : Pos -> string;
  (** the FEN of a loaded position loads back to it *)
  load_fen : forall s p, load s = Some p -> load (fen p) = Some p;
  load_start : load (fen start) = Some start;
  turn_start : turn start = w
}.

Arguments start {_ _}.

Section engine_facts.
  Context {Pos : Type} `{Engine Pos}.

  (** A position the engine can reproduce from its own FEN: every position
      the program ever holds is of this kind. *)
Definition loadable (p : Pos) : Prop := load (fen p) = Some p.

Lemma loadable_start : loadable start.
  Proof. apply load_start. Qed.

Lemma loadable_load s p : load s = Some p -> loadable p.
  Proof. apply load_fen. Qed.

  (** The side to move read off a FEN string, where it parses. *)
Definition fen_turn (s : string) : option Turn := turn <$> load s.

Lemma fen_turn_fen p : loadable p -> fen_turn (fen p) = Some (turn p).
  Proof. unfold fen_turn, loadable. by intros ->. Qed.

  (** The winner the program announces at a mate: the side not to move. *)
Definition winner_at (p : Pos) : Role := opposite (side_of_turn (turn p)).
End engine_facts.

#[export] Hint Resolve loadable_start loadable_load : pencil.

(** ** An executable instance *)
Module FenLite.

Record pos := mk_pos { board : string; side : Turn; rest : string }.

#[export] Instance pos_eq_dec : EqDecision pos.
  Proof. solve_decision. Defined.

  (** Split at the first space. *)
Fixpoint split_sp (s : string) : string * option string :=
    match s with
    | EmptyString => (EmptyString, None)
    | String c s' =>
        if Ascii.eqb c " "%char then (EmptyString, Some s')
        else let '(a, r) := split_sp s' in (String c a, r)
    end.

Fixpoint no_space (s : string) : bool :=
    match s with
    | EmptyString => true
    | String c s' => negb (Ascii.eqb c " "%char) && no_space s'
    end.

Definition turn_of_string (s : string) : option Turn :=
    if String.eqb s "w" then Some w else if String.eqb s "b" then Some b else None.

Definition string_of_turn (t : Turn) : string :=
    match t with w => "w" | b => "b" end.

Definition lload (s : string) : option pos :=
    match split_sp s with
    | (bd, Some r) =>
        if String.eqb bd "" then None else
        match split_sp r with
        | (sd, Some rs) => (fun t => mk_pos bd t rs) <$> turn_of_string sd
        | _ => None
        end
    | _ => None
    end.

Definition lfen (p : pos) : string :=
    board p +:+ " " +:+ string_of_turn (side p) +:+ " " +:+ rest p.

Definition lstart : pos :=
    mk_pos "rnbqkbnr/pppppppp/8/8/8/8/PPPPPPPP/RNBQKBNR" w "KQkq - 0 1".

  (** Fool's mate: white to move and mated. *)
Definition fools_mate : pos :=
    mk_pos "rnb1kbnr/pppp1ppp/8/4p3/6Pq/5P2/PPPPP2P/RNBQKBNR" w "KQkq - 1 3".

Definition mate_table : list (string * Turn) := [(board fools_mate, side fools_mate)].

Definition lcheckmate (p : pos) : bool := bool_decide ((board p, side p) ∈ mate_table).

Definition lpgn (p : pos) : string := "[FEN " +:+ lfen p +:+ "]".

Lemma split_sp_app a c : no_space a = true -> split_sp (a +:+ " " +:+ c) = (a, Some c).
  Proof.
    induction a as [|x a IH]; simpl; [done|].
    intros [Hx Ha]%andb_prop. apply negb_true_iff in Hx. rewrite Hx, IH; done.
  Qed.

Lemma split_sp_no_space s a r : split_sp s = (a, r) -> no_space a = true.
  Proof.
    revert a r. induction s as [|x s IH]; simpl; intros a r E.
    - by inversion E.
    - destruct (Ascii.eqb x " ") eqn:Ex; [by inversion E|].
      destruct (split_sp s) as [a' r'] eqn:Es. inversion E; subst. simpl.
      rewrite Ex. eapply IH; eauto.
  Qed.

Lemma turn_of_string_of_turn t : turn_of_string (string_of_turn t) = Some t.
  Proof. by destruct t. Qed.

Lemma turn_of_string_no_space s t : turn_of_string s = Some t -> s = string_of_turn t.
  Proof.
    unfold turn_of_string. destruct (String.eqb_spec s "w"); [by intros [= <-]|].
    destruct (String.eqb_spec s "b"); [by intros [= <-]|done].
  Qed.

Lemma lload_lfen s p : lload s = Some p -> lload (lfen p) = Some p.
  Proof.
    unfold lload, lfen.
    destruct (split_sp s) as [bd [r|]] eqn:E1; [|done].
    destruct (String.eqb_spec bd ""); [done|].
    destruct (split_sp r) as [sd [rs|]] eqn:E2; [|done].
    destruct (turn_of_string sd) as [t|] eqn:Et; [|done]. simpl. intros [= <-]. simpl.
    rewrite split_sp_app by eauto using split_sp_no_space.
    destruct (String.eqb_spec bd ""); [done|].
    rewrite split_sp_app by (destruct t; done).
    by rewrite turn_of_string_of_turn.
  Qed.

#[global] Instance engine : Engine pos := {
    start := lstart; load := lload; fen := lfen; turn := side;
    isCheckmate := lcheckmate; pgn := lpgn;
    load_fen := lload_lfen;
    load_start := eq_refl;
    turn_start := eq_refl
  }.

End FenLite.
