(* ===== verification/Widget.v ===== *)
(** * The board widget the program drives (ngx-chess-board)

    [BoardEmbedComponent] and [OnlineGameComponent] hold an
    [NgxChessBoardView] and use four of its methods: [getFEN], [setFEN],
    [reverse] (a toggle of the visual orientation) and [reset]; the widget
    reports a finished drag through its [moveChange] output, bound to
    [onUserMove].  This file states what the program relies on as a type
    class [BoardWidget] with its laws.  Two behaviours of the library the
    source only guesses at are kept as explicit parameters:
    - whether [setFEN] puts the board back to white-at-the-bottom (the
      source's comment "setFEN may reset orientation" and its
      [isReversed = false] right after [setFEN] assume it does): the class
      [SetFenResetsOrientation];
    - whether [setFEN]/[reset] fire [moveChange] synchronously, the case the
      [applyingRemote] guard exists for: the field [fires_on_set].

    [ngx] is the concrete widget record (a FEN string and a reversed flag),
    with one instance per choice of these behaviours. *)

From S2P Require Import Prelude Messages Engine.

Class BoardWidget (B : Type) := {
  getFEN : B -> string;
  setFEN : string -> B -> B;
  reverse : B -> B;
  reset : B -> B;
  (** the visual orientation: black at the bottom *)
  reversed : B -> bool;
  (** the user's drag, leaving the board at a new position *)
  drag : string -> B -> B;
  (** the FEN of [reset] *)
  start_fen : string;
  (** [setFEN] and [reset] run the [moveChange] callback synchronously *)
  fires_on_set : bool;
  getFEN_setFEN s bd : getFEN (setFEN s bd) = s;
  getFEN_reverse bd : getFEN (reverse bd) = getFEN bd;
  reversed_reverse bd : reversed (reverse bd) = negb (reversed bd);
  getFEN_reset bd : getFEN (reset bd) = start_fen;
  reversed_reset bd : reversed (reset bd) = false;
  getFEN_drag s bd : getFEN (drag s bd) = s;
  reversed_drag s bd : reversed (drag s bd) = reversed bd
}.

(** The assumption the source makes about [setFEN]. *)
Class SetFenResetsOrientation (B : Type) `{BoardWidget B} :=
  reversed_setFEN s bd : reversed (setFEN s bd) = false.

#[export] Hint Rewrite @getFEN_setFEN @getFEN_reverse @reversed_reverse @getFEN_reset
  @reversed_reset @getFEN_drag @reversed_drag : pencil_rw.
#[export] Hint Rewrite @getFEN_setFEN @getFEN_reverse @reversed_reverse @getFEN_reset
  @reversed_reset @getFEN_drag @reversed_drag : pencil_base.

(** ** The concrete widget *)
Module Ngx.

Record ngx := mk_ngx { nfen : string; nrev : bool }.

#[export] Instance ngx_eq_dec : EqDecision ngx.
  Proof. solve_decision. Defined.

Definition std_start : string := "rnbqkbnr/pppppppp/8/8/8/8/PPPPPPPP/RNBQKBNR w KQkq - 0 1".

  (** [keep]: [setFEN] keeps the orientation; [fires]: [setFEN]/[reset]
      fire [moveChange]. *)
Definition widget (keep fires : bool) : BoardWidget ngx := {|
    getFEN := nfen;
    setFEN s bd := mk_ngx s (if keep then nrev bd else false);
    reverse bd := mk_ngx (nfen bd) (negb (nrev bd));
    reset bd := mk_ngx std_start false;
    reversed := nrev;
    drag s bd := mk_ngx s (nrev bd);
    start_fen := std_start;
    fires_on_set := fires;
    getFEN_setFEN _ _ := eq_refl;
    getFEN_reverse _ := eq_refl;
    reversed_reverse _ := eq_refl;
    getFEN_reset _ := eq_refl;
    reversed_reset _ := eq_refl;
    getFEN_drag _ _ := eq_refl;
    reversed_drag _ _ := eq_refl
  |}.

#[global] Instance widget_resets fires : @SetFenResetsOrientation ngx (widget false fires).
  Proof. by intros ??. Qed.

  (** The widget as the program is written for it: [setFEN] resets the
      orientation; it may fire [moveChange] while being set. *)
#[global] Instance ngx_std : BoardWidget ngx := widget false true.
#[global] Instance ngx_std_resets : SetFenResetsOrientation ngx := widget_resets true.

Definition initial : ngx := mk_ngx std_start false.

  (** The standard start FEN is read by the executable engine. *)
Lemma std_start_loads : FenLite.lload std_start = Some FenLite.lstart.
  Proof. reflexivity. Qed.
End Ngx.
