(* ===== verification/Storage.v ===== *)
(** * Session persistence ([StorageService])

    Models src/src/app/services/storage.service.ts: a [StorageService<T>]
    bound to one key (the injection token [STORAGE_KEY]) reads, writes and
    removes one JSON text in the browser's [localStorage].  [localStorage] is
    a [gmap string string] shared by every component of the origin, with an
    availability flag: when storage is unavailable (disabled, private mode,
    quota) every call throws, and the service's [try/catch] swallows it.
    [JSON.stringify]/[JSON.parse] are a codec class [Json] whose law is the
    round trip; [raw ? JSON.parse(raw) : null] treats the empty string as
    absent, so the class also states that a serialised value is never
    empty.  [JsonFen] is the codec of the host's record [{fen}], with the
    string escaping of [JSON.stringify] for quote and backslash. *)

From Stdlib Require Import Ascii.
From S2P Require Import Prelude.

Record LocalStorage := mk_ls {
  items : gmap string string;
  available : bool
}.

Class Json (T : Type) := {
  stringify : T -> string;
  parse : string -> option T;
  parse_stringify x : parse (stringify x) = Some x;
  stringify_nonempty x : stringify x <> ""
}.

Module StorageService.
Section storage.
  Context {T : Type} `{Json T}.
  (** the [STORAGE_KEY] the service is provided with *)
  Variable key : string.

Definition load (ls : LocalStorage) : option T :=
    if negb (available ls) then None else
    match items ls !! key with
    | None => None
    | Some raw => if String.eqb raw "" then None else parse raw
    end.

Definition save (state : T) (ls : LocalStorage) : LocalStorage :=
    if available ls then mk_ls (<[key := stringify state]> (items ls)) true else ls.

Definition clear (ls : LocalStorage) : LocalStorage :=
    if available ls then mk_ls (delete key (items ls)) true else ls.

  (** C14. Round trip: what the service saves, it loads back, while storage is
      available. *)
Theorem load_save x ls : available ls = true -> load (save x ls) = Some x.
  Proof.
    intros Ha. unfold load, save. rewrite Ha. simpl. rewrite lookup_insert_eq.
    destruct (String.eqb_spec (stringify x) ""); [by destruct (stringify_nonempty x)|].
    apply parse_stringify.
  Qed.

Lemma load_clear ls : load (clear ls) = None.
  Proof. unfold load, clear. destruct (available ls) eqn:Ha; simpl; rewrite ?Ha; [by rewrite lookup_delete_eq|done]. Qed.

Lemma load_unavailable ls : available ls = false -> load ls = None.
  Proof. unfold load. by intros ->. Qed.

Lemma save_unavailable x ls : available ls = false -> save x ls = ls.
  Proof. unfold save. by intros ->. Qed.

Lemma clear_unavailable ls : available ls = false -> clear ls = ls.
  Proof. unfold clear. by intros ->. Qed.

Lemma available_save x ls : available (save x ls) = available ls.
  Proof. unfold save. destruct (available ls) eqn:E; simpl; congruence. Qed.

Lemma available_clear ls : available (clear ls) = available ls.
  Proof. unfold clear. destruct (available ls) eqn:E; simpl; congruence. Qed.
End storage.
End StorageService.
Import StorageService.

#[export] Hint Rewrite @StorageService.available_save @StorageService.available_clear : pencil_rw.
#[export] Hint Rewrite @StorageService.available_save @StorageService.available_clear : pencil_base.

(** Isolation: services bound to different keys (the offline host's
    ['offline-game-state'] and the online page's ['online-game-state'])
    never see each other's writes or removals, whatever their value types. *)
Theorem storage_isolation {T U} `{Json T} `{Json U} k1 k2 (x : U) ls :
  k1 <> k2 ->
  load (T:=T) k1 (save k2 x ls) = load k1 ls /\ load (T:=T) k1 (clear k2 ls) = load k1 ls.
Proof.
  intros Hne. unfold load, save, clear.
  destruct (available ls) eqn:Ha; simpl; rewrite ?Ha; [|done].
  by rewrite lookup_insert_ne, lookup_delete_ne.
Qed.

(** ** The JSON text of a record of string fields

    [JSON.stringify] of an object whose fields are all strings, in the
    canonical form it writes (no spaces, fields in declaration order), and a
    parser for that form.  Inside a string, [JSON.stringify] escapes the quote
    and the backslash, writes [\b \t \n \f \r] for those control characters
    and [\u00xx] (lower-case hex) for the other ones below 0x20. *)
Module JsonText.

Definition q : ascii := ascii_of_nat 34.
Definition bs : ascii := ascii_of_nat 92.

Definition hexdig (n : nat) : ascii :=
    ascii_of_nat (if n <? 10 then 48 + n else 87 + n).

Definition hexval (a : ascii) : option nat :=
    let n := nat_of_ascii a in
    if (48 <=? n) && (n <? 58) then Some (n - 48)
    else if (97 <=? n) && (n <? 103) then Some (n - 87) else None.

  (** The short escape letter of a control character, where it has one. *)
Definition short_escape (n : nat) : option ascii :=
    match n with
    | 8 => Some "b"%char | 9 => Some "t"%char | 10 => Some "n"%char
    | 12 => Some "f"%char | 13 => Some "r"%char | _ => None
    end.

Definition unshort (e : ascii) : option nat :=
    if Ascii.eqb e "b" then Some 8 else if Ascii.eqb e "t" then Some 9
    else if Ascii.eqb e "n" then Some 10 else if Ascii.eqb e "f" then Some 12
    else if Ascii.eqb e "r" then Some 13 else None.

Definition esc_char (c : ascii) : string :=
    let n := nat_of_ascii c in
    if (n =? 34) || (n =? 92) then String bs (String c "")
    else match short_escape n with
    | Some e => String bs (String e "")
    | None =>
        if n <? 32 then String bs ("u00" +:+ String (hexdig (n / 16)) (String (hexdig (n mod 16)) ""))
        else String c ""
    end.

Fixpoint esc (s : string) : string :=
    match s with
    | EmptyString => ""
    | String c s' => esc_char c +:+ esc s'
    end.

  (** Read the body of a string literal up to its closing quote. *)
Fixpoint unesc (s : string) : option (string * string) :=
    match s with
    | EmptyString => None
    | String c s' =>
        let n := nat_of_ascii c in
        if n =? 34 then Some ("", s') else
        if n =? 92 then
          match s' with
          | String e s'' =>
              let m := nat_of_ascii e in
              if (m =? 34) || (m =? 92) then
                '(v, r) ← unesc s''; Some (String e v, r)
              else match unshort e with
              | Some k => '(v, r) ← unesc s''; Some (String (ascii_of_nat k) v, r)
              | None =>
                  match s'' with
                  | String u0 (String u1 (String h1 (String h2 s3))) =>
                      if Ascii.eqb e "u" && Ascii.eqb u0 "0" && Ascii.eqb u1 "0" then
                        match hexval h1, hexval h2 with
                        | Some x1, Some x2 =>
                            '(v, r) ← unesc s3; Some (String (ascii_of_nat (16 * x1 + x2)) v, r)
                        | _, _ => None
                        end
                      else None
                  | _ => None
                  end
              end
          | EmptyString => None
          end
        else if n <? 32 then None
        else '(v, r) ← unesc s'; Some (String c v, r)
    end.

Lemma hexval_hexdig n : n < 16 -> hexval (hexdig n) = Some n.
  Proof.
    intros Hn. do 16 (destruct n as [|n]; [reflexivity|]). lia.
  Qed.

Lemma unesc_esc_char c X v r :
    unesc X = Some (v, r) -> unesc (esc_char c +:+ X) = Some (String c v, r).
  Proof.
    intros HX. destruct c as [[] [] [] [] [] [] [] []]; unfold esc_char; simpl nat_of_ascii;
      cbv beta iota zeta; rewrite ?str_app_cons, ?str_app_nil_l; simpl;
      rewrite ?str_app_cons, ?str_app_nil_l, ?HX; reflexivity.
  Qed.

  (** Reading back an escaped string stops at its closing quote. *)
Lemma unesc_esc v r : unesc (esc v +:+ String q r) = Some (v, r).
  Proof.
    induction v as [|c v IH]; [done|]. simpl. rewrite str_app_assoc.
    by apply unesc_esc_char.
  Qed.

  (** ["k":"v"] *)
Definition field (k v : string) : string :=
    String q (k +:+ String q (String ":" (String q (esc v +:+ String q "")))).

Fixpoint fields (kvs : list (string * string)) : string :=
    match kvs with
    | [] => ""
    | [(k, v)] => field k v
    | (k, v) :: kvs' => field k v +:+ "," +:+ fields kvs'
    end.

Definition obj (kvs : list (string * string)) : string := "{" +:+ fields kvs +:+ "}".

Fixpoint strip (p s : string) : option string :=
    match p, s with
    | EmptyString, _ => Some s
    | String a p', String c s' => if Ascii.eqb a c then strip p' s' else None
    | _, _ => None
    end.

Fixpoint parse_fields (ks : list string) (s : string) : option (list string * string) :=
    match ks with
    | [] => Some ([], s)
    | k :: ks' =>
        rest ← strip (String q (k +:+ String q (String ":" (String q "")))) s;
        '(v, r) ← unesc rest;
        match ks' with
        | [] => Some ([v], r)
        | _ => r' ← strip "," r; '(vs, r'') ← parse_fields ks' r'; Some (v :: vs, r'')
        end
    end.

Definition parse_obj (ks : list string) (s : string) : option (list string) :=
    rest ← strip "{" s;
    '(vs, r) ← parse_fields ks rest;
    if String.eqb r "}" then Some vs else None.

Lemma strip_app p s : strip p (p +:+ s) = Some s.
  Proof.
    induction p as [|a p IH]; [done|]. rewrite str_app_cons. simpl.
    by rewrite Ascii.eqb_refl.
  Qed.

Lemma strip_cons a p s : strip (String a p) (String a s) = strip p s.
  Proof. simpl. by rewrite Ascii.eqb_refl. Qed.

Lemma strip_app_l p p2 s : strip (p +:+ p2) (p +:+ s) = strip p2 s.
  Proof.
    induction p as [|a p IH]; [done|]. rewrite !str_app_cons. simpl.
    by rewrite Ascii.eqb_refl.
  Qed.

Lemma parse_fields_cons k ks s :
    parse_fields (k :: ks) s =
    (rest ← strip (String q (k +:+ String q (String ":" (String q "")))) s;
     '(v, r) ← unesc rest;
     match ks with
     | [] => Some ([v], r)
     | _ => r' ← strip "," r; '(vs, r'') ← parse_fields ks r'; Some (v :: vs, r'')
     end).
  Proof. done. Qed.

Lemma fields_cons2 k v kv kvs :
    fields ((k, v) :: kv :: kvs) = field k v +:+ "," +:+ fields (kv :: kvs).
  Proof. done. Qed.

  (** One field is read back, leaving what follows its closing quote. *)
Lemma strip_unesc_field {C} k v Y (K : string * string -> option C) :
    (rest ← strip (String q (k +:+ String q (String ":" (String q "")))) (field k v +:+ Y);
     unesc rest ≫= K) = K (v, Y).
  Proof.
    unfold field. autorewrite with pencil_rw. rewrite strip_cons, strip_app_l, !strip_cons.
    simpl strip. rewrite opt_bind_Some, unesc_esc. apply opt_bind_Some.
  Qed.

Lemma parse_fields_fields ks vs R :
    length ks = length vs -> parse_fields ks (fields (zip ks vs) +:+ R) = Some (vs, R).
  Proof.
    revert vs. induction ks as [|k ks IH]; intros [|v vs] Hl; try discriminate; [done|].
    rewrite parse_fields_cons.
    destruct ks as [|k' ks'], vs as [|v' vs']; try discriminate.
    - change (fields (zip [k] [v])) with (field k v). by rewrite strip_unesc_field.
    - change (zip (k :: k' :: ks') (v :: v' :: vs')) with ((k, v) :: (k', v') :: zip ks' vs').
      rewrite fields_cons2, !str_app_assoc, strip_unesc_field.
      cbv beta iota. rewrite strip_app, opt_bind_Some.
      change ((k', v') :: zip ks' vs') with (zip (k' :: ks') (v' :: vs')).
      rewrite IH by (simpl in *; lia). done.
  Qed.

(** Round trip of the JSON text: parsing the object [JSON.stringify]
    writes for a record of string fields gives back the field values,
    whatever characters they hold (quotes, backslashes, control characters). *)
Lemma parse_obj_obj ks vs :
    length ks = length vs -> parse_obj ks (obj (zip ks vs)) = Some vs.
  Proof.
    intros Hl. unfold parse_obj, obj. rewrite strip_app, opt_bind_Some.
    by rewrite parse_fields_fields.
  Qed.
End JsonText.

(** A [Json] instance for a record of string fields, from its field names
    and its conversion to and from the list of its field values. *)
Section json_record.
  Context {T : Type} (ks : list string) (to : T -> list string)
    (from : list string -> option T).
  Hypothesis from_to : forall x, from (to x) = Some x.
  Hypothesis length_to : forall x, length (to x) = length ks.

Definition json_record : Json T.
  Proof.
    refine {| stringify x := JsonText.obj (zip ks (to x));
              parse s := JsonText.parse_obj ks s ≫= from |}.
    - intros x. rewrite JsonText.parse_obj_obj by (symmetry; apply length_to).
      apply from_to.
    - intros x. unfold JsonText.obj. rewrite str_app_cons. done.
  Defined.
End json_record.

(** ** Witnesses *)

(** A value with a quote, a backslash and a newline survives the text form. *)
Lemma parse_obj_obj_witness :
  length ["fen"; "note"] = length ["8/8/8/8/8/8/8/8 w - - 0 1"; String JsonText.q (String JsonText.bs "x" ++ String "010" "")] /\
  JsonText.parse_obj ["fen"; "note"]
    (JsonText.obj (zip ["fen"; "note"] ["8/8/8/8/8/8/8/8 w - - 0 1"; String JsonText.q (String JsonText.bs "x" ++ String "010" "")])) =
  Some ["8/8/8/8/8/8/8/8 w - - 0 1"; String JsonText.q (String JsonText.bs "x" ++ String "010" "")].
Proof.
  split; [reflexivity|]. apply JsonText.parse_obj_obj. reflexivity.
Defined.
