(* ===== verification/Embed.v ===== *)
(** * The embedded board controller ([BoardEmbedComponent])

    Models src/src/app/features/board-embed/board-embed.component.ts (the
    second component of that file, lines 15-134).  The component's fields
    [role], [moveDisabled], [applyingRemote], [isReversed] and [board] are the
    record [Embed]; every method is a computation of the state/output monad
    [SW] of the prelude whose output is the list of messages posted to
    [window.parent].  [onMessage] is the listener, with its same-origin and
    shape guards; each [case] of its [switch] is a definition of its own
    ([onRoleAssign], [onSyncState], [onTurn], [onReset], [onGameOver]).
    The definitions live in the module [BoardEmbedComponent], named after
    the class.

    Theorems: the orientation invariant (the board is reversed exactly when
    the role is black, and [isReversed] tracks the widget), idempotence of
    the role assignment, echo suppression (no command from the host ever
    makes the iframe post a message, even when the widget fires its move
    callback while being set), the turn and drag gating, the functional
    behaviour of [SYNC_STATE], [RESET] and [onUserMove], and what happens
    when the widget's [setFEN] keeps the orientation instead. *)

From S2P Require Import Prelude Messages Engine Widget.

Module BoardEmbedComponent.

Record Embed (B : Type) := mk_embed {
  role : option Role;
  moveDisabled : bool;
  applyingRemote : bool;
  isReversed : bool;
  board : B
}.
Arguments mk_embed {B}.
Arguments role {B}. Arguments moveDisabled {B}. Arguments applyingRemote {B}.
Arguments isReversed {B}. Arguments board {B}.

Section embed.
Context {B : Type} `{BoardWidget B}.
(** [window.location.origin] of the iframe *)
Variable origin : string.

Local Abbreviation EM := (SW (Embed B) WireMessage).

Definition set_role (r : option Role) (e : Embed B) : Embed B :=
  mk_embed r (moveDisabled e) (applyingRemote e) (isReversed e) (board e).
Definition set_moveDisabled (d : bool) (e : Embed B) : Embed B :=
  mk_embed (role e) d (applyingRemote e) (isReversed e) (board e).
Definition set_applyingRemote (a : bool) (e : Embed B) : Embed B :=
  mk_embed (role e) (moveDisabled e) a (isReversed e) (board e).
Definition set_isReversed (r : bool) (e : Embed B) : Embed B :=
  mk_embed (role e) (moveDisabled e) (applyingRemote e) r (board e).
Definition set_board (bd : B) (e : Embed B) : Embed B :=
  mk_embed (role e) (moveDisabled e) (applyingRemote e) (isReversed e) bd.

(** The field initialisers. *)
Definition init_embed (bd : B) : Embed B := mk_embed None true false false bd.

(** The drag gates of the template. *)
Definition darkDisabled (e : Embed B) : bool :=
  bool_decide (role e = Some white) || moveDisabled e || applyingRemote e.
Definition lightDisabled (e : Embed B) : bool :=
  bool_decide (role e = Some black) || moveDisabled e || applyingRemote e.

Definition ngAfterViewInit : EM unit :=
  emit IFRAME_READY ;; emit REQUEST_SYNC.

Definition onUserMove : EM unit :=
  e ← sw_get;
  if applyingRemote e then skip
  else emit (BOARD_UPDATE (getFEN (board e))).

(** The widget's [moveChange] output, when [setFEN]/[reset] fire it. *)
Definition moveChange : EM unit := if fires_on_set then onUserMove else skip.

Definition ensureOrientation : EM unit :=
  e ← sw_get;
  let shouldBeReversed := bool_decide (role e = Some black) in
  if bool_decide (shouldBeReversed ≠ isReversed e) then
    sw_modify (fun e => set_board (reverse (board e)) e) ;;
    sw_modify (set_isReversed shouldBeReversed)
  else skip.

Definition onRoleAssign (r : Role) : EM unit :=
  sw_modify (set_role (Some r)) ;;
  ensureOrientation.

Definition onSyncState (fen : string) : EM unit :=
  sw_modify (set_applyingRemote true) ;;
  sw_modify (fun e => set_board (setFEN fen (board e)) e) ;;
  moveChange ;;
  sw_modify (set_isReversed false) ;;
  ensureOrientation ;;
  sw_modify (set_applyingRemote false).

Definition isMyTurn (r : Role) (t : Turn) : bool :=
  bool_decide (r = white /\ t = w) || bool_decide (r = black /\ t = b).

Definition onTurn (t : Turn) : EM unit :=
  e ← sw_get;
  match role e with
  | None => skip
  | Some r => sw_modify (set_moveDisabled (negb (isMyTurn r t)))
  end.

Definition onReset : EM unit :=
  sw_modify (set_applyingRemote true) ;;
  sw_modify (fun e => set_board (reset (board e)) e) ;;
  moveChange ;;
  sw_modify (set_applyingRemote false) ;;
  sw_modify (set_isReversed false) ;;
  ensureOrientation ;;
  sw_modify (fun e => set_moveDisabled (bool_decide (role e ≠ Some white)) e).

Definition onGameOver : EM unit := sw_modify (set_moveDisabled true).

Definition handle (msg : WireMessage) : EM unit :=
  match msg with
  | ROLE_ASSIGN r => onRoleAssign r
  | SYNC_STATE fen _ => onSyncState fen
  | TURN t => onTurn t
  | RESET => onReset
  | GAME_OVER _ _ => onGameOver
  | _ => skip
  end.

Definition onMessage (ev : MessageEvent) : EM unit :=
  if negb (String.eqb (ev_origin ev) origin) then skip else
  match ev_data ev with
  | None => skip
  | Some msg => handle msg
  end.
End embed.
End BoardEmbedComponent.
Import BoardEmbedComponent.

(** ** Predicates on the iframe's state *)

Section embed_predicates.
Context {B : Type} `{BoardWidget B}.

(** [isReversed] is the widget's orientation, which is black-at-bottom
    exactly for the black role, and no remote update is in progress. *)
Definition wf_embed (e : Embed B) : Prop :=
  isReversed e = reversed (board e) /\
  isReversed e = bool_decide (role e = Some black) /\
  applyingRemote e = false.

(** A board without a role is disabled. *)
Definition gated (e : Embed B) : Prop := role e = None -> moveDisabled e = true.

(** Whether the user can drag the pieces of colour [c]. *)
Definition may_drag (e : Embed B) (c : Role) : bool :=
  negb (match c with white => lightDisabled e | black => darkDisabled e end).
End embed_predicates.

(** ** Lemmas on the handlers *)

Section embed_lemmas.
Context {B : Type} `{BoardWidget B}.

Lemma wf_init bd : reversed bd = false -> wf_embed (init_embed bd).
Proof. by unfold wf_embed; simpl; intros ->. Qed.

Lemma moveChange_state e : exec moveChange e = e.
Proof. unfold moveChange, onUserMove. sw_simp. by destruct_ifs. Qed.

Lemma moveChange_outs e : applyingRemote e = true -> outs moveChange e = [].
Proof. intros Ha. unfold moveChange, onUserMove. sw_simp. destruct_ifs; congruence. Qed.

(** Re-orienting a board whose tracker is right makes it right for the role,
    and touches nothing else the program reads. *)
Lemma ensure_oriented e :
  isReversed e = reversed (board e) ->
  let e' := exec ensureOrientation e in
  isReversed e' = reversed (board e') /\
  isReversed e' = bool_decide (role e' = Some black) /\
  role e' = role e /\ moveDisabled e' = moveDisabled e /\
  applyingRemote e' = applyingRemote e /\ getFEN (board e') = getFEN (board e).
Proof.
  intros Hr. unfold ensureOrientation. sw_simp.
  destruct e as [[[|]|] md ar [|] bd]; simpl in *; autorewrite with pencil_rw;
    repeat split; try done; by rewrite <- Hr.
Qed.

Lemma ensure_oriented_any e :
  role (exec ensureOrientation e) = role e /\
  moveDisabled (exec ensureOrientation e) = moveDisabled e /\
  applyingRemote (exec ensureOrientation e) = applyingRemote e /\
  getFEN (board (exec ensureOrientation e)) = getFEN (board e).
Proof. unfold ensureOrientation. sw_simp. destruct_ifs; autorewrite with pencil_rw; done. Qed.

Lemma ensure_outs e : outs ensureOrientation e = [].
Proof. unfold ensureOrientation. sw_simp. by case_bool_decide. Qed.

Lemma ensure_applying e : applyingRemote (exec ensureOrientation e) = applyingRemote e.
Proof. apply ensure_oriented_any. Qed.

(** Re-orienting, then leaving the remote-update section, ends in a
    well-formed state. *)
Lemma ensure_wf e :
  isReversed e = reversed (board e) ->
  wf_embed (set_applyingRemote false (exec ensureOrientation e)).
Proof.
  intros Hr. destruct (ensure_oriented e Hr) as (H1 & H2 & _).
  unfold wf_embed; simpl. intuition congruence.
Qed.

Lemma set_applyingRemote_id (e : Embed B) : set_applyingRemote (applyingRemote e) e = e.
Proof. by destruct e. Qed.

Lemma ensure_wf_idle e :
  isReversed e = reversed (board e) -> applyingRemote e = false ->
  wf_embed (exec ensureOrientation e).
Proof.
  intros Hr Ha. rewrite <- set_applyingRemote_id, ensure_applying, Ha.
  by apply ensure_wf.
Qed.

Lemma wf_set_moveDisabled d e : wf_embed e -> wf_embed (set_moveDisabled d e).
Proof. done. Qed.

(** The state after [SYNC_STATE] and [RESET], up to the re-orientation. *)
Lemma onSyncState_exec fen e :
  exec (onSyncState fen) e =
  set_applyingRemote false
    (exec ensureOrientation (set_isReversed false
       (set_board (setFEN fen (board e)) (set_applyingRemote true e)))).
Proof. unfold onSyncState. autorewrite with pencil_rw. by rewrite moveChange_state. Qed.

Lemma onReset_exec e :
  let e1 := exec ensureOrientation (set_isReversed false (set_applyingRemote false
              (set_board (reset (board e)) (set_applyingRemote true e)))) in
  exec onReset e = set_moveDisabled (bool_decide (role e1 ≠ Some white)) e1.
Proof. unfold onReset. autorewrite with pencil_rw. by rewrite moveChange_state. Qed.

Lemma handle_outs msg e : outs (handle msg) e = [].
Proof.
  destruct msg; simpl; try done.
  - unfold onRoleAssign. autorewrite with pencil_rw. apply ensure_outs.
  - unfold onSyncState. autorewrite with pencil_rw. rewrite moveChange_state.
    simpl. rewrite moveChange_outs by done. autorewrite with pencil_rw.
    by rewrite ensure_outs.
  - unfold onTurn. sw_simp. by destruct (role e).
  - unfold onReset. autorewrite with pencil_rw. rewrite moveChange_state.
    simpl. rewrite moveChange_outs by done. autorewrite with pencil_rw.
    by rewrite ensure_outs.
Qed.

(** A message sets the role exactly when it is a [ROLE_ASSIGN]. *)
Lemma handle_role msg e :
  role (exec (handle msg) e) = match msg with ROLE_ASSIGN r => Some r | _ => role e end.
Proof.
  destruct msg; simpl; try done.
  - unfold onRoleAssign. autorewrite with pencil_rw.
    by destruct (ensure_oriented_any (set_role (Some role0) e)) as (-> & _).
  - rewrite onSyncState_exec. simpl.
    by destruct (ensure_oriented_any (set_isReversed false (set_board (setFEN fen (board e))
      (set_applyingRemote true e)))) as (-> & _).
  - unfold onTurn. sw_simp. destruct (role e) eqn:Er; simpl; by rewrite ?Er.
  - rewrite onReset_exec. simpl. by rewrite (proj1 (ensure_oriented_any _)).
Qed.

Lemma exec_onUserMove e : exec (onUserMove (B:=B)) e = e.
Proof. unfold onUserMove. sw_simp. by destruct_ifs. Qed.

Lemma handle_gated msg e : gated e -> gated (exec (handle msg) e).
Proof.
  unfold gated. intros Hg. destruct msg; simpl; try done.
  - unfold onRoleAssign. autorewrite with pencil_rw.
    by destruct (ensure_oriented_any (set_role (Some role0) e)) as (-> & _).
  - rewrite onSyncState_exec. simpl.
    by destruct (ensure_oriented_any (set_isReversed false (set_board (setFEN fen (board e))
      (set_applyingRemote true e)))) as (-> & -> & _).
  - unfold onTurn. sw_simp. destruct (role e) eqn:Er; simpl; rewrite ?Er; naive_solver.
  - rewrite onReset_exec. simpl. intros Hr. by rewrite Hr.
Qed.

Context `{!SetFenResetsOrientation B}.

Lemma handle_wf msg e : wf_embed e -> wf_embed (exec (handle msg) e).
Proof.
  intros (Hr & Ho & Ha). destruct msg; simpl; try done.
  - unfold onRoleAssign. autorewrite with pencil_rw. by apply ensure_wf_idle.
  - rewrite onSyncState_exec. apply ensure_wf. simpl. by rewrite reversed_setFEN.
  - unfold onTurn. sw_simp. unfold wf_embed.
    destruct (role e) eqn:Er; simpl; rewrite ?Er; auto.
  - rewrite onReset_exec. apply wf_set_moveDisabled, ensure_wf_idle; simpl; [|done].
    by rewrite reversed_reset.
Qed.
End embed_lemmas.

(** ** Theorems of the component *)

Section embed_theorems.
Context {B : Type} `{BoardWidget B}.
Variable origin : string.

(** C7. The orientation invariant: from a well-formed iframe, every event
    the listener receives (from any origin, with any payload) leaves the
    widget reversed exactly when the assigned role is black, with
    [isReversed] equal to the widget's real orientation and no remote
    update left open. *)
Theorem embed_orientation_invariant `{!SetFenResetsOrientation B} ev e :
  wf_embed e -> wf_embed (exec (onMessage origin ev) e).
Proof.
  intros Hwf. unfold onMessage. destruct_ifs; [done|].
  destruct (ev_data ev); [by apply handle_wf|done].
Qed.

(** C8. Echo suppression: handling a message from the host never makes the
    iframe post anything back, whatever its state, even with a widget
    whose [setFEN]/[reset] fire the move callback synchronously (the
    [applyingRemote] guard swallows that report). *)
Theorem embed_no_echo ev e : outs (onMessage origin ev) e = [].
Proof.
  unfold onMessage. destruct_ifs; [done|]. destruct (ev_data ev); [apply handle_outs|done].
Qed.

(** Role assignment is idempotent: a second identical [ROLE_ASSIGN]
    changes nothing, in particular it does not flip the board again. *)
Theorem role_assign_idempotent r e :
  exec (handle (ROLE_ASSIGN r)) (exec (handle (ROLE_ASSIGN r)) e) =
  exec (handle (B:=B) (ROLE_ASSIGN r)) e.
Proof.
  destruct e as [ro md ar ir bd]. simpl. unfold onRoleAssign, ensureOrientation.
  sw_simp. destruct_ifs; sw_simp; destruct_ifs; try done; case_bool_decide; simpl in *;
    try done; by case_bool_decide.
Qed.

(** C9. Turn gating: a [TURN t] enables the board exactly when [t] is the
    side of the assigned role, and is ignored while no role is assigned;
    [GAME_OVER] disables it whatever the state. *)
Theorem turn_gating t e :
  moveDisabled (exec (handle (B:=B) (TURN t)) e) =
    match role e with
    | None => moveDisabled e
    | Some r => bool_decide (side_of_turn t ≠ r)
    end /\
  moveDisabled (exec (handle (B:=B) (GAME_OVER (opposite (side_of_turn t)) checkmate)) e) = true.
Proof.
  unfold handle, onTurn, onGameOver. sw_simp. split; [|done].
  destruct (role e) as [r|]; [|done]. simpl. by destruct r, t.
Qed.

(** Drag gating: on a board where a missing role means disabled (true
    from the initialisers on, and kept by every message, see
    [handle_gated]), the user can drag the pieces of colour [c] only when
    [c] is the board's own role, moves are enabled and no remote update is
    being applied. *)
Theorem drag_only_own_pieces (e : Embed B) c :
  gated e -> may_drag e c = true ->
  role e = Some c /\ moveDisabled e = false /\ applyingRemote e = false.
Proof.
  unfold gated, may_drag, lightDisabled, darkDisabled. intros Hg.
  destruct (role e) as [[|]|], c, (moveDisabled e), (applyingRemote e); simpl; naive_solver.
Qed.

(** [SYNC_STATE] overwrites the widget with the host's FEN and keeps the
    role and the move gate; the remote-update guard is closed again. *)
Theorem sync_state_spec fen p e :
  let e' := exec (handle (B:=B) (SYNC_STATE fen p)) e in
  getFEN (board e') = fen /\ role e' = role e /\
  moveDisabled e' = moveDisabled e /\ applyingRemote e' = false.
Proof.
  simpl. rewrite onSyncState_exec. simpl.
  destruct (ensure_oriented_any (set_isReversed false (set_board (setFEN fen (board e))
    (set_applyingRemote true e)))) as (-> & -> & _ & ->). simpl.
  by autorewrite with pencil_rw.
Qed.

(** [RESET] puts the widget at the start position and enables moves
    exactly for the white role (white moves first); the role is kept. *)
Theorem reset_spec e :
  let e' := exec (handle (B:=B) RESET) e in
  getFEN (board e') = start_fen /\ role e' = role e /\
  moveDisabled e' = bool_decide (role e ≠ Some white) /\ applyingRemote e' = false.
Proof.
  simpl. rewrite onReset_exec. simpl.
  destruct (ensure_oriented_any (set_isReversed false (set_applyingRemote false
    (set_board (reset (board e)) (set_applyingRemote true e))))) as (Hr & _ & Ha & Hf).
  simpl in *. rewrite Hr, Ha, Hf. by autorewrite with pencil_rw.
Qed.

(** A finished drag is reported to the parent with the widget's FEN,
    whatever the move gate says (the host is the one that validates), and
    is swallowed only while a remote update is being applied. *)
Theorem user_move_reports e :
  exec (onUserMove (B:=B)) e = e /\
  outs (onUserMove (B:=B)) e = if applyingRemote e then [] else [BOARD_UPDATE (getFEN (board e))].
Proof. unfold onUserMove. sw_simp. by destruct (applyingRemote e). Qed.
End embed_theorems.

(** If [setFEN] kept the visual orientation (the source's comment
    leaves it open), a black iframe that is correctly reversed would be
    turned back to white-at-the-bottom by every [SYNC_STATE], while
    [isReversed] claims it is still reversed: [isReversed = false] after
    [setFEN] is right only for a widget that resets the orientation. *)
Theorem keep_widget_unflips_black fires e fen p :
  role e = Some black -> isReversed e = true -> Ngx.nrev (board e) = true ->
  let e' := exec (@handle _ (Ngx.widget true fires) (SYNC_STATE fen p)) e in
  Ngx.nrev (board e') = false /\ isReversed e' = true.
Proof.
  intros Hro Hi Hn. simpl. unfold onSyncState, moveChange, onUserMove, ensureOrientation.
  sw_simp. destruct fires; simpl; rewrite Hro, Hn; simpl; done.
Qed.

(** ** Witnesses *)

Definition test_origin : string := "https://pencil-chess.app".

Definition ev_of (m : WireMessage) : MessageEvent := mk_event test_origin (Some 0) (Some m).

Lemma embed_orientation_invariant_witness :
  wf_embed (B:=Ngx.ngx) (init_embed Ngx.initial) /\
  wf_embed (exec (onMessage test_origin (ev_of (ROLE_ASSIGN black))) (init_embed Ngx.initial)).
Proof.
  assert (H0 : wf_embed (B:=Ngx.ngx) (init_embed Ngx.initial)) by (repeat split).
  split; [exact H0|]. apply embed_orientation_invariant; first [exact H0 | exact _].
Defined.

Lemma drag_only_own_pieces_witness :
  let e := exec (onMessage test_origin (ev_of (TURN w)))
             (exec (onMessage test_origin (ev_of (ROLE_ASSIGN white))) (init_embed Ngx.initial)) in
  gated e /\ may_drag e white = true /\
  (role e = Some white /\ moveDisabled e = false /\ applyingRemote e = false).
Proof.
  simpl. assert (Hg : gated (B:=Ngx.ngx) (mk_embed (Some white) false false false Ngx.initial))
    by (intros ?; done).
  split; [exact Hg|]. split; [reflexivity|].
  apply (drag_only_own_pieces _ white Hg). reflexivity.
Defined.

Lemma keep_widget_unflips_black_witness :
  let e := mk_embed (Some black) true false true (Ngx.mk_ngx Ngx.std_start true) in
  (role e = Some black /\ isReversed e = true /\ Ngx.nrev (board e) = true) /\
  let e' := exec (@handle _ (Ngx.widget true false) (SYNC_STATE "8/8/8/8/8/8/8/8 w - - 0 1" None)) e in
  Ngx.nrev (board e') = false /\ isReversed e' = true.
Proof.
  intros e. split; [repeat split|].
  apply (keep_widget_unflips_black false e); reflexivity.
Defined.
