(* ===== verification/Host.v ===== *)
(** * The offline host page ([GameHostComponent])

    Models src/src/app/features/game-host/game-host.component.ts.  The
    component's fields ([chess], the [StorageService] it is given, the texts
    and the overlay flag) are the record [Host]; the two iframes are known
    to it only through their [contentWindow]s, [window1] and [window2]
    (section variables: [None] while a frame has no window).  Every method is
    a computation of the prelude's monad [SW] whose output is the list of
    [(target window, message)] posted with [postMessage].  The [Chess] object
    is a position of an [Engine].

    Theorems: the turn guard of [BOARD_UPDATE] (a report from the window not
    to move, or with a FEN the engine rejects, changes nothing and posts
    nothing), the accepted move (state, persistence, mirroring to the other
    window only, the turn broadcast), the checkmate branch (winner, and what
    it does not do: it neither mirrors the final position nor clears the
    saved game), the role assignment, the reset, the resume after reload
    (save/load round trip through the JSON text), and the invariant that the
    host's position is always one the engine reproduces from its FEN. *)

From S2P Require Import Prelude Messages Engine Storage.

Module GameHostComponent.

(** [type SavedState = { fen: string }] *)
Record SavedState := mk_saved { saved_fen : string }.

#[export] Instance SavedState_json : Json SavedState :=
  json_record ["fen"] (fun x => [saved_fen x])
    (fun l => match l with [f] => Some (mk_saved f) | _ => None end)
    (fun x => match x with mk_saved _ => eq_refl end) (fun _ => eq_refl).

Record Host (P : Type) := mk_host {
  chess : P;
  storage : LocalStorage;
  currentTurnText : string;
  overlayVisible : bool;
  overlayText : string
}.
Arguments mk_host {P}.
Arguments chess {P}. Arguments storage {P}. Arguments currentTurnText {P}.
Arguments overlayVisible {P}. Arguments overlayText {P}.

(** The provider of [STORAGE_KEY] in the component's metadata. *)
Definition HOST_STORAGE_KEY : string := "offline-game-state".

Section host.
  Context {P : Type} `{Engine P}.
  (** [window.location.origin] *)
  Variable origin : string.
  (** [frame1/frame2.nativeElement.contentWindow] *)
  Variables window1 window2 : option nat.

  Local Abbreviation HM := (SW (Host P) (nat * WireMessage)).

Definition set_chess (p : P) (h : Host P) : Host P :=
    mk_host p (storage h) (currentTurnText h) (overlayVisible h) (overlayText h).
Definition set_storage (ls : LocalStorage) (h : Host P) : Host P :=
    mk_host (chess h) ls (currentTurnText h) (overlayVisible h) (overlayText h).
Definition set_currentTurnText (s : string) (h : Host P) : Host P :=
    mk_host (chess h) (storage h) s (overlayVisible h) (overlayText h).
Definition set_overlayVisible (v : bool) (h : Host P) : Host P :=
    mk_host (chess h) (storage h) (currentTurnText h) v (overlayText h).
Definition set_overlayText (s : string) (h : Host P) : Host P :=
    mk_host (chess h) (storage h) (currentTurnText h) (overlayVisible h) s.

  (** The constructor and field initialisers: [new Chess()]. *)
Definition init_host (ls : LocalStorage) : Host P := mk_host start ls "" false "".

  (** Restore the last unfinished game. *)
Definition ngAfterViewInit : HM unit :=
    h ← sw_get;
    match StorageService.load HOST_STORAGE_KEY (storage h) with
    | Some saved =>
        if String.eqb (saved_fen saved) "" then skip else
        match load (saved_fen saved) with
        | Some p => sw_modify (set_chess p)
        | None => skip
        end
    | None => skip
    end.

Definition otherWindow (src : nat) : option nat :=
    if bool_decide (Some src = window1) then window2 else window1.

Definition currentTurnWindow (h : Host P) : option nat :=
    if bool_decide (turn (chess h) = w) then window1 else window2.

Definition postTo (target : option nat) (msg : WireMessage) : HM unit :=
    match target with Some t => emit (t, msg) | None => skip end.

Definition postToBoth (msg : WireMessage) : HM unit :=
    postTo window1 msg ;; postTo window2 msg.

Definition syncStateTo (target : nat) : HM unit :=
    h ← sw_get; postTo (Some target) (SYNC_STATE (fen (chess h)) None).

Definition turnText (t : Turn) : string :=
    if bool_decide (t = w) then "White to move" else "Black to move".

Definition broadcastTurn : HM unit :=
    h ← sw_get;
    let t := turn (chess h) in
    sw_modify (set_currentTurnText (turnText t)) ;;
    postToBoth (TURN t).

Definition onReady (src : nat) : HM unit :=
    let role := if bool_decide (Some src = window1) then white else black in
    postTo (Some src) (ROLE_ASSIGN role) ;;
    syncStateTo src ;;
    broadcastTurn.

Definition onRequestSync (src : nat) : HM unit :=
    syncStateTo src ;;
    broadcastTurn.

  (** [`${winner.toUpperCase()} wins by checkmate`] *)
Definition winsText (r : Role) : string :=
    match r with white => "WHITE wins by checkmate" | black => "BLACK wins by checkmate" end.

Definition onBoardUpdate (src : nat) (f : string) : HM unit :=
    h ← sw_get;
    if negb (bool_decide (Some src = currentTurnWindow h)) then skip else
    match load f with
    | None => skip
    | Some p =>
        sw_modify (set_chess p) ;;
        sw_modify (fun h => set_storage (StorageService.save HOST_STORAGE_KEY (mk_saved f) (storage h)) h) ;;
        if isCheckmate p then
          let winner := if bool_decide (turn p = w) then black else white in
          postToBoth (GAME_OVER winner checkmate) ;;
          sw_modify (set_overlayText (winsText winner)) ;;
          sw_modify (set_overlayVisible true)
        else
          postTo (otherWindow src) (SYNC_STATE f None) ;;
          broadcastTurn
    end.

Definition onMessage (ev : MessageEvent) : HM unit :=
    if negb (String.eqb (ev_origin ev) origin) then skip else
    match ev_source ev with
    | None => skip
    | Some src =>
        match ev_data ev with
        | None => skip
        | Some IFRAME_READY => onReady src
        | Some REQUEST_SYNC => onRequestSync src
        | Some (BOARD_UPDATE f) => onBoardUpdate src f
        | Some _ => skip
        end
    end.

Definition newGame : HM unit :=
    sw_modify (set_chess start) ;;
    sw_modify (fun h => set_storage (StorageService.clear HOST_STORAGE_KEY (storage h)) h) ;;
    sw_modify (set_overlayVisible false) ;;
    sw_modify (set_overlayText "") ;;
    h ← sw_get;
    let f := fen (chess h) in
    postToBoth RESET ;;
    postToBoth (SYNC_STATE f None) ;;
    broadcastTurn.

Definition openOverlay : HM unit :=
    sw_modify (set_overlayText "Do you want to reset the game?") ;;
    sw_modify (set_overlayVisible true).
End host.
End GameHostComponent.
Import GameHostComponent.

(** ** Properties of the host *)

Section host_facts.
  Context {P : Type} `{Engine P}.
  Variable origin : string.
  Variables window1 window2 : option nat.

  Local Abbreviation postTo := (postTo (P:=P)).
  Local Abbreviation postToBoth := (postToBoth (P:=P) window1 window2).
  Local Abbreviation broadcastTurn := (broadcastTurn (P:=P) window1 window2).
  Local Abbreviation onMsg := (onMessage origin window1 window2).

  (** The messages [postTo target msg] posts. *)
Definition posts_to (target : option nat) (msg : WireMessage) : list (nat * WireMessage) :=
    match target with Some t => [(t, msg)] | None => [] end.
Definition both (msg : WireMessage) : list (nat * WireMessage) :=
    posts_to window1 msg ++ posts_to window2 msg.

Lemma exec_postTo t m h : exec (postTo t m) h = h.
  Proof. by destruct t. Qed.
Lemma outs_postTo t m h : outs (postTo t m) h = posts_to t m.
  Proof. by destruct t. Qed.
Lemma exec_postToBoth m h : exec (postToBoth m) h = h.
  Proof. unfold GameHostComponent.postToBoth. by rewrite exec_bind, !exec_postTo. Qed.
Lemma outs_postToBoth m h : outs (postToBoth m) h = both m.
  Proof. unfold GameHostComponent.postToBoth. by rewrite outs_bind, exec_postTo, !outs_postTo. Qed.

Lemma exec_broadcastTurn h :
    exec broadcastTurn h = set_currentTurnText (turnText (turn (chess h))) h.
  Proof. unfold GameHostComponent.broadcastTurn. autorewrite with pencil_rw. by rewrite exec_postToBoth. Qed.
Lemma outs_broadcastTurn h : outs broadcastTurn h = both (TURN (turn (chess h))).
  Proof.
    unfold GameHostComponent.broadcastTurn. autorewrite with pencil_rw. simpl.
    by rewrite outs_postToBoth.
  Qed.

Lemma exec_syncStateTo t h : exec (syncStateTo t) h = h.
  Proof. done. Qed.
Lemma outs_syncStateTo t h : outs (syncStateTo t) h = [(t, SYNC_STATE (fen (chess h)) None)].
  Proof. done. Qed.
End host_facts.

#[export] Hint Rewrite @exec_postTo @outs_postTo @exec_postToBoth @outs_postToBoth
  @exec_broadcastTurn @outs_broadcastTurn @exec_syncStateTo @outs_syncStateTo : pencil_rw.

Section host_claims.
  Context {P : Type} `{Engine P}.
  Variable origin : string.
  Variables window1 window2 : option nat.

  Local Abbreviation onMsg := (onMessage origin window1 window2).
  Local Abbreviation currentTurnWindow := (currentTurnWindow (P:=P) window1 window2).
  Local Abbreviation both := (both window1 window2).

Lemma onMsg_dispatch ev src d :
    ev_origin ev = origin -> ev_source ev = Some src -> ev_data ev = Some d ->
    onMsg ev = match d with
               | IFRAME_READY => onReady window1 window2 src
               | REQUEST_SYNC => onRequestSync window1 window2 src
               | BOARD_UPDATE f => onBoardUpdate window1 window2 src f
               | _ => skip
               end.
  Proof.
    intros Ho Hs Hd. unfold onMessage. rewrite Ho, Hs, Hd, String.eqb_refl. simpl.
    by destruct d.
  Qed.

  (** The first early return of [BOARD_UPDATE]: not the window to move. *)
Lemma onBoardUpdate_wrong_turn src f h :
    Some src <> currentTurnWindow h ->
    exec (onBoardUpdate window1 window2 src f) h = h /\
    outs (onBoardUpdate window1 window2 src f) h = [].
  Proof.
    intros Hc. unfold onBoardUpdate. sw_simp.
    case_bool_decide as Ht; simpl; done.
  Qed.

  (** The second early return: [chess.load] throws. *)
Lemma onBoardUpdate_rejected src f h :
    load f = None ->
    exec (onBoardUpdate window1 window2 src f) h = h /\
    outs (onBoardUpdate window1 window2 src f) h = [].
  Proof.
    intros Hl. unfold onBoardUpdate. sw_simp. rewrite Hl. by destruct_ifs.
  Qed.

  (** The accepted report: state and posts before the checkmate test. *)
Lemma onBoardUpdate_accepted src f h p :
    Some src = currentTurnWindow h -> load f = Some p ->
    let h1 := set_storage (StorageService.save HOST_STORAGE_KEY (mk_saved f) (storage h))
                (set_chess p h) in
    exec (onBoardUpdate window1 window2 src f) h =
      (if isCheckmate p
       then set_overlayVisible true
              (set_overlayText (winsText (if bool_decide (turn p = w) then black else white)) h1)
       else set_currentTurnText (turnText (turn p)) h1) /\
    outs (onBoardUpdate window1 window2 src f) h =
      (if isCheckmate p
       then both (GAME_OVER (if bool_decide (turn p = w) then black else white) checkmate)
       else posts_to (otherWindow window1 window2 src) (SYNC_STATE f None) ++ both (TURN (turn p))).
  Proof.
    intros Ht Hl. unfold onBoardUpdate.
    rewrite exec_bind, outs_bind. cbn [sw_get exec outs fst snd].
    rewrite ?bool_decide_eq_true_2 by done. simpl negb. cbv iota. rewrite Hl.
    autorewrite with pencil_rw. simpl.
    destruct (isCheckmate p); autorewrite with pencil_rw; simpl; by rewrite ?app_nil_r.
  Qed.

Lemma winner_matches p : (if bool_decide (turn p = w) then black else white) = winner_at p.
  Proof. unfold winner_at. by destruct (turn p). Qed.

  (** C1. A report from a window other than the one whose turn it is is
      dropped: no state change, nothing posted. *)
Theorem board_update_wrong_turn_ignored ev h src f :
    ev_source ev = Some src -> ev_data ev = Some (BOARD_UPDATE f) ->
    Some src <> currentTurnWindow h ->
    exec (onMsg ev) h = h /\ outs (onMsg ev) h = [].
  Proof.
    intros Hs Hd Hc. unfold onMessage. rewrite Hs, Hd.
    destruct_ifs; [done|]. by apply onBoardUpdate_wrong_turn.
  Qed.

  (** C2. A report whose FEN the engine rejects is dropped: the position,
      the saved game and the children are untouched. *)
Theorem board_update_invalid_ignored ev h src f :
    ev_source ev = Some src -> ev_data ev = Some (BOARD_UPDATE f) -> load f = None ->
    exec (onMsg ev) h = h /\ outs (onMsg ev) h = [].
  Proof.
    intros Hs Hd Hl. unfold onMessage. rewrite Hs, Hd.
    destruct_ifs; [done|]. by apply onBoardUpdate_rejected.
  Qed.

  (** C3. An accepted move that does not mate: the host takes the reported
      position, saves its FEN, mirrors the FEN to the other window only (the
      reporting window has it already) and then announces the new turn to
      both windows, in that order. *)
Theorem board_update_accepted ev h src f p :
    ev_origin ev = origin -> ev_source ev = Some src -> ev_data ev = Some (BOARD_UPDATE f) ->
    Some src = currentTurnWindow h -> load f = Some p -> isCheckmate p = false ->
    let h' := exec (onMsg ev) h in
    chess h' = p /\
    storage h' = StorageService.save HOST_STORAGE_KEY (mk_saved f) (storage h) /\
    outs (onMsg ev) h =
      posts_to (otherWindow window1 window2 src) (SYNC_STATE f None) ++ both (TURN (turn p)).
  Proof.
    intros Ho Hs Hd Ht Hl Hm. simpl. rewrite (onMsg_dispatch ev src _ Ho Hs Hd).
    destruct (onBoardUpdate_accepted src f h p Ht Hl) as [-> ->]. by rewrite Hm.
  Qed.

  (** C4. A mating move: both windows are told [GAME_OVER] with the side not
      to move as the winner and the overlay shows it; the final position is
      NOT mirrored to the other window (the loser's board never shows the
      mating move) and the saved game is NOT cleared (a reload resumes the
      finished game). *)
Theorem board_update_checkmate ev h src f p :
    ev_origin ev = origin -> ev_source ev = Some src -> ev_data ev = Some (BOARD_UPDATE f) ->
    Some src = currentTurnWindow h -> load f = Some p -> isCheckmate p = true ->
    let h' := exec (onMsg ev) h in
    chess h' = p /\ overlayVisible h' = true /\ overlayText h' = winsText (winner_at p) /\
    storage h' = StorageService.save HOST_STORAGE_KEY (mk_saved f) (storage h) /\
    outs (onMsg ev) h = both (GAME_OVER (winner_at p) checkmate).
  Proof.
    intros Ho Hs Hd Ht Hl Hm. simpl. rewrite (onMsg_dispatch ev src _ Ho Hs Hd).
    destruct (onBoardUpdate_accepted src f h p Ht Hl) as [-> ->].
    rewrite Hm, winner_matches. done.
  Qed.

  (** C10. Role assignment: a ready window gets [white] exactly when it is the
      first frame's window ([black] for any other sender), then the current
      FEN, then the turn goes to both windows; the position is unchanged. *)
Theorem ready_assigns_role ev h src :
    ev_origin ev = origin -> ev_source ev = Some src -> ev_data ev = Some IFRAME_READY ->
    chess (exec (onMsg ev) h) = chess h /\
    outs (onMsg ev) h =
      [(src, ROLE_ASSIGN (if bool_decide (Some src = window1) then white else black));
       (src, SYNC_STATE (fen (chess h)) None)] ++ both (TURN (turn (chess h))).
  Proof.
    intros Ho Hs Hd. rewrite (onMsg_dispatch ev src _ Ho Hs Hd).
    unfold onReady. autorewrite with pencil_rw. done.
  Qed.

  (** A resync request re-sends the FEN to the requester and the turn to
      both windows, without assigning any role and without changing the
      position. *)
Theorem request_sync_resends ev h src :
    ev_origin ev = origin -> ev_source ev = Some src -> ev_data ev = Some REQUEST_SYNC ->
    chess (exec (onMsg ev) h) = chess h /\
    outs (onMsg ev) h = (src, SYNC_STATE (fen (chess h)) None) :: both (TURN (turn (chess h))).
  Proof.
    intros Ho Hs Hd. rewrite (onMsg_dispatch ev src _ Ho Hs Hd).
    unfold onRequestSync. autorewrite with pencil_rw. done.
  Qed.

  (** C11. Events from another origin, without a source window or without a
      recognised payload, and every payload the host has no [case] for
      ([ROLE_ASSIGN], [SYNC_STATE], [TURN], [RESET], [GAME_OVER]: the
      messages the host itself sends) are dropped without effect. *)
Theorem foreign_events_dropped ev h :
    (ev_origin ev <> origin \/ ev_source ev = None \/ ev_data ev = None \/
     exists m, ev_data ev = Some m /\
       match m with IFRAME_READY | REQUEST_SYNC | BOARD_UPDATE _ => False | _ => True end) ->
    exec (onMsg ev) h = h /\ outs (onMsg ev) h = [].
  Proof.
    unfold onMessage. intros Hc.
    destruct (String.eqb_spec (ev_origin ev) origin) as [Ho|Ho]; simpl; [|done].
    destruct (ev_source ev); [|done]. destruct Hc as [?|[?|[Hd|(m & Hd & Hm)]]]; try done;
      rewrite Hd; [done|]. by destruct m.
  Qed.

  (** C12. [newGame]: a fresh position, the saved game removed, and [RESET],
      the start FEN and white's turn posted to both windows in that order. *)
Theorem new_game_spec h :
    let h' := exec (newGame window1 window2) h in
    chess h' = start /\ overlayVisible h' = false /\
    StorageService.load (T:=SavedState) HOST_STORAGE_KEY (storage h') = None /\
    outs (newGame window1 window2) h =
      both RESET ++ both (SYNC_STATE (fen start) None) ++ both (TURN w).
  Proof.
    unfold newGame. autorewrite with pencil_rw. simpl.
    rewrite turn_start, StorageService.load_clear.
    by rewrite ?app_nil_r.
  Qed.

Lemma onBoardUpdate_applied src f h p :
    Some src = currentTurnWindow h -> load f = Some p ->
    chess (exec (onBoardUpdate window1 window2 src f) h) = p /\
    storage (exec (onBoardUpdate window1 window2 src f) h) =
      StorageService.save HOST_STORAGE_KEY (mk_saved f) (storage h).
  Proof.
    intros Ht Hl. destruct (onBoardUpdate_accepted src f h p Ht Hl) as [-> _].
    by destruct (isCheckmate p).
  Qed.

  (** C13. Resume after reload, of a finished game too: once a move is
      accepted, mating or not, its FEN is the saved game, and a fresh host
      page created on the same storage resumes exactly that position (the
      FEN goes through [JSON.stringify], [localStorage] and [JSON.parse]
      unchanged).  After a mating move this restores the finished game,
      although the restore is commented "Restore last unfinished game". *)
Theorem resume_after_reload ev h src f p :
    available (storage h) = true ->
    ev_origin ev = origin -> ev_source ev = Some src -> ev_data ev = Some (BOARD_UPDATE f) ->
    Some src = currentTurnWindow h -> load f = Some p -> f <> "" ->
    let h' := exec (onMsg ev) h in
    StorageService.load HOST_STORAGE_KEY (storage h') = Some (mk_saved f) /\
    chess (exec ngAfterViewInit (init_host (storage h'))) = p /\
    (isCheckmate p = true -> isCheckmate (chess (exec ngAfterViewInit (init_host (storage h')))) = true).
  Proof.
    intros Ha Ho Hs Hd Ht Hl Hf h'. unfold h'. rewrite (onMsg_dispatch ev src _ Ho Hs Hd).
    rewrite (proj2 (onBoardUpdate_applied src f h p Ht Hl)).
    assert (Hsv : StorageService.load HOST_STORAGE_KEY
                    (StorageService.save HOST_STORAGE_KEY (mk_saved f) (storage h)) = Some (mk_saved f)).
    { unfold StorageService.load, StorageService.save. rewrite Ha. cbn [negb items available].
      rewrite lookup_insert_eq.
      destruct (String.eqb_spec (stringify (mk_saved f)) ""); [by destruct (stringify_nonempty (mk_saved f))|].
      apply parse_stringify. }
    unfold ngAfterViewInit. sw_simp. rewrite Hsv. simpl.
    destruct (String.eqb_spec f ""); [done|]. rewrite Hl. simpl. split_and!; [done|done|by intros ->].
  Qed.
End host_claims.

(** ** Witnesses: the two-frame page with the executable engine *)

Definition host_origin : string := "https://pencil-chess.app".
Definition host0 : Host FenLite.pos := init_host (mk_ls ∅ true).
Definition ev_at (src : nat) (m : WireMessage) : MessageEvent := mk_event host_origin (Some src) (Some m).
Definition fen_e4 : string := "rnbqkbnr/pppppppp/8/8/4P3/8/PPPP1PPP/RNBQKBNR b KQkq e3 0 1".
Definition fen_fools : string := "rnb1kbnr/pppp1ppp/8/4p3/6Pq/5P2/PPPPP2P/RNBQKBNR w KQkq - 1 3".
(** The position before black's mating move of fool's mate. *)
Definition host_premate : Host FenLite.pos :=
  set_chess (FenLite.mk_pos "rnbqkbnr/pppp1ppp/8/4p3/6P1/5P2/PPPPP2P/RNBQKBNR" b "KQkq e6 0 2") host0.
Definition host_mated : Host FenLite.pos := set_chess FenLite.fools_mate host0.

Lemma board_update_wrong_turn_ignored_witness :
  (ev_source (ev_at 2 (BOARD_UPDATE fen_e4)) = Some 2 /\
   ev_data (ev_at 2 (BOARD_UPDATE fen_e4)) = Some (BOARD_UPDATE fen_e4) /\
   Some 2 <> currentTurnWindow (Some 1) (Some 2) host0) /\
  exec (onMessage host_origin (Some 1) (Some 2) (ev_at 2 (BOARD_UPDATE fen_e4))) host0 = host0 /\
  outs (onMessage host_origin (Some 1) (Some 2) (ev_at 2 (BOARD_UPDATE fen_e4))) host0 = [].
Proof.
  assert (Hc : Some 2 <> currentTurnWindow (Some 1) (Some 2) host0) by (vm_compute; congruence).
  split; [split; [reflexivity|split; [reflexivity|exact Hc]]|].
  exact (board_update_wrong_turn_ignored host_origin (Some 1) (Some 2) (ev_at 2 (BOARD_UPDATE fen_e4)) host0 2 fen_e4
           eq_refl eq_refl Hc).
Defined.

Lemma board_update_invalid_ignored_witness :
  load (Pos:=FenLite.pos) "not a fen" = None /\
  exec (onMessage host_origin (Some 1) (Some 2) (ev_at 1 (BOARD_UPDATE "not a fen"))) host0 = host0.
Proof.
  split; [reflexivity|].
  exact (proj1 (board_update_invalid_ignored host_origin (Some 1) (Some 2) (ev_at 1 (BOARD_UPDATE "not a fen")) host0 1 _
                  eq_refl eq_refl eq_refl)).
Defined.

Lemma board_update_accepted_witness :
  (Some 1 = currentTurnWindow (Some 1) (Some 2) host0 /\
   load fen_e4 = Some (FenLite.mk_pos "rnbqkbnr/pppppppp/8/8/4P3/8/PPPP1PPP/RNBQKBNR" b "KQkq e3 0 1") /\
   isCheckmate (FenLite.mk_pos "rnbqkbnr/pppppppp/8/8/4P3/8/PPPP1PPP/RNBQKBNR" b "KQkq e3 0 1") = false) /\
  outs (onMessage host_origin (Some 1) (Some 2) (ev_at 1 (BOARD_UPDATE fen_e4))) host0 =
    [(2, SYNC_STATE fen_e4 None); (1, TURN b); (2, TURN b)].
Proof.
  split; [split; [reflexivity|split; reflexivity]|].
  exact (proj2 (proj2 (board_update_accepted host_origin (Some 1) (Some 2) (ev_at 1 (BOARD_UPDATE fen_e4)) host0 1 fen_e4 _
                         eq_refl eq_refl eq_refl eq_refl eq_refl eq_refl))).
Defined.

Lemma board_update_checkmate_witness :
  (Some 2 = currentTurnWindow (Some 1) (Some 2) host_premate /\
   load fen_fools = Some FenLite.fools_mate /\ isCheckmate FenLite.fools_mate = true) /\
  outs (onMessage host_origin (Some 1) (Some 2) (ev_at 2 (BOARD_UPDATE fen_fools))) host_premate =
    [(1, GAME_OVER black checkmate); (2, GAME_OVER black checkmate)].
Proof.
  split; [split; [reflexivity|split; reflexivity]|].
  exact (proj2 (proj2 (proj2 (proj2 (board_update_checkmate host_origin (Some 1) (Some 2) (ev_at 2 (BOARD_UPDATE fen_fools))
           host_premate 2 fen_fools _ eq_refl eq_refl eq_refl eq_refl eq_refl eq_refl))))).
Defined.

Lemma ready_assigns_role_witness :
  outs (onMessage host_origin (Some 1) (Some 2) (ev_at 2 IFRAME_READY)) host0 =
    [(2, ROLE_ASSIGN black); (2, SYNC_STATE (fen start) None); (1, TURN w); (2, TURN w)].
Proof.
  exact (proj2 (ready_assigns_role host_origin (Some 1) (Some 2) (ev_at 2 IFRAME_READY) host0 2 eq_refl eq_refl eq_refl)).
Defined.

Lemma request_sync_resends_witness :
  outs (onMessage host_origin (Some 1) (Some 2) (ev_at 1 REQUEST_SYNC)) host0 =
    [(1, SYNC_STATE (fen start) None); (1, TURN w); (2, TURN w)].
Proof.
  exact (proj2 (request_sync_resends host_origin (Some 1) (Some 2) (ev_at 1 REQUEST_SYNC) host0 1 eq_refl eq_refl eq_refl)).
Defined.

Lemma foreign_events_dropped_witness :
  exec (onMessage host_origin (Some 1) (Some 2) (ev_at 1 (TURN w))) host0 = host0.
Proof.
  refine (proj1 (foreign_events_dropped host_origin (Some 1) (Some 2) (ev_at 1 (TURN w)) host0 _)).
  right; right; right. exists (TURN w). split; [reflexivity|exact I].
Defined.

Lemma new_game_spec_witness :
  outs (newGame (P:=FenLite.pos) (Some 1) (Some 2)) host_mated =
    [(1, RESET); (2, RESET); (1, SYNC_STATE (fen start) None); (2, SYNC_STATE (fen start) None);
     (1, TURN w); (2, TURN w)].
Proof.
  exact (proj2 (proj2 (proj2 (new_game_spec (Some 1) (Some 2) host_mated)))).
Defined.

(** Fool's mate accepted, then the page reloaded: the mated game is back. *)
Lemma resume_after_reload_witness :
  available (storage host_premate) = true /\ fen_fools <> "" /\
  chess (exec ngAfterViewInit
           (init_host (storage (exec (onMessage host_origin (Some 1) (Some 2)
                                        (ev_at 2 (BOARD_UPDATE fen_fools))) host_premate)))) =
    FenLite.fools_mate.
Proof.
  assert (Hf : fen_fools <> "") by discriminate.
  split; [reflexivity|split; [exact Hf|]].
  exact (proj1 (proj2 (resume_after_reload host_origin (Some 1) (Some 2) (ev_at 2 (BOARD_UPDATE fen_fools))
           host_premate 2 fen_fools _ eq_refl eq_refl eq_refl eq_refl eq_refl eq_refl Hf))).
Defined.

Lemma load_save_witness :
  available (mk_ls ∅ true) = true /\
  StorageService.load HOST_STORAGE_KEY (StorageService.save HOST_STORAGE_KEY (mk_saved fen_e4) (mk_ls ∅ true)) =
    Some (mk_saved fen_e4).
Proof. split; [reflexivity|]. apply StorageService.load_save. reflexivity. Defined.
