(* ===== verification/Online.v ===== *)
(** * The online game ([OnlineGameComponent])

    Models src/src/app/features/online-game/online-game.component.ts.  The
    game lives in a Firebase Realtime Database document [games/<code>]; the
    database is a [gmap string GameDoc] shared by all clients, where every
    field of a document may be absent (the database stores no nulls).
    [set] replaces a document, [update] replaces the fields it names (a
    nested object such as [players] is replaced whole), [get] reads it.
    A client is the component's state (record [Online]); a method is a
    computation of the prelude's monad over the pair (client, database)
    whose output is the log of the writes it performs, so that a theorem can
    say which documents a method wrote.  A client subscribed to its room
    ([onValue]) sees its own writes at once: every write of the client is
    followed by its change callback [onValueCb], as the Firebase SDK raises
    local events.  Subscribing ([listenForUpdates]) only registers the
    callback: the room's current value, like the changes made by other
    clients, reaches the client later, as a separate step ([notify]).
    [joinGame] is split at its [await get] into [joinGame_read] and
    [joinGame_write], so that two joiners can interleave; in [createGame]
    and [leaveGame] the statements after the [await] run in the same step
    as the ones before it (another client's write in between is not
    modelled there).  A [throw] ends the method where it happens: a
    [joinGame] whose room reference was cleared during its [await] stops
    at [update(null, ...)], and the constructor stops at
    [this.board.reverse()] when it resumes a black session, because the
    [@ViewChild] board does not exist yet while the constructor runs.

    [makeCode] and [copyCode] are modelled in RoomCode.v; here the code a
    [createGame] uses and the random part of [ensureClientId] are
    parameters. *)

From S2P Require Import Prelude Messages Engine Widget Storage.

Module OnlineGameComponent.

(** [interface PlayersDoc { white?: {id}|null; black?: {id}|null }] *)
Record PlayerRef := mk_player { pid : string }.
Record PlayersDoc := mk_players { pwhite : option PlayerRef; pblack : option PlayerRef }.

#[export] Instance PlayerRef_eq_dec : EqDecision PlayerRef.
Proof. solve_decision. Defined.
#[export] Instance PlayersDoc_eq_dec : EqDecision PlayersDoc.
Proof. solve_decision. Defined.

Inductive Status := waiting | live | ended.

#[export] Instance Status_eq_dec : EqDecision Status.
Proof. solve_decision. Defined.

(** [interface GameDoc], every field possibly absent in the database. *)
Record GameDoc := mk_doc {
  gfen : option string;
  gpgn : option string;
  gturn : option Turn;
  gstatus : option Status;
  gwinner : option Role;
  gplayers : option PlayersDoc
}.

(** [interface OnlineLocalState { code; role; clientId }] *)
Record OnlineLocalState := mk_local { lcode : string; lrole : Role; lclientId : string }.

Definition role_name (r : Role) : string := match r with white => "white" | black => "black" end.
Definition role_of_name (s : string) : option Role :=
  if String.eqb s "white" then Some white else if String.eqb s "black" then Some black else None.

Definition local_fields (x : OnlineLocalState) : list string :=
  [lcode x; role_name (lrole x); lclientId x].

Definition local_of_fields (l : list string) : option OnlineLocalState :=
  match l with
  | [c; r; i] => match role_of_name r with Some r' => Some (mk_local c r' i) | None => None end
  | _ => None
  end.

Lemma local_of_fields_fields x : local_of_fields (local_fields x) = Some x.
Proof. destruct x as [c [|] i]; reflexivity. Qed.

#[export] Instance OnlineLocalState_json : Json OnlineLocalState :=
  json_record ["code"; "role"; "clientId"] local_fields local_of_fields
    local_of_fields_fields (fun _ => eq_refl).

(** The provider of [STORAGE_KEY]. *)
Definition ONLINE_STORAGE_KEY : string := "online-game-state".

Abbreviation DB := (gmap string GameDoc).

(** A write the client sent to the database: the room code and the new document. *)
Record DbWrite := mk_write { wcode : string; wdoc : GameDoc }.

Record Online (P B : Type) := mk_online {
  code : string;
  statusText : string;
  overlayVisible : bool;
  overlayText : string;
  chess : P;
  role : option Role;
  applyingRemote : bool;
  bothJoined : bool;
  moveDisabled : bool;
  isReversed : bool;
  (** [gameRef]: the room code of [ref(db, games/<code>)], [None] for null *)
  gameRef : option string;
  (** [unsub] is not null: the client listens to [games/<listening>] *)
  listening : option string;
  clientId : string;
  board : B;
  store : LocalStorage
}.
Arguments mk_online {P B}.
Arguments code {P B}. Arguments statusText {P B}. Arguments overlayVisible {P B}.
Arguments overlayText {P B}. Arguments chess {P B}. Arguments role {P B}.
Arguments applyingRemote {P B}. Arguments bothJoined {P B}. Arguments moveDisabled {P B}.
Arguments isReversed {P B}. Arguments gameRef {P B}. Arguments listening {P B}.
Arguments clientId {P B}. Arguments board {P B}. Arguments store {P B}.

Record World (P B : Type) := mk_world { me : Online P B; db : DB }.
Arguments mk_world {P B}. Arguments me {P B}. Arguments db {P B}.

Section online.
Context {P : Type} `{Engine P} {B : Type} `{BoardWidget B}.

Local Abbreviation OM := (SW (World P B) DbWrite).

(** Field updates of the client, written once here. *)
Definition upd_me (f : Online P B -> Online P B) (wd : World P B) : World P B :=
  mk_world (f (me wd)) (db wd).
Definition upd (f : Online P B -> Online P B) : OM unit := sw_modify (upd_me f).
Definition getme : OM (Online P B) := wd ← sw_get; mret (me wd).

Definition with_code c (o : Online P B) : Online P B :=
  mk_online c (statusText o) (overlayVisible o) (overlayText o) (chess o) (role o) (applyingRemote o) (bothJoined o) (moveDisabled o) (isReversed o) (gameRef o) (listening o) (clientId o) (board o) (store o).
Definition with_statusText s (o : Online P B) : Online P B :=
  mk_online (code o) s (overlayVisible o) (overlayText o) (chess o) (role o) (applyingRemote o) (bothJoined o) (moveDisabled o) (isReversed o) (gameRef o) (listening o) (clientId o) (board o) (store o).
Definition with_overlayVisible v (o : Online P B) : Online P B :=
  mk_online (code o) (statusText o) v (overlayText o) (chess o) (role o) (applyingRemote o) (bothJoined o) (moveDisabled o) (isReversed o) (gameRef o) (listening o) (clientId o) (board o) (store o).
Definition with_overlayText t (o : Online P B) : Online P B :=
  mk_online (code o) (statusText o) (overlayVisible o) t (chess o) (role o) (applyingRemote o) (bothJoined o) (moveDisabled o) (isReversed o) (gameRef o) (listening o) (clientId o) (board o) (store o).
Definition with_chess p (o : Online P B) : Online P B :=
  mk_online (code o) (statusText o) (overlayVisible o) (overlayText o) p (role o) (applyingRemote o) (bothJoined o) (moveDisabled o) (isReversed o) (gameRef o) (listening o) (clientId o) (board o) (store o).
Definition with_role r (o : Online P B) : Online P B :=
  mk_online (code o) (statusText o) (overlayVisible o) (overlayText o) (chess o) r (applyingRemote o) (bothJoined o) (moveDisabled o) (isReversed o) (gameRef o) (listening o) (clientId o) (board o) (store o).
Definition with_applyingRemote a (o : Online P B) : Online P B :=
  mk_online (code o) (statusText o) (overlayVisible o) (overlayText o) (chess o) (role o) a (bothJoined o) (moveDisabled o) (isReversed o) (gameRef o) (listening o) (clientId o) (board o) (store o).
Definition with_bothJoined j (o : Online P B) : Online P B :=
  mk_online (code o) (statusText o) (overlayVisible o) (overlayText o) (chess o) (role o) (applyingRemote o) j (moveDisabled o) (isReversed o) (gameRef o) (listening o) (clientId o) (board o) (store o).
Definition with_moveDisabled d (o : Online P B) : Online P B :=
  mk_online (code o) (statusText o) (overlayVisible o) (overlayText o) (chess o) (role o) (applyingRemote o) (bothJoined o) d (isReversed o) (gameRef o) (listening o) (clientId o) (board o) (store o).
Definition with_isReversed r (o : Online P B) : Online P B :=
  mk_online (code o) (statusText o) (overlayVisible o) (overlayText o) (chess o) (role o) (applyingRemote o) (bothJoined o) (moveDisabled o) r (gameRef o) (listening o) (clientId o) (board o) (store o).
Definition with_gameRef g (o : Online P B) : Online P B :=
  mk_online (code o) (statusText o) (overlayVisible o) (overlayText o) (chess o) (role o) (applyingRemote o) (bothJoined o) (moveDisabled o) (isReversed o) g (listening o) (clientId o) (board o) (store o).
Definition with_listening l (o : Online P B) : Online P B :=
  mk_online (code o) (statusText o) (overlayVisible o) (overlayText o) (chess o) (role o) (applyingRemote o) (bothJoined o) (moveDisabled o) (isReversed o) (gameRef o) l (clientId o) (board o) (store o).
Definition with_clientId i (o : Online P B) : Online P B :=
  mk_online (code o) (statusText o) (overlayVisible o) (overlayText o) (chess o) (role o) (applyingRemote o) (bothJoined o) (moveDisabled o) (isReversed o) (gameRef o) (listening o) i (board o) (store o).
Definition with_board bd (o : Online P B) : Online P B :=
  mk_online (code o) (statusText o) (overlayVisible o) (overlayText o) (chess o) (role o) (applyingRemote o) (bothJoined o) (moveDisabled o) (isReversed o) (gameRef o) (listening o) (clientId o) bd (store o).
Definition with_store ls (o : Online P B) : Online P B :=
  mk_online (code o) (statusText o) (overlayVisible o) (overlayText o) (chess o) (role o) (applyingRemote o) (bothJoined o) (moveDisabled o) (isReversed o) (gameRef o) (listening o) (clientId o) (board o) ls.

(** The color-based drag gates. *)
Definition darkDisabled (o : Online P B) : bool :=
  bool_decide (role o = Some white) || moveDisabled o || applyingRemote o.
Definition lightDisabled (o : Online P B) : bool :=
  bool_decide (role o = Some black) || moveDisabled o || applyingRemote o.

(** [!!players.white?.id]: a slot is taken when it holds a non-empty id. *)
Definition taken (slot : option PlayerRef) : bool :=
  match slot with Some r => negb (String.eqb (pid r) "") | None => false end.

Definition players_of (val : GameDoc) : PlayersDoc :=
  match gplayers val with Some ps => ps | None => mk_players None None end.

Definition orientForRole : OM unit :=
  o ← getme;
  let shouldBeReversed := bool_decide (role o = Some black) in
  if bool_decide (shouldBeReversed ≠ isReversed o) then
    upd (fun o => with_board (reverse (board o)) o) ;;
    upd (with_isReversed shouldBeReversed)
  else skip.

Definition winsText (r : Role) : string :=
  match r with white => "WHITE wins by checkmate" | black => "BLACK wins by checkmate" end.

Definition handleGameOver (winner : Role) : OM unit :=
  upd (with_moveDisabled true) ;;
  upd (with_overlayText (winsText winner)) ;;
  upd (with_overlayVisible true) ;;
  upd (fun o => with_store (StorageService.clear ONLINE_STORAGE_KEY (store o)) o).

Definition myTurn (r : Role) (t : option Turn) : bool :=
  bool_decide (r = white /\ t = Some w) || bool_decide (r = black /\ t = Some b).

(** The [if (val.fen)] block of the [onValue] callback: apply the remote
    position under the [applyingRemote] guard, then load it into the
    engine ([chess.load] throwing on a bad FEN is caught). *)
Definition applyRemoteFen (f : string) : OM unit :=
  upd (with_applyingRemote true) ;;
  upd (fun o => with_board (setFEN f (board o)) o) ;;
  upd (with_isReversed false) ;;
  orientForRole ;;
  upd (with_applyingRemote false) ;;
  match load f with Some p => upd (with_chess p) | None => skip end.

(** The [onValue] callback of [listenForUpdates]. *)
Definition onValueCb (v : option GameDoc) : OM unit :=
  match v with
  | None => skip
  | Some val =>
      let players := players_of val in
      let whitePresent := taken (pwhite players) in
      let blackPresent := taken (pblack players) in
      upd (with_bothJoined (whitePresent && blackPresent)) ;;
      (match gfen val with
       | Some f => if String.eqb f "" then skip else applyRemoteFen f
       | None => skip
       end) ;;
      o ← getme;
      (match role o with
       | Some r => upd (with_moveDisabled (negb (bothJoined o) || negb (myTurn r (gturn val))))
       | None => upd (with_moveDisabled true)
       end) ;;
      o ← getme;
      if bool_decide (gstatus val = Some ended) && bool_decide (gwinner val ≠ None) then
        match gwinner val with Some wn => handleGameOver wn | None => skip end
      else if negb (bothJoined o) then
        upd (with_statusText (if bool_decide (role o = Some white)
                              then "Game code: " +:+ code o +:+ " — share it with your friend"
                              else "Waiting for the host…"))
      else
        upd (with_statusText ("Game: " +:+ code o +:+ " — " +:+
                              (if bool_decide (gturn val = Some w) then "White" else "Black") +:+
                              " to move"))
  end.

(** Run the change callback when the client listens to room [c]. *)
Definition notify (c : string) : OM unit :=
  wd ← sw_get;
  if bool_decide (listening (me wd) = Some c) then onValueCb ((db wd) !! c) else skip.

(** [set(ref(db, games/c), doc)] *)
Definition db_set (c : string) (doc : GameDoc) : OM unit :=
  sw_modify (fun wd => mk_world (me wd) (<[c := doc]> (db wd))) ;;
  emit (mk_write c doc) ;;
  notify c.

(** [update(ref, patch)]: the fields the patch names replace the stored
    ones (a missing document is created). *)
Definition merge (old : option GameDoc) (patch : GameDoc) : GameDoc :=
  let o := match old with Some d => d | None => mk_doc None None None None None None end in
  mk_doc (match gfen patch with Some x => Some x | None => gfen o end)
         (match gpgn patch with Some x => Some x | None => gpgn o end)
         (match gturn patch with Some x => Some x | None => gturn o end)
         (match gstatus patch with Some x => Some x | None => gstatus o end)
         (match gwinner patch with Some x => Some x | None => gwinner o end)
         (match gplayers patch with Some x => Some x | None => gplayers o end).

Definition db_update (c : string) (patch : GameDoc) : OM unit :=
  wd ← sw_get;
  let doc := merge ((db wd) !! c) patch in
  sw_modify (fun wd => mk_world (me wd) (<[c := doc]> (db wd))) ;;
  emit (mk_write c doc) ;;
  notify c.

Definition db_get (c : string) : OM (option GameDoc) := wd ← sw_get; mret ((db wd) !! c).

(** [listenForUpdates]: (re)subscribe to the client's room; the current
    value arrives later, as a [notify] step of its own. *)
Definition listenForUpdates : OM unit :=
  o ← getme;
  match gameRef o with
  | None => skip
  | Some c => upd (with_listening (Some c))
  end.

(** [players.<slot>?.id === this.clientId] *)
Definition slot_is (slot : option PlayerRef) (id : string) : bool :=
  match slot with Some r => String.eqb (pid r) id | None => false end.

(** The patches the component writes. *)
Definition players_patch (st : Status) (ps : PlayersDoc) : GameDoc :=
  mk_doc None None None (Some st) None (Some ps).

Definition resetLocalUI : OM unit :=
  upd (with_listening None) ;;
  upd (with_gameRef None) ;;
  upd (fun o => with_store (StorageService.clear ONLINE_STORAGE_KEY (store o)) o) ;;
  upd (with_role None) ;;
  upd (with_code "") ;;
  upd (with_statusText "Create a game or join one.") ;;
  upd (with_overlayVisible false) ;;
  upd (with_overlayText "") ;;
  upd (with_bothJoined false) ;;
  upd (with_moveDisabled true) ;;
  upd (with_isReversed false) ;;
  upd (with_chess start) ;;
  upd (with_applyingRemote true) ;;
  upd (fun o => with_board (reset (board o)) o) ;;
  upd (with_applyingRemote false).

(** [createGame], with [newCode] the result of [makeCode()]. *)
Definition createGame (newCode : string) : OM unit :=
  o ← getme;
  if bool_decide (role o <> None) then skip else
  upd (with_role (Some white)) ;;
  upd (with_code newCode) ;;
  upd (fun o => with_store (StorageService.save ONLINE_STORAGE_KEY
                             (mk_local (code o) white (clientId o)) (store o)) o) ;;
  upd (with_chess start) ;;
  upd (fun o => with_gameRef (Some (code o)) o) ;;
  o ← getme;
  db_set (code o) (mk_doc (Some (fen (chess o))) (Some (pgn (chess o))) (Some w) (Some waiting) None
                     (Some (mk_players (Some (mk_player (clientId o))) None))) ;;
  listenForUpdates ;;
  upd (fun o => with_statusText ("Game code: " +:+ code o +:+ " — share it with your friend") o) ;;
  upd (with_moveDisabled true) ;;
  upd (with_isReversed false) ;;
  orientForRole.

(** Where [joinGame] stands at its [await get(...)]. *)
Inductive JoinStep := JoinDone | JoinGot (snap : option GameDoc).

(** [joinGame] up to its [await get(this.gameRef)]. *)
Definition joinGame_read : OM JoinStep :=
  o ← getme;
  if bool_decide (role o <> None) then mret JoinDone else
  if String.eqb (code o) "" then upd (with_statusText "Enter a game code first.") ;; mret JoinDone else
  upd (fun o => with_gameRef (Some (code o)) o) ;;
  snap ← db_get (code o);
  mret (JoinGot snap).

(** [joinGame] from the snapshot on.  The [update] goes to [this.gameRef]
    as it is after the [await]; when it was cleared meanwhile
    ([update(null, ...)] throws) the method stops there, its role set. *)
Definition joinGame_write (snap : option GameDoc) : OM unit :=
  match snap with
  | None => upd (with_statusText "Game not found.") ;; upd (with_gameRef None)
  | Some val =>
      let players := players_of val in
      let whiteTaken := taken (pwhite players) in
      let blackTaken := taken (pblack players) in
      if whiteTaken && blackTaken then
        upd (with_statusText "This game already has two players.") ;; upd (with_gameRef None)
      else
      o ← getme;
      let claim := mk_player (clientId o) in
      if whiteTaken && negb blackTaken then
        upd (with_role (Some black)) ;;
        match gameRef o with
        | None => skip
        | Some c =>
            db_update c (players_patch live (mk_players (pwhite players) (Some claim))) ;;
            upd (fun o => with_store (StorageService.save ONLINE_STORAGE_KEY
                                       (mk_local (code o) black (clientId o)) (store o)) o) ;;
            listenForUpdates ;;
            upd (fun o => with_statusText ("Joined game: " +:+ code o) o) ;;
            upd (with_moveDisabled true) ;;
            upd (with_isReversed false) ;;
            orientForRole
        end
      else if negb whiteTaken then
        upd (with_role (Some white)) ;;
        match gameRef o with
        | None => skip
        | Some c =>
            db_update c (players_patch waiting (mk_players (Some claim) (pblack players))) ;;
            upd (fun o => with_store (StorageService.save ONLINE_STORAGE_KEY
                                       (mk_local (code o) white (clientId o)) (store o)) o) ;;
            listenForUpdates ;;
            upd (fun o => with_statusText ("Joined game: " +:+ code o) o) ;;
            upd (with_moveDisabled true) ;;
            upd (with_isReversed false) ;;
            orientForRole
        end
      else
        upd (with_statusText "Unable to join right now.") ;; upd (with_gameRef None)
  end.

Definition joinGame : OM unit :=
  st ← joinGame_read;
  match st with JoinDone => skip | JoinGot snap => joinGame_write snap end.

Definition leaveGame : OM unit :=
  o ← getme;
  match role o, gameRef o with
  | Some r, Some c =>
      snap ← db_get c;
      (match snap with
       | Some val =>
           let players := players_of val in
           if bool_decide (r = white) && slot_is (pwhite players) (clientId o) then
             db_update c (players_patch waiting (mk_players None (pblack players)))
           else if bool_decide (r = black) && slot_is (pblack players) (clientId o) then
             db_update c (players_patch waiting (mk_players (pwhite players) None))
           else skip
       | None => skip
       end) ;;
      resetLocalUI
  | _, _ => resetLocalUI
  end.

Definition onUserMove : OM unit :=
  o ← getme;
  if applyingRemote o || bool_decide (gameRef o = None) || bool_decide (role o = None) then skip else
  if negb (bothJoined o) || moveDisabled o then skip else
  let fenAfter := getFEN (board o) in
  match load fenAfter with
  | None =>
      upd (with_applyingRemote true) ;;
      upd (fun o => with_board (setFEN (fen (chess o)) (board o)) o) ;;
      upd (with_isReversed false) ;;
      orientForRole ;;
      upd (with_applyingRemote false)
  | Some p =>
      upd (with_chess p) ;;
      let nextTurn := turn p in
      let c := match gameRef o with Some c => c | None => "" end in
      if isCheckmate p then
        let winner := if bool_decide (nextTurn = w) then black else white in
        db_update c (mk_doc (Some fenAfter) (Some (pgn p)) (Some nextTurn) (Some ended) (Some winner) None) ;;
        handleGameOver winner
      else
        db_update c (mk_doc (Some fenAfter) (Some (pgn p)) (Some nextTurn) (Some live) None None) ;;
        upd (with_moveDisabled true)
  end.

(** [orientForRole] as the constructor runs it: the [@ViewChild] board is
    still undefined, so when the board must turn, [this.board.reverse()]
    throws a TypeError; [false] when it throws. *)
Definition orientForRole_unviewed : OM bool :=
  o ← getme;
  let shouldBeReversed := bool_decide (role o = Some black) in
  if bool_decide (shouldBeReversed ≠ isReversed o) then mret false else mret true.

(** [attachToGame], called only from the constructor; [false] when it throws. *)
Definition attachToGame (c : string) (resume : bool) : OM bool :=
  upd (with_gameRef (Some c)) ;;
  if negb resume then mret true else
    (listenForUpdates ;;
     upd (with_isReversed false) ;;
     orientForRole_unviewed ≫= fun (turned : bool) =>
     if turned then (upd (with_statusText ("Resumed game: " +:+ c)) ;; mret true) else mret false).

(** [ensureClientId], with [fresh] the id [randomUUID] would make. *)
Definition ensureClientId (fresh : string) (ls : LocalStorage) : string :=
  match StorageService.load ONLINE_STORAGE_KEY ls with
  | Some st => if String.eqb (lclientId st) "" then fresh else lclientId st
  | None => fresh
  end.

(** The field initialisers. *)
Definition init_online (ls : LocalStorage) (fresh : string) (bd : B) : Online P B :=
  mk_online "" "Create a game or join one." false "" start None false false true false
    None None (ensureClientId fresh ls) bd ls.

(** The constructor's resume of a saved session; [false] when it throws
    (the component is then not created). *)
Definition constructor : OM bool :=
  o ← getme;
  match StorageService.load ONLINE_STORAGE_KEY (store o) with
  | Some saved =>
      if negb (String.eqb (lcode saved) "") && negb (String.eqb (lclientId saved) "") then
        upd (with_clientId (lclientId saved)) ;;
        upd (with_role (Some (lrole saved))) ;;
        upd (with_code (lcode saved)) ;;
        attachToGame (lcode saved) true
      else mret true
  | None => mret true
  end.

Definition ngOnDestroy : OM unit := upd (with_listening None).
End online.
End OnlineGameComponent.
Import OnlineGameComponent.

(** ** What the callbacks leave alone *)

(** The database and the client's identity and room are untouched. *)
Definition frame {P B} (wd wd' : World P B) : Prop :=
  db wd' = db wd /\ role (me wd') = role (me wd) /\ gameRef (me wd') = gameRef (me wd) /\
  listening (me wd') = listening (me wd) /\ clientId (me wd') = clientId (me wd) /\
  code (me wd') = code (me wd).

#[export] Instance frame_refl {P B} : Reflexive (@frame P B).
Proof. intros wd. repeat split. Qed.
#[export] Instance frame_trans {P B} : Transitive (@frame P B).
Proof. intros ??? (?&?&?&?&?&?) (?&?&?&?&?&?). repeat split; congruence. Qed.

Section online_frame.
Context {P : Type} `{Engine P} {B : Type} `{BoardWidget B}.

#[local] Hint Extern 1 (frame _ _) => unfold frame; simpl; repeat split : silent.

Lemma silent_getme : silent frame (getme (P:=P) (B:=B)).
Proof. unfold getme. solve_silent. Qed.
#[local] Hint Resolve silent_getme : silent.

Lemma silent_orientForRole : silent frame (orientForRole (P:=P) (B:=B)).
Proof. unfold orientForRole, upd. solve_silent. Qed.
#[local] Hint Resolve silent_orientForRole : silent.

Lemma silent_handleGameOver wn : silent frame (handleGameOver (P:=P) (B:=B) wn).
Proof. unfold handleGameOver, upd. solve_silent. Qed.
#[local] Hint Resolve silent_handleGameOver : silent.

Lemma silent_applyRemoteFen f : silent frame (applyRemoteFen (P:=P) (B:=B) f).
Proof. unfold applyRemoteFen, upd. solve_silent. Qed.
#[local] Hint Resolve silent_applyRemoteFen : silent.

Lemma silent_onValueCb v : silent frame (onValueCb (P:=P) (B:=B) v).
Proof. unfold onValueCb, upd. solve_silent. Qed.
End online_frame.

(** ** Running the database primitives *)

Arguments upd_me : simpl never.

Section online_run.
Context {P : Type} `{Engine P} {B : Type} `{BoardWidget B}.
Implicit Types wd : World P B.

Lemma exec_upd f wd : exec (upd f) wd = upd_me f wd.
Proof. done. Qed.
Lemma me_upd_me f wd : me (upd_me f wd) = f (me wd).
Proof. done. Qed.
Lemma db_upd_me f wd : db (upd_me (P:=P) (B:=B) f wd) = db wd.
Proof. done. Qed.
Lemma outs_upd f wd : outs (upd (P:=P) (B:=B) f) wd = [].
Proof. done. Qed.
Lemma exec_getme wd : exec getme wd = wd.
Proof. done. Qed.
Lemma outs_getme wd : outs getme wd = [].
Proof. done. Qed.
Lemma val_getme wd : (getme wd).2 = me wd.
Proof. done. Qed.
Lemma exec_db_get c wd : exec (db_get c) wd = wd.
Proof. done. Qed.
Lemma outs_db_get c wd : outs (db_get c) wd = [].
Proof. done. Qed.
Lemma val_db_get c wd : (db_get c wd).2 = db wd !! c.
Proof. done. Qed.

Lemma exec_getme_bind {A} (k : Online P B -> SW (World P B) DbWrite A) wd : exec (getme ≫= k) wd = exec (k (me wd)) wd.
Proof. unfold exec. sw_simp. by destruct (k _ _) as [[??]?]. Qed.
Lemma outs_getme_bind {A} (k : Online P B -> SW (World P B) DbWrite A) wd : outs (getme ≫= k) wd = outs (k (me wd)) wd.
Proof. unfold outs. sw_simp. by destruct (k _ _) as [[??]?]. Qed.
Lemma exec_db_get_bind {A} c (k : option GameDoc -> SW (World P B) DbWrite A) wd :
  exec (db_get c ≫= k) wd = exec (k (db wd !! c)) wd.
Proof. unfold exec, db_get. sw_simp. by destruct (k _ _) as [[??]?]. Qed.
Lemma outs_db_get_bind {A} c (k : option GameDoc -> SW (World P B) DbWrite A) wd :
  outs (db_get c ≫= k) wd = outs (k (db wd !! c)) wd.
Proof. unfold outs, db_get. sw_simp. by destruct (k _ _) as [[??]?]. Qed.

Lemma exec_notify c wd :
  exec (notify c) wd =
  if bool_decide (listening (me wd) = Some c) then exec (onValueCb (db wd !! c)) wd else wd.
Proof. unfold notify. rewrite exec_bind. simpl. by case_bool_decide. Qed.

Lemma notify_frame c wd : frame wd (exec (notify c) wd) /\ outs (notify c) wd = [].
Proof.
  unfold notify. rewrite exec_bind, outs_bind. simpl.
  case_bool_decide; [apply silent_onValueCb|split; [reflexivity|done]].
Qed.

Lemma outs_notify c wd : outs (notify c) wd = [].
Proof. apply notify_frame. Qed.
Lemma db_notify c wd : db (exec (notify c) wd) = db wd.
Proof. apply notify_frame. Qed.
Lemma role_notify c wd : role (me (exec (notify c) wd)) = role (me wd).
Proof. apply notify_frame. Qed.
Lemma gameRef_notify c wd : gameRef (me (exec (notify c) wd)) = gameRef (me wd).
Proof. apply notify_frame. Qed.
Lemma listening_notify c wd : listening (me (exec (notify c) wd)) = listening (me wd).
Proof. apply notify_frame. Qed.
Lemma clientId_notify c wd : clientId (me (exec (notify c) wd)) = clientId (me wd).
Proof. apply notify_frame. Qed.
Lemma code_notify c wd : code (me (exec (notify c) wd)) = code (me wd).
Proof. apply notify_frame. Qed.

Lemma exec_db_update c patch wd :
  exec (db_update c patch) wd =
  exec (notify c) (mk_world (me wd) (<[c := merge (db wd !! c) patch]> (db wd))).
Proof. unfold db_update. by autorewrite with pencil_rw. Qed.

Lemma outs_db_update c patch wd :
  outs (db_update c patch) wd = [mk_write c (merge (db wd !! c) patch)].
Proof.
  unfold db_update. autorewrite with pencil_rw. simpl.
  by rewrite (proj2 (notify_frame _ _)).
Qed.

Lemma exec_db_set c doc wd :
  exec (db_set c doc) wd = exec (notify c) (mk_world (me wd) (<[c := doc]> (db wd))).
Proof. unfold db_set. by autorewrite with pencil_rw. Qed.

Lemma outs_db_set c doc wd : outs (db_set c doc) wd = [mk_write c doc].
Proof.
  unfold db_set. autorewrite with pencil_rw. simpl.
  by rewrite (proj2 (notify_frame _ _)).
Qed.
End online_run.

#[export] Hint Rewrite @exec_upd @me_upd_me @db_upd_me @outs_upd @exec_getme @outs_getme @val_getme @exec_db_get
  @outs_db_get @val_db_get @exec_getme_bind @outs_getme_bind @exec_db_get_bind
  @outs_db_get_bind @exec_db_update @outs_db_update @exec_db_set @outs_db_set
  @outs_notify @db_notify @role_notify @gameRef_notify @listening_notify @clientId_notify
  @code_notify : online_rw.

#[export] Hint Extern 1 (frame _ _) => unfold frame; simpl; repeat split : silent.
#[export] Hint Resolve silent_getme silent_orientForRole silent_handleGameOver silent_applyRemoteFen
  silent_onValueCb : silent.


(** The callbacks and database primitives are reasoned about through their
    lemmas, never unfolded by [simpl]. *)
Arguments notify : simpl never.
Arguments db_set : simpl never.
Arguments db_update : simpl never.
Arguments onValueCb : simpl never.
Arguments applyRemoteFen : simpl never.
Arguments joinGame_write : simpl never.
Arguments orientForRole : simpl never.

Ltac om_simp := repeat progress (autorewrite with pencil_seq online_rw pencil_base; simpl).

(** ** The moves of an online player *)

Section online_moves.
Context {P : Type} `{Engine P} {B : Type} `{BoardWidget B}.
Implicit Types wd : World P B.

(** [orientForRole] only turns the board: position, engine, storage and
    every other field stay. *)
Ltac orient_tac := intros; unfold orientForRole; om_simp; case_match; om_simp;
  by autorewrite with pencil_rw.

Lemma outs_orient wd : outs orientForRole wd = [].
Proof. orient_tac. Qed.
Lemma db_orient wd : db (exec orientForRole wd) = db wd.
Proof. orient_tac. Qed.
Lemma getFEN_orient wd : getFEN (board (me (exec orientForRole wd))) = getFEN (board (me wd)).
Proof. orient_tac. Qed.
Lemma chess_orient wd : chess (me (exec orientForRole wd)) = chess (me wd).
Proof. orient_tac. Qed.
Lemma store_orient wd : store (me (exec orientForRole wd)) = store (me wd).
Proof. orient_tac. Qed.
Lemma moveDisabled_orient wd : moveDisabled (me (exec orientForRole wd)) = moveDisabled (me wd).
Proof. orient_tac. Qed.
Lemma applyingRemote_orient wd :
  applyingRemote (me (exec orientForRole wd)) = applyingRemote (me wd).
Proof. orient_tac. Qed.
Lemma role_orient wd : role (me (exec orientForRole wd)) = role (me wd).
Proof. orient_tac. Qed.
Lemma gameRef_orient wd : gameRef (me (exec orientForRole wd)) = gameRef (me wd).
Proof. orient_tac. Qed.
Lemma listening_orient wd : listening (me (exec orientForRole wd)) = listening (me wd).
Proof. orient_tac. Qed.
Lemma statusText_orient wd : statusText (me (exec orientForRole wd)) = statusText (me wd).
Proof. orient_tac. Qed.
Lemma overlayVisible_orient wd :
  overlayVisible (me (exec orientForRole wd)) = overlayVisible (me wd).
Proof. orient_tac. Qed.
Lemma overlayText_orient wd : overlayText (me (exec orientForRole wd)) = overlayText (me wd).
Proof. orient_tac. Qed.
Lemma bothJoined_orient wd : bothJoined (me (exec orientForRole wd)) = bothJoined (me wd).
Proof. orient_tac. Qed.
Lemma code_orient wd : code (me (exec orientForRole wd)) = code (me wd).
Proof. orient_tac. Qed.
Lemma clientId_orient wd : clientId (me (exec orientForRole wd)) = clientId (me wd).
Proof. orient_tac. Qed.

(** The orientation it leaves: black at the bottom exactly for the black player. *)
Lemma isReversed_orient wd :
  isReversed (me (exec orientForRole wd)) = bool_decide (role (me wd) = Some black).
Proof. unfold orientForRole. om_simp. case_bool_decide; om_simp; [done|]. by destruct (isReversed _), (bool_decide _). Qed.

(** The guards of [onUserMove] pass. *)
Definition move_allowed (o : Online P B) : Prop :=
  applyingRemote o = false /\ gameRef o <> None /\ role o <> None /\
  bothJoined o = true /\ moveDisabled o = false.

(** C18. [onUserMove] does nothing (no state change, no write) while a
    remote update is applied, without a room or a role, before both players
    are present, or while moves are disabled. *)
Theorem online_move_guarded wd :
  ~ move_allowed (me wd) ->
  exec onUserMove wd = wd /\ outs onUserMove wd = [].
Proof.
  intros Hn. unfold onUserMove. om_simp.
  destruct (applyingRemote (me wd)) eqn:Ha; [done|].
  destruct (gameRef (me wd)) eqn:Hg; [|done].
  destruct (role (me wd)) eqn:Hr; [|done]. simpl.
  destruct (bothJoined (me wd)) eqn:Hb; [|done].
  destruct (moveDisabled (me wd)) eqn:Hm; [done|].
  exfalso. apply Hn. repeat split; congruence.
Qed.
(** C19. A reported position the engine rejects is not written: the
    database is untouched, nothing is sent, the engine keeps its position
    and the widget is put back to it. *)
Theorem online_move_invalid_reverts wd :
  move_allowed (me wd) -> load (getFEN (board (me wd))) = None ->
  let wd' := exec onUserMove wd in
  db wd' = db wd /\ outs onUserMove wd = [] /\
  getFEN (board (me wd')) = fen (chess (me wd)) /\ chess (me wd') = chess (me wd) /\
  applyingRemote (me wd') = false.
Proof.
  intros (Ha & Hg & Hr & Hb & Hm) Hl. unfold onUserMove. om_simp.
  rewrite Ha, Hb, ?Hm, !bool_decide_eq_false_2 by done. simpl. rewrite Hl. om_simp.
  rewrite ?outs_orient, ?db_orient, ?getFEN_orient, ?chess_orient, ?applyingRemote_orient. simpl.
  by autorewrite with pencil_rw.
Qed.
(** The patch a move writes: position, history, side to move, status and winner. *)
Definition move_patch (fenAfter : string) (p : P) : GameDoc :=
  if isCheckmate p then
    mk_doc (Some fenAfter) (Some (pgn p)) (Some (turn p)) (Some ended)
      (Some (if bool_decide (turn p = w) then black else white)) None
  else mk_doc (Some fenAfter) (Some (pgn p)) (Some (turn p)) (Some live) None None.

(** A legal move is written with one [update] of the room, whatever the
    listener then does to the client. *)
Lemma onUserMove_write wd p c :
  move_allowed (me wd) -> gameRef (me wd) = Some c -> load (getFEN (board (me wd))) = Some p ->
  let patch := move_patch (getFEN (board (me wd))) p in
  outs onUserMove wd = [mk_write c (merge (db wd !! c) patch)] /\
  db (exec onUserMove wd) = <[c := merge (db wd !! c) patch]> (db wd) /\
  role (me (exec onUserMove wd)) = role (me wd) /\
  gameRef (me (exec onUserMove wd)) = Some c.
Proof.
  intros (Ha & _ & Hr & Hb & Hm) Hg Hl. unfold onUserMove, move_patch. om_simp.
  rewrite Ha, Hb, ?Hm, Hg, !bool_decide_eq_false_2 by done. simpl. rewrite Hl. om_simp.
  destruct (isCheckmate p); om_simp; [unfold handleGameOver; om_simp|]; split_and!; by rewrite ?Hg.
Qed.

(** C20. A legal move that does not mate is written to the room (position,
    history, side to move, status [live]) in one [update], and the mover
    cannot move again until the room changes. *)
Theorem online_move_written wd p c :
  move_allowed (me wd) -> gameRef (me wd) = Some c ->
  load (getFEN (board (me wd))) = Some p -> isCheckmate p = false ->
  let doc := merge (db wd !! c) (mk_doc (Some (getFEN (board (me wd)))) (Some (pgn p))
                                   (Some (turn p)) (Some live) None None) in
  outs onUserMove wd = [mk_write c doc] /\ db (exec onUserMove wd) !! c = Some doc /\
  moveDisabled (me (exec onUserMove wd)) = true.
Proof.
  intros Hal Hg Hl Hc. destruct (onUserMove_write wd p c Hal Hg Hl) as (Ho & Hdb & _).
  unfold move_patch in *. rewrite Hc in Ho, Hdb. simpl. rewrite Ho, Hdb, lookup_insert_eq.
  split_and!; [done|done|].
  destruct Hal as (Ha & _ & Hr & Hb & Hm). unfold onUserMove. om_simp.
  rewrite Ha, Hb, ?Hm, Hg, !bool_decide_eq_false_2 by done. simpl. rewrite Hl, Hc. by om_simp.
Qed.

(** C21. A mating move writes status [ended] with the mover's side as
    winner, shows the result, disables moves and deletes the saved session. *)
Theorem online_move_checkmate wd p c :
  move_allowed (me wd) -> gameRef (me wd) = Some c ->
  load (getFEN (board (me wd))) = Some p -> isCheckmate p = true ->
  let winner := if bool_decide (turn p = w) then black else white in
  let doc := merge (db wd !! c) (mk_doc (Some (getFEN (board (me wd)))) (Some (pgn p))
                                   (Some (turn p)) (Some ended) (Some winner) None) in
  let o' := me (exec onUserMove wd) in
  outs onUserMove wd = [mk_write c doc] /\ db (exec onUserMove wd) !! c = Some doc /\
  moveDisabled o' = true /\ overlayVisible o' = true /\ overlayText o' = winsText winner /\
  StorageService.load ONLINE_STORAGE_KEY (store o') = None.
Proof.
  intros Hal Hg Hl Hc. destruct (onUserMove_write wd p c Hal Hg Hl) as (Ho & Hdb & _).
  unfold move_patch in *. rewrite Hc in Ho, Hdb. simpl. rewrite Ho, Hdb, lookup_insert_eq.
  split_and!; [done|done|..];
  destruct Hal as (Ha & _ & Hr & Hb & Hm); unfold onUserMove; om_simp;
  rewrite Ha, Hb, ?Hm, Hg, !bool_decide_eq_false_2 by done; simpl; rewrite Hl, Hc;
  unfold handleGameOver; om_simp; try done.
  apply StorageService.load_clear.
Qed.
End online_moves.

#[export] Hint Rewrite @outs_orient @db_orient @getFEN_orient @chess_orient @store_orient
  @moveDisabled_orient @applyingRemote_orient @role_orient @gameRef_orient @listening_orient
  @statusText_orient @overlayVisible_orient @overlayText_orient @bothJoined_orient @code_orient
  @clientId_orient @isReversed_orient : online_rw.

(** ** Creating, joining, leaving and resuming a room *)

(** The frame with the saved session kept as well. *)
Definition frame_ls {P B} (wd wd' : World P B) : Prop :=
  frame wd wd' /\ store (me wd') = store (me wd).

#[export] Instance frame_ls_refl {P B} : Reflexive (@frame_ls P B).
Proof. intros wd. split; reflexivity. Qed.
#[export] Instance frame_ls_trans {P B} : Transitive (@frame_ls P B).
Proof. intros ??? [??] [??]. split; [by etrans|congruence]. Qed.

#[export] Hint Extern 1 (frame_ls _ _) => unfold frame_ls, frame; simpl; repeat split : silent.

Section online_rooms.
Context {P : Type} `{Engine P} {B : Type} `{BoardWidget B}.
Implicit Types wd : World P B.

Lemma silent_ls_orient : silent frame_ls (orientForRole (P:=P) (B:=B)).
Proof. unfold orientForRole, upd. solve_silent. Qed.
#[local] Hint Resolve silent_ls_orient : silent.

Lemma silent_ls_applyRemoteFen f : silent frame_ls (applyRemoteFen (P:=P) (B:=B) f).
Proof. unfold applyRemoteFen, upd. solve_silent. Qed.
#[local] Hint Resolve silent_ls_applyRemoteFen : silent.

(** A change callback for a room that has not ended keeps the session. *)
Lemma silent_ls_onValueCb v :
  gstatus v <> Some ended -> silent frame_ls (onValueCb (P:=P) (B:=B) (Some v)).
Proof.
  intros Hv. unfold onValueCb, upd. solve_silent.
  all: exfalso; revert select (_ && _ = true); rewrite bool_decide_eq_false_2 by done; done.
Qed.

Lemma store_notify c wd :
  (forall v, db wd !! c = Some v -> gstatus v <> Some ended) ->
  store (me (exec (notify c) wd)) = store (me wd).
Proof.
  intros Hv. rewrite exec_notify. case_bool_decide; [|done].
  destruct (db wd !! c) as [v|] eqn:E; [|done].
  apply (silent_ls_onValueCb v (Hv v eq_refl)).
Qed.
(** The listener runs on a room just written with a status other than [ended]. *)
Ltac notify_store_tac :=
  repeat (rewrite store_notify;
          [om_simp | intros ?; om_simp; rewrite lookup_insert_eq; by intros [= <-]]).

(** The document [createGame] writes for a client with id [id]. *)
Definition fresh_room (id : string) : GameDoc :=
  mk_doc (Some (fen start)) (Some (pgn start)) (Some w) (Some waiting) None
    (Some (mk_players (Some (mk_player id)) None)).

(** C22. [createGame] from a client without a role claims white in a new
    room [c]: it [set]s the room to the start position with status
    [waiting] and only itself as white — replacing whatever the room held —,
    listens to it, saves the session, and leaves moves disabled. *)
Theorem create_game_spec wd c :
  role (me wd) = None ->
  let wd' := exec (createGame c) wd in
  outs (createGame c) wd = [mk_write c (fresh_room (clientId (me wd)))] /\
  db wd' = <[c := fresh_room (clientId (me wd))]> (db wd) /\
  role (me wd') = Some white /\ code (me wd') = c /\ gameRef (me wd') = Some c /\
  listening (me wd') = Some c /\ moveDisabled (me wd') = true /\
  store (me wd') = StorageService.save ONLINE_STORAGE_KEY (mk_local c white (clientId (me wd)))
                     (store (me wd)).
Proof.
  intros Hr. unfold createGame. om_simp. rewrite Hr, bool_decide_eq_false_2 by tauto.
  unfold listenForUpdates. om_simp.
  notify_store_tac. by split_and!.
Qed.
(** Running [joinGame] up to its read, for a client without a role and a
    non-empty code. *)
Lemma joinGame_read_run wd :
  role (me wd) = None -> code (me wd) <> "" ->
  joinGame wd = joinGame_write (db wd !! code (me wd))
                  (mk_world (with_gameRef (Some (code (me wd))) (me wd)) (db wd)).
Proof.
  intros Hr Hc. unfold joinGame, joinGame_read. sw_simp.
  rewrite Hr, bool_decide_eq_false_2 by tauto. apply String.eqb_neq in Hc. rewrite Hc.
  sw_simp. by destruct (joinGame_write _ _) as [[??]?].
Qed.

Lemma exec_joinGame wd :
  role (me wd) = None -> code (me wd) <> "" ->
  exec joinGame wd = exec (joinGame_write (db wd !! code (me wd)))
                       (mk_world (with_gameRef (Some (code (me wd))) (me wd)) (db wd)).
Proof. intros. unfold exec. by rewrite joinGame_read_run. Qed.

Lemma outs_joinGame wd :
  role (me wd) = None -> code (me wd) <> "" ->
  outs joinGame wd = outs (joinGame_write (db wd !! code (me wd)))
                       (mk_world (with_gameRef (Some (code (me wd))) (me wd)) (db wd)).
Proof. intros. unfold outs. by rewrite joinGame_read_run. Qed.

(** C23. A join is refused without any write when the room does not
    exist or both seats are taken: the client stays without role or room. *)
Theorem join_rejected wd :
  role (me wd) = None -> code (me wd) <> "" ->
  (db wd !! code (me wd) = None \/
   exists v, db wd !! code (me wd) = Some v /\
             taken (pwhite (players_of v)) = true /\ taken (pblack (players_of v)) = true) ->
  outs joinGame wd = [] /\ db (exec joinGame wd) = db wd /\
  role (me (exec joinGame wd)) = None /\ gameRef (me (exec joinGame wd)) = None.
Proof.
  intros Hr Hc Hv. rewrite (exec_joinGame wd Hr Hc), (outs_joinGame wd Hr Hc).
  destruct Hv as [-> | (v & -> & Hw & Hb)]; unfold joinGame_write; [done|].
  by rewrite Hw, Hb.
Qed.

(** The [whiteTaken && !blackTaken] branch of [joinGame] from a snapshot
    [v], against the database as it is at the write. *)
Lemma join_write_black wd v c :
  gameRef (me wd) = Some c ->
  taken (pwhite (players_of v)) = true -> taken (pblack (players_of v)) = false ->
  let doc := merge (db wd !! c) (players_patch live (mk_players (pwhite (players_of v))
                                                      (Some (mk_player (clientId (me wd)))))) in
  let wd' := exec (joinGame_write (Some v)) wd in
  outs (joinGame_write (Some v)) wd = [mk_write c doc] /\ db wd' = <[c := doc]> (db wd) /\
  role (me wd') = Some black /\ gameRef (me wd') = Some c /\ listening (me wd') = Some c /\
  store (me wd') = StorageService.save ONLINE_STORAGE_KEY (mk_local (code (me wd)) black (clientId (me wd)))
                     (store (me wd)).
Proof.
  intros Hg Hw Hb. unfold joinGame_write. rewrite Hw, Hb. unfold listenForUpdates. om_simp.
  rewrite Hg. om_simp. rewrite ?Hg. om_simp. notify_store_tac. by split_and!.
Qed.

(** C24. Joining a room whose white seat is taken and black seat free
    claims black: one [update] writes the players with this client as
    black and status [live]; the client listens to the room and saves its
    session. *)
Theorem join_as_black wd v :
  role (me wd) = None -> code (me wd) <> "" -> db wd !! code (me wd) = Some v ->
  taken (pwhite (players_of v)) = true -> taken (pblack (players_of v)) = false ->
  let c := code (me wd) in
  let doc := merge (Some v) (players_patch live (mk_players (pwhite (players_of v))
                                                  (Some (mk_player (clientId (me wd)))))) in
  let wd' := exec joinGame wd in
  outs joinGame wd = [mk_write c doc] /\ db wd' = <[c := doc]> (db wd) /\
  role (me wd') = Some black /\ gameRef (me wd') = Some c /\ listening (me wd') = Some c /\
  store (me wd') = StorageService.save ONLINE_STORAGE_KEY (mk_local c black (clientId (me wd)))
                     (store (me wd)).
Proof.
  intros Hr Hc Hv Hw Hb. rewrite (exec_joinGame wd Hr Hc), (outs_joinGame wd Hr Hc), Hv.
  destruct (join_write_black (mk_world (with_gameRef (Some (code (me wd))) (me wd)) (db wd))
              v (code (me wd)) eq_refl Hw Hb) as (Ho & Hd & Hro & Hg & Hl & Hs).
  simpl in *. rewrite Hv in Ho, Hd. by split_and!.
Qed.
(** C25. Joining a room whose white seat is free claims white, and the
    [update] writes status [waiting] even when the black seat is taken, so
    that a room with both players present is marked waiting. *)
Theorem join_as_white wd v :
  role (me wd) = None -> code (me wd) <> "" -> db wd !! code (me wd) = Some v ->
  taken (pwhite (players_of v)) = false ->
  let c := code (me wd) in
  let doc := merge (Some v) (players_patch waiting (mk_players (Some (mk_player (clientId (me wd))))
                                                     (pblack (players_of v)))) in
  let wd' := exec joinGame wd in
  outs joinGame wd = [mk_write c doc] /\ db wd' = <[c := doc]> (db wd) /\
  gstatus doc = Some waiting /\ role (me wd') = Some white /\ listening (me wd') = Some c.
Proof.
  intros Hr Hc Hv Hw. rewrite (exec_joinGame wd Hr Hc), (outs_joinGame wd Hr Hc), Hv.
  unfold joinGame_write. rewrite Hw. unfold listenForUpdates. om_simp. rewrite Hv.
  by split_and!.
Qed.
(** The seat of a side in the players of a room, and the players with it emptied. *)
Definition seat (r : Role) (ps : PlayersDoc) : option PlayerRef :=
  match r with white => pwhite ps | black => pblack ps end.
Definition vacate (r : Role) (ps : PlayersDoc) : PlayersDoc :=
  match r with white => mk_players None (pblack ps) | black => mk_players (pwhite ps) None end.

(** Every way out of [leaveGame] ends in [resetLocalUI]: no role, no room,
    no listener, no saved session. *)
Lemma leave_resets wd :
  let o' := me (exec leaveGame wd) in
  role o' = None /\ gameRef o' = None /\ listening o' = None /\
  StorageService.load ONLINE_STORAGE_KEY (store o') = None.
Proof.
  unfold leaveGame, resetLocalUI. om_simp.
  repeat case_match; om_simp; split_and!; try done; apply StorageService.load_clear.
Qed.

Lemma leaveGame_run wd r c v :
  role (me wd) = Some r -> gameRef (me wd) = Some c -> db wd !! c = Some v ->
  outs leaveGame wd =
    if slot_is (seat r (players_of v)) (clientId (me wd))
    then [mk_write c (merge (Some v) (players_patch waiting (vacate r (players_of v))))] else [].
Proof.
  intros Hr Hg Hv. unfold leaveGame, resetLocalUI. om_simp. rewrite Hr, Hg. om_simp.
  rewrite Hv. destruct r; simpl; case_match; om_simp; by rewrite ?Hv.
Qed.

(** C26. Leaving a room whose own seat holds this client's id frees exactly
    that seat (the other one is written back unchanged) with status
    [waiting], and the client ends without role, room or saved session. *)
Theorem leave_frees_own_seat wd r c v :
  role (me wd) = Some r -> gameRef (me wd) = Some c -> db wd !! c = Some v ->
  slot_is (seat r (players_of v)) (clientId (me wd)) = true ->
  outs leaveGame wd = [mk_write c (merge (Some v) (players_patch waiting (vacate r (players_of v))))] /\
  role (me (exec leaveGame wd)) = None /\
  StorageService.load ONLINE_STORAGE_KEY (store (me (exec leaveGame wd))) = None.
Proof.
  intros Hr Hg Hv Hs. rewrite (leaveGame_run wd r c v Hr Hg Hv), Hs.
  destruct (leave_resets wd) as (? & _ & _ & ?). by split_and!.
Qed.

(** C27. Leaving never clobbers a seat the client does not hold: when its
    seat holds another id (a newer player took it), [leaveGame] writes
    nothing. *)
Theorem leave_never_clobbers wd r c v :
  role (me wd) = Some r -> gameRef (me wd) = Some c -> db wd !! c = Some v ->
  slot_is (seat r (players_of v)) (clientId (me wd)) = false ->
  outs leaveGame wd = [] /\ db (exec leaveGame wd) = db wd.
Proof.
  intros Hr Hg Hv Hs. rewrite (leaveGame_run wd r c v Hr Hg Hv), Hs. split; [done|].
  unfold leaveGame, resetLocalUI. om_simp. rewrite Hr, Hg. om_simp. rewrite Hv.
  destruct r; simpl in *; rewrite Hs, ?andb_false_r; simpl; om_simp; try case_match; by om_simp.
Qed.
(** The constructor's resume of a session saved as [saved]. *)
Lemma constructor_run wd saved :
  StorageService.load ONLINE_STORAGE_KEY (store (me wd)) = Some saved ->
  lcode saved <> "" -> lclientId saved <> "" ->
  constructor wd =
    attachToGame (lcode saved) true
      (upd_me (with_code (lcode saved)) (upd_me (with_role (Some (lrole saved)))
        (upd_me (with_clientId (lclientId saved)) wd))).
Proof.
  intros Hl Hc Hi. unfold constructor. sw_simp. rewrite Hl.
  apply String.eqb_neq in Hc, Hi. rewrite Hc, Hi. simpl. sw_simp.
  by destruct (attachToGame _ _ _) as [[??]?].
Qed.

(** [attachToGame c true]: room and listener set, then the orientation,
    which throws for a black client. *)
Lemma attach_resume c wd :
  let wd1 := upd_me (with_isReversed false) (upd_me (with_listening (Some c)) (upd_me (with_gameRef (Some c)) wd)) in
  attachToGame c true wd =
    if bool_decide (role (me wd) = Some black) then (wd1, [], false)
    else (upd_me (with_statusText ("Resumed game: " +:+ c)) wd1, [], true).
Proof.
  unfold attachToGame, listenForUpdates, orientForRole_unviewed. sw_simp.
  by destruct (role (me wd)) as [[]|].
Qed.

(** C31. Resuming a saved white session reattaches without claiming
    anything: the constructor completes, restores the id, role and code,
    points the client at the saved room and subscribes to it, reports
    "Resumed game", and writes nothing to the database. *)
Theorem resume_reattaches wd saved :
  StorageService.load ONLINE_STORAGE_KEY (store (me wd)) = Some saved ->
  lcode saved <> "" -> lclientId saved <> "" -> lrole saved = white ->
  let o' := me (exec constructor wd) in
  (constructor wd).2 = true /\ outs constructor wd = [] /\ db (exec constructor wd) = db wd /\
  role o' = Some white /\ code o' = lcode saved /\ clientId o' = lclientId saved /\
  gameRef o' = Some (lcode saved) /\ listening o' = Some (lcode saved) /\
  statusText o' = "Resumed game: " +:+ lcode saved.
Proof.
  intros Hl Hc Hi Hw. unfold exec, outs. rewrite (constructor_run wd saved Hl Hc Hi), attach_resume.
  rewrite Hw. simpl. by split_and!.
Qed.

(** C32. Resuming a saved black session throws in the constructor: the
    board must turn, but the [@ViewChild] board does not exist while the
    constructor runs, so [this.board.reverse()] throws; the component is
    not created, no "Resumed game" is shown, and the room subscription
    made just before stays registered. *)
Theorem resume_black_throws_in_constructor wd saved :
  StorageService.load ONLINE_STORAGE_KEY (store (me wd)) = Some saved ->
  lcode saved <> "" -> lclientId saved <> "" -> lrole saved = black ->
  let o' := me (exec constructor wd) in
  (constructor wd).2 = false /\ outs constructor wd = [] /\
  statusText o' = statusText (me wd) /\ listening o' = Some (lcode saved).
Proof.
  intros Hl Hc Hi Hb. unfold exec, outs. rewrite (constructor_run wd saved Hl Hc Hi), attach_resume.
  rewrite Hb. simpl. by split_and!.
Qed.
Lemma joinGame_read_got wd :
  role (me wd) = None -> code (me wd) <> "" ->
  joinGame_read wd = (mk_world (with_gameRef (Some (code (me wd))) (me wd)) (db wd), [],
                      JoinGot (db wd !! code (me wd))).
Proof.
  intros Hr Hc. unfold joinGame_read. sw_simp.
  rewrite Hr, bool_decide_eq_false_2 by tauto. apply String.eqb_neq in Hc. by rewrite Hc.
Qed.

(** Two clients [a] and [b] join room [c] at once: both read the room,
    then [a] writes, then [b] writes from its (now stale) snapshot. *)
Definition join_race (a b : Online P B) (d : DB) : World P B * World P B :=
  let '(wa, _, sa) := joinGame_read (mk_world a d) in
  let '(wb, _, sb) := joinGame_read (mk_world b (db wa)) in
  let wa' := match sa with JoinGot s => exec (joinGame_write s) (mk_world (me wa) (db wb))
                          | JoinDone => mk_world (me wa) (db wb) end in
  let wb' := match sb with JoinGot s => exec (joinGame_write s) (mk_world (me wb) (db wa'))
                          | JoinDone => mk_world (me wb) (db wa') end in
  (wa', wb').

(** C33. The join race: when two clients join a room with a free black
    seat at the same time, both read the free seat and both end with role
    black, while the room's black seat holds only the second writer's id. *)
Theorem join_race_both_black (a b : Online P B) d c v :
  role a = None -> role b = None -> code a = c -> code b = c -> c <> "" ->
  d !! c = Some v -> taken (pwhite (players_of v)) = true -> taken (pblack (players_of v)) = false ->
  let '(wa, wb) := join_race a b d in
  role (me wa) = Some black /\ role (me wb) = Some black /\
  (gplayers <$> db wb !! c) = Some (Some (mk_players (pwhite (players_of v)) (Some (mk_player (clientId b))))).
Proof.
  intros Ha Hb <- Hc Hn Hv Hw Hbl. unfold join_race.
  rewrite (joinGame_read_got (mk_world a d)) by (simpl; congruence). simpl.
  rewrite (joinGame_read_got (mk_world b d)) by (simpl; congruence). simpl. rewrite Hc, Hv.
  destruct (join_write_black (mk_world (with_gameRef (Some (code a)) a) d) v (code a) eq_refl Hw Hbl)
    as (_ & Hda & Hra & _).
  destruct (join_write_black (mk_world (with_gameRef (Some (code a)) b)
              (db (exec (joinGame_write (Some v)) (mk_world (with_gameRef (Some (code a)) a) d))))
              v (code a) eq_refl Hw Hbl) as (_ & Hdb & Hrb & _).
  simpl in *. rewrite Hda in Hrb, Hdb |- *. rewrite Hdb, !lookup_insert_eq.
  split_and!; [exact Hra|exact Hrb|done].
Qed.
End online_rooms.

(** ** The change callback *)

Section online_callback.
Context {P : Type} `{Engine P} {B : Type} `{BoardWidget B}.
Implicit Types wd : World P B.

Lemma bothJoined_applyRemoteFen f wd :
  bothJoined (me (exec (applyRemoteFen f) wd)) = bothJoined (me wd).
Proof. unfold applyRemoteFen. om_simp. by case_match; om_simp. Qed.
Lemma role_applyRemoteFen f wd : role (me (exec (applyRemoteFen f) wd)) = role (me wd).
Proof. apply (silent_applyRemoteFen f wd). Qed.
Lemma moveDisabled_handleGameOver wn wd : moveDisabled (me (exec (handleGameOver wn) wd)) = true.
Proof. unfold handleGameOver. by om_simp. Qed.

(** C28. The room gates the moves: after the change callback has seen a
    room document, the client's moves are enabled only if it has a role,
    the document says it is that side's turn, both seats are taken, and the
    game has not ended with a winner. *)
Theorem callback_gates_moves wd v :
  moveDisabled (me (exec (onValueCb (Some v)) wd)) = false ->
  exists r, role (me wd) = Some r /\ myTurn r (gturn v) = true /\
    taken (pwhite (players_of v)) = true /\ taken (pblack (players_of v)) = true /\
    ~ (gstatus v = Some ended /\ gwinner v <> None).
Proof.
  unfold onValueCb. om_simp.
  destruct (gfen v) as [f|]; [destruct (String.eqb f "")|]; om_simp;
    rewrite ?bothJoined_applyRemoteFen, ?role_applyRemoteFen; om_simp;
    destruct (role (me wd)) as [r|]; om_simp; try done;
    repeat case_match; om_simp; rewrite ?moveDisabled_handleGameOver; try done;
    try (intros Hm; exists r; refine (conj eq_refl _); bool_hyps; naive_solver).
Qed.
End online_callback.

(** ** Witnesses: two clients, Alice and Bob, with the executable engine *)

Definition ls0 : LocalStorage := mk_ls ∅ true.
Definition alice : string := "alice".
Definition bob : string := "bob".
Definition room : string := "ABC".
Definition fen_e4' : string := "rnbqkbnr/pppppppp/8/8/4P3/8/PPPP1PPP/RNBQKBNR b KQkq e3 0 1".
Definition fen_mate : string := "rnb1kbnr/pppp1ppp/8/4p3/6Pq/5P2/PPPPP2P/RNBQKBNR w KQkq - 1 3".

(** A client seated as [r] in [room], both players present, its turn. *)
Definition seated (r : Role) (id : string) (bd : Ngx.ngx) : Online FenLite.pos Ngx.ngx :=
  mk_online room "" false "" FenLite.lstart (Some r) false true false false
    (Some room) (Some room) id bd ls0.

Definition room_doc (st : Status) (wh bl : option string) : GameDoc :=
  mk_doc (Some (FenLite.lfen FenLite.lstart)) (Some "") (Some w) (Some st) None
    (Some (mk_players (mk_player <$> wh) (mk_player <$> bl))).

Definition live_room : DB := {[ room := room_doc live (Some alice) (Some bob) ]}.

(** A fresh page of Alice, no role yet. *)
Definition alice0 : Online FenLite.pos Ngx.ngx := init_online ls0 alice Ngx.initial.

Lemma online_move_guarded_witness :
  ~ move_allowed (me (mk_world alice0 live_room)) /\
  exec onUserMove (mk_world alice0 live_room) = mk_world alice0 live_room.
Proof.
  assert (Hn : ~ move_allowed (me (mk_world alice0 live_room))) by (intros (_&_&?&_); done).
  split; [exact Hn|]. exact (proj1 (online_move_guarded _ Hn)).
Defined.

Lemma online_move_invalid_reverts_witness :
  let wd := mk_world (seated white alice (Ngx.mk_ngx "garbage" false)) live_room in
  (move_allowed (me wd) /\ load (getFEN (board (me wd))) = None) /\
  outs onUserMove wd = [] /\ getFEN (board (me (exec onUserMove wd))) = FenLite.lfen FenLite.lstart.
Proof.
  intros wd. assert (Ha : move_allowed (me wd)) by (repeat split; discriminate).
  assert (Hl : load (getFEN (board (me wd))) = None) by reflexivity.
  split; [split; [exact Ha|exact Hl]|].
  destruct (online_move_invalid_reverts wd Ha Hl) as (_ & Ho & Hf & _). split; assumption.
Defined.

Lemma online_move_written_witness :
  let wd := mk_world (seated white alice (Ngx.mk_ngx fen_e4' false)) live_room in
  let p := FenLite.mk_pos "rnbqkbnr/pppppppp/8/8/4P3/8/PPPP1PPP/RNBQKBNR" b "KQkq e3 0 1" in
  (move_allowed (me wd) /\ load (getFEN (board (me wd))) = Some p /\ isCheckmate p = false) /\
  db (exec onUserMove wd) !! room =
    Some (mk_doc (Some fen_e4') (Some (pgn p)) (Some b) (Some live) None
            (Some (mk_players (Some (mk_player alice)) (Some (mk_player bob))))).
Proof.
  intros wd p. assert (Ha : move_allowed (me wd)) by (repeat split; discriminate).
  split; [split; [exact Ha|split; reflexivity]|].
  exact (proj1 (proj2 (online_move_written wd p room Ha eq_refl eq_refl eq_refl))).
Defined.

Lemma online_move_checkmate_witness :
  let wd := mk_world (seated black bob (Ngx.mk_ngx fen_mate true)) live_room in
  (move_allowed (me wd) /\ load (getFEN (board (me wd))) = Some FenLite.fools_mate /\
   isCheckmate FenLite.fools_mate = true) /\
  db (exec onUserMove wd) !! room =
    Some (mk_doc (Some fen_mate) (Some (pgn FenLite.fools_mate)) (Some w) (Some ended) (Some black)
            (Some (mk_players (Some (mk_player alice)) (Some (mk_player bob))))) /\
  overlayText (me (exec onUserMove wd)) = "BLACK wins by checkmate".
Proof.
  intros wd. assert (Ha : move_allowed (me wd)) by (repeat split; discriminate).
  assert (Hl : load (getFEN (board (me wd))) = Some FenLite.fools_mate) by reflexivity.
  split; [split; [exact Ha|split; [exact Hl|reflexivity]]|].
  destruct (online_move_checkmate wd FenLite.fools_mate room Ha eq_refl Hl eq_refl)
    as (_ & Hd & _ & _ & Ht & _).
  split; assumption.
Defined.

(** A page of [id] with the room code typed in, no role yet. *)
Definition joiner (id : string) : Online FenLite.pos Ngx.ngx :=
  with_code room (init_online ls0 id Ngx.initial).

Definition room_of (doc : GameDoc) : DB := {[ room := doc ]}.

Lemma create_game_spec_witness :
  role (me (mk_world alice0 live_room)) = None /\
  db (exec (createGame room) (mk_world alice0 live_room)) !! room = Some (fresh_room alice).
Proof.
  assert (Hr : role (me (mk_world alice0 live_room)) = None) by reflexivity.
  split; [exact Hr|].
  destruct (create_game_spec (mk_world alice0 live_room) room Hr) as (_ & Hd & _).
  rewrite Hd. apply lookup_insert_eq.
Defined.

Lemma join_rejected_witness :
  let wd := mk_world (joiner bob) ∅ in
  (role (me wd) = None /\ code (me wd) <> "" /\ db wd !! code (me wd) = None) /\
  outs joinGame wd = [] /\ role (me (exec joinGame wd)) = None.
Proof.
  intros wd. assert (Hc : code (me wd) <> "") by discriminate.
  split; [split; [reflexivity|split; [exact Hc|reflexivity]]|].
  destruct (join_rejected wd eq_refl Hc (or_introl eq_refl)) as (Ho & _ & Hr & _). split; assumption.
Defined.

Lemma join_as_black_witness :
  let v := room_doc waiting (Some alice) None in
  let wd := mk_world (joiner bob) (room_of v) in
  (role (me wd) = None /\ code (me wd) <> "" /\ db wd !! code (me wd) = Some v /\
   taken (pwhite (players_of v)) = true /\ taken (pblack (players_of v)) = false) /\
  role (me (exec joinGame wd)) = Some black /\
  gplayers <$> (db (exec joinGame wd) !! room) =
    Some (Some (mk_players (Some (mk_player alice)) (Some (mk_player bob)))).
Proof.
  intros v wd. assert (Hc : code (me wd) <> "") by discriminate.
  assert (Hv : db wd !! code (me wd) = Some v) by reflexivity.
  split; [split_and!; first [exact Hc | exact Hv | reflexivity]|].
  destruct (join_as_black wd v eq_refl Hc Hv eq_refl eq_refl) as (_ & Hd & Hr & _).
  rewrite Hd. split; [exact Hr|]. reflexivity.
Defined.

Lemma join_as_white_witness :
  let v := room_doc waiting None (Some bob) in
  let wd := mk_world (joiner alice) (room_of v) in
  (role (me wd) = None /\ code (me wd) <> "" /\ db wd !! code (me wd) = Some v /\
   taken (pwhite (players_of v)) = false) /\
  role (me (exec joinGame wd)) = Some white /\
  (gstatus <$> db (exec joinGame wd) !! room) = Some (Some waiting) /\
  gplayers <$> (db (exec joinGame wd) !! room) =
    Some (Some (mk_players (Some (mk_player alice)) (Some (mk_player bob)))).
Proof.
  intros v wd. assert (Hc : code (me wd) <> "") by discriminate.
  assert (Hv : db wd !! code (me wd) = Some v) by reflexivity.
  split; [split_and!; first [exact Hc | exact Hv | reflexivity]|].
  destruct (join_as_white wd v eq_refl Hc Hv eq_refl) as (_ & Hd & _ & Hr & _).
  rewrite Hd. split; [exact Hr|]. split; reflexivity.
Defined.

Lemma leave_frees_own_seat_witness :
  let v := room_doc live (Some alice) (Some bob) in
  let wd := mk_world (seated white alice Ngx.initial) (room_of v) in
  (role (me wd) = Some white /\ gameRef (me wd) = Some room /\ db wd !! room = Some v /\
   slot_is (seat white (players_of v)) (clientId (me wd)) = true) /\
  outs leaveGame wd = [mk_write room (mk_doc (gfen v) (gpgn v) (gturn v) (Some waiting) None
                                        (Some (mk_players None (Some (mk_player bob)))))].
Proof.
  intros v wd. assert (Hv : db wd !! room = Some v) by reflexivity.
  split; [split_and!; first [exact Hv | reflexivity]|].
  exact (proj1 (leave_frees_own_seat wd white room v eq_refl eq_refl Hv eq_refl)).
Defined.

Lemma leave_never_clobbers_witness :
  let v := room_doc live (Some alice) (Some bob) in
  let wd := mk_world (seated black "carol" Ngx.initial) (room_of v) in
  (role (me wd) = Some black /\ gameRef (me wd) = Some room /\ db wd !! room = Some v /\
   slot_is (seat black (players_of v)) (clientId (me wd)) = false) /\
  outs leaveGame wd = [] /\ db (exec leaveGame wd) = room_of v.
Proof.
  intros v wd. assert (Hv : db wd !! room = Some v) by reflexivity.
  split; [split_and!; first [exact Hv | reflexivity]|].
  exact (leave_never_clobbers wd black room v eq_refl eq_refl Hv eq_refl).
Defined.

(** Bob's page after a reload, his black session saved. *)
Definition bob_saved : LocalStorage := StorageService.save ONLINE_STORAGE_KEY (mk_local room black bob) ls0.
Definition bob_reloaded : Online FenLite.pos Ngx.ngx := init_online bob_saved "fresh-id" Ngx.initial.

(** Alice's page after a reload, her white session saved. *)
Definition alice_saved : LocalStorage := StorageService.save ONLINE_STORAGE_KEY (mk_local room white alice) ls0.
Definition alice_reloaded : Online FenLite.pos Ngx.ngx := init_online alice_saved "fresh-id" Ngx.initial.

Lemma resume_reattaches_witness :
  let wd := mk_world alice_reloaded live_room in
  (StorageService.load ONLINE_STORAGE_KEY (store (me wd)) = Some (mk_local room white alice) /\
   room <> "" /\ alice <> "") /\
  (constructor wd).2 = true /\ listening (me (exec constructor wd)) = Some room.
Proof.
  intros wd.
  assert (Hl : StorageService.load ONLINE_STORAGE_KEY (store (me wd)) = Some (mk_local room white alice))
    by reflexivity.
  assert (Hc : room <> "") by discriminate. assert (Hi : alice <> "") by discriminate.
  split; [split_and!; assumption|].
  destruct (resume_reattaches wd _ Hl Hc Hi eq_refl) as (Hok & _ & _ & _ & _ & _ & _ & Hli & _).
  split; assumption.
Defined.

Lemma resume_black_throws_in_constructor_witness :
  let wd := mk_world bob_reloaded live_room in
  (StorageService.load ONLINE_STORAGE_KEY (store (me wd)) = Some (mk_local room black bob) /\
   room <> "" /\ bob <> "") /\
  (constructor wd).2 = false.
Proof.
  intros wd.
  assert (Hl : StorageService.load ONLINE_STORAGE_KEY (store (me wd)) = Some (mk_local room black bob))
    by reflexivity.
  assert (Hc : room <> "") by discriminate. assert (Hi : bob <> "") by discriminate.
  split; [split_and!; assumption|].
  exact (proj1 (resume_black_throws_in_constructor wd _ Hl Hc Hi eq_refl)).
Defined.

Lemma join_race_both_black_witness :
  let v := room_doc waiting (Some alice) None in
  (role (joiner bob) = None /\ role (joiner "carol") = None /\ code (joiner bob) = room /\
   code (joiner "carol") = room /\ room <> "" /\ room_of v !! room = Some v /\
   taken (pwhite (players_of v)) = true /\ taken (pblack (players_of v)) = false) /\
  let '(wa, wb) := join_race (joiner bob) (joiner "carol") (room_of v) in
  role (me wa) = Some black /\ role (me wb) = Some black /\
  (gplayers <$> db wb !! room) = Some (Some (mk_players (Some (mk_player alice)) (Some (mk_player "carol")))).
Proof.
  intros v. assert (Hc : room <> "") by discriminate.
  assert (Hv : room_of v !! room = Some v) by reflexivity.
  split; [split_and!; first [exact Hc | exact Hv | reflexivity]|].
  exact (join_race_both_black (joiner bob) (joiner "carol") (room_of v) room v
           eq_refl eq_refl eq_refl eq_refl Hc Hv eq_refl eq_refl).
Defined.

Lemma callback_gates_moves_witness :
  let wd := mk_world (seated white alice Ngx.initial) ∅ in
  let v := room_doc live (Some alice) (Some bob) in
  moveDisabled (me (exec (onValueCb (Some v)) wd)) = false /\
  exists r, role (me wd) = Some r /\ myTurn r (gturn v) = true /\
    taken (pwhite (players_of v)) = true /\ taken (pblack (players_of v)) = true /\
    ~ (gstatus v = Some ended /\ gwinner v <> None).
Proof.
  intros wd v. assert (Hm : moveDisabled (me (exec (onValueCb (Some v)) wd)) = false) by reflexivity.
  split; [exact Hm|]. exact (callback_gates_moves wd v Hm).
Defined.

(** The offline host's key and the online page's key share one storage. *)
Lemma storage_isolation_witness :
  "offline-game-state" <> ONLINE_STORAGE_KEY /\
  StorageService.load (T:=OnlineLocalState) ONLINE_STORAGE_KEY
    (StorageService.save "offline-game-state" (mk_local room white alice) bob_saved) =
  StorageService.load ONLINE_STORAGE_KEY bob_saved.
Proof.
  assert (Hk : "offline-game-state" <> ONLINE_STORAGE_KEY) by discriminate.
  split; [exact Hk|]. exact (proj1 (storage_isolation ONLINE_STORAGE_KEY _ _ _ (not_eq_sym Hk))).
Defined.
