(* ===== verification/Offline.v ===== *)
(** * The offline system: the host page, its two iframes and the channels

    The offline route runs one [GameHostComponent] and, in its two iframes,
    two [BoardEmbedComponent]s; they interact only by [window.postMessage].
    This file composes the models of Host.v and Embed.v into one closed
    system: a state [Sys] holds the host, and for each iframe ([Frame]) its
    component, whether its [ngAfterViewInit] has run (its listener is
    attached), the FIFO channel of messages it posted to the host ([up]) and
    the channel of messages the host posted to it ([down]).  Messages of one
    channel are delivered in order; the channels interleave freely.  A
    message that reaches an iframe before its listener is attached is lost.

    The steps ([Label]) are: an iframe finishing its view ([LStart]), the
    host handling the next message of an iframe ([LHost]), an iframe
    handling the next message of the host ([LKid]), the user dragging a
    piece on an iframe's board ([LDrag]), the user starting a new game
    on the host page ([LNewGame]), and an iframe's document being reloaded
    ([LReload]): its component's [ngOnDestroy] detaches the listener
    ([frame_ngOnDestroy]), messages still on their way to the old document
    are dropped, and a new component is constructed on a fresh widget.  [step_fn] runs one step and [step] is
    the same transition as an inductive relation; [reachable] is its
    reflexive-transitive closure from the start-up state.

    Theorems: [step_fn] and [step] agree ([step_fn_step]); every
    reachable state keeps the roles fixed per window (white in the first,
    black in the second), the iframes gated and their orientation right;
    a drag can only move the iframe's own colour; and, for every state in
    which the white iframe still has a non-mating report queued when New
    game is pressed, the host takes that stale report into the new game
    while the white board shows the start position.  The concrete system
    (executable engine and widget) and the scheduler [settle] only build
    the states the witnesses start from; their reachability is proved from
    the run that builds them. *)

From S2P Require Import Prelude Messages Engine Widget Storage Embed Host.
Import BoardEmbedComponent GameHostComponent.

Inductive Side := K1 | K2.

#[export] Instance Side_eq_dec : EqDecision Side.
Proof. solve_decision. Defined.

(** The iframe windows: [frame1] is window 1, [frame2] window 2. *)
Definition window_of (i : Side) : nat := match i with K1 => 1 | K2 => 2 end.

(** The role the host gives each window ([srcWin === this.window1 ? 'white' : 'black']). *)
Definition side_role (i : Side) : Role := match i with K1 => white | K2 => black end.

(** [window.location.origin], the same for the page and its iframes. *)
Definition ORIGIN : string := "https://pencil-chess.app".

Record Frame (B : Type) := mk_frame {
  emb : Embed B;
  started : bool;
  up : list WireMessage;
  down : list WireMessage
}.
Arguments mk_frame {B}. Arguments emb {B}. Arguments started {B}.
Arguments up {B}. Arguments down {B}.

Record Sys (P B : Type) := mk_sys { host : Host P; fr1 : Frame B; fr2 : Frame B }.
Arguments mk_sys {P B}. Arguments host {P B}. Arguments fr1 {P B}. Arguments fr2 {P B}.

Inductive Label (B : Type) :=
  | LStart (i : Side)
  | LHost (i : Side)
  | LKid (i : Side)
  | LDrag (i : Side) (c : Role) (f : string)
  | LNewGame
  | LReload (i : Side) (bd : B).
Arguments LStart {B}. Arguments LHost {B}. Arguments LKid {B}. Arguments LDrag {B}.
Arguments LNewGame {B}. Arguments LReload {B}.

Section system.
Context {P : Type} `{Engine P} {B : Type} `{BoardWidget B}.
Implicit Types (s : Sys P B) (fr : Frame B).

Definition frame (i : Side) s : Frame B := match i with K1 => fr1 s | K2 => fr2 s end.
Definition set_frame (i : Side) fr s : Sys P B :=
  match i with K1 => mk_sys (host s) fr (fr2 s) | K2 => mk_sys (host s) (fr1 s) fr end.
Definition set_host (h : Host P) s : Sys P B := mk_sys h (fr1 s) (fr2 s).

(** The event an iframe's message raises on the host page, and the one a
    host message raises in an iframe. *)
Definition ev_from (i : Side) (m : WireMessage) : MessageEvent :=
  mk_event ORIGIN (Some (window_of i)) (Some m).
Definition ev_to (m : WireMessage) : MessageEvent := mk_event ORIGIN (Some 0) (Some m).

(** [target.postMessage(msg)] from the host: append to the target's channel. *)
Definition post (n : nat) (m : WireMessage) s : Sys P B :=
  match n with
  | 1 => set_frame K1 (mk_frame (emb (fr1 s)) (started (fr1 s)) (up (fr1 s)) (down (fr1 s) ++ [m])) s
  | 2 => set_frame K2 (mk_frame (emb (fr2 s)) (started (fr2 s)) (up (fr2 s)) (down (fr2 s) ++ [m])) s
  | _ => s
  end.

Fixpoint deliver (os : list (nat * WireMessage)) s : Sys P B :=
  match os with [] => s | (n, m) :: os' => deliver os' (post n m s) end.

(** Run a host computation and post what it posts. *)
Definition host_run (m : SW (Host P) (nat * WireMessage) unit) s : Sys P B :=
  deliver (outs m (host s)) (set_host (exec m (host s)) s).

(** Run an iframe computation; what it posts goes up to the host. *)
Definition frame_run (i : Side) (m : SW (Embed B) WireMessage unit) s : Sys P B :=
  let fr := frame i s in
  set_frame i (mk_frame (exec m (emb fr)) (started fr) (up fr ++ outs m (emb fr)) (down fr)) s.

Definition host_onMessage (i : Side) (m : WireMessage) : SW (Host P) (nat * WireMessage) unit :=
  GameHostComponent.onMessage ORIGIN (Some 1) (Some 2) (ev_from i m).

Definition drag_board (i : Side) (f : string) s : Sys P B :=
  let fr := frame i s in
  set_frame i (mk_frame (BoardEmbedComponent.set_board (drag f (BoardEmbedComponent.board (emb fr))) (emb fr))
                 (started fr) (up fr) (down fr)) s.

(** [ngOnDestroy]: [window.removeEventListener('message', this.onMessage)];
    the iframe's listener is detached. *)
Definition frame_ngOnDestroy (fr : Frame B) : Frame B := mk_frame (emb fr) false (up fr) (down fr).

(** Reloading an iframe's document: the component is destroyed, messages
    still on their way to the old document are dropped, and a new
    component is constructed on a fresh widget [bd] (white at the bottom);
    what the old iframe already posted stays on its way to the host. *)
Definition reload_frame (bd : B) (fr : Frame B) : Frame B :=
  let fr' := frame_ngOnDestroy fr in
  mk_frame (BoardEmbedComponent.init_embed bd) (started fr') (up fr') [].

(** One step of the system, [None] when the label is not enabled. *)
Definition step_fn s (l : Label B) : option (Sys P B) :=
  match l with
  | LStart i =>
      let fr := frame i s in
      if started fr then None else
      Some (frame_run i BoardEmbedComponent.ngAfterViewInit
              (set_frame i (mk_frame (emb fr) true (up fr) (down fr)) s))
  | LHost i =>
      let fr := frame i s in
      match up fr with
      | [] => None
      | m :: rest => Some (host_run (host_onMessage i m) (set_frame i (mk_frame (emb fr) (started fr) rest (down fr)) s))
      end
  | LKid i =>
      let fr := frame i s in
      match down fr with
      | [] => None
      | m :: rest =>
          let s1 := set_frame i (mk_frame (emb fr) (started fr) (up fr) rest) s in
          Some (if started fr then frame_run i (BoardEmbedComponent.onMessage ORIGIN (ev_to m)) s1 else s1)
      end
  | LDrag i c f =>
      let fr := frame i s in
      if started fr && may_drag (emb fr) c then
        Some (frame_run i BoardEmbedComponent.onUserMove (drag_board i f s))
      else None
  | LNewGame => Some (host_run (GameHostComponent.newGame (Some 1) (Some 2)) s)
  | LReload i bd => if reversed bd then None else Some (set_frame i (reload_frame bd (frame i s)) s)
  end.

(** The same transitions as a relation, one rule per kind of event. *)
Inductive step : Sys P B -> Label B -> Sys P B -> Prop :=
  | step_start i s :
      started (frame i s) = false ->
      step s (LStart i) (frame_run i BoardEmbedComponent.ngAfterViewInit
                           (set_frame i (mk_frame (emb (frame i s)) true (up (frame i s)) (down (frame i s))) s))
  | step_host i s m rest :
      up (frame i s) = m :: rest ->
      step s (LHost i) (host_run (host_onMessage i m)
                          (set_frame i (mk_frame (emb (frame i s)) (started (frame i s)) rest (down (frame i s))) s))
  | step_kid i s m rest :
      down (frame i s) = m :: rest -> started (frame i s) = true ->
      step s (LKid i) (frame_run i (BoardEmbedComponent.onMessage ORIGIN (ev_to m))
                         (set_frame i (mk_frame (emb (frame i s)) true (up (frame i s)) rest) s))
  | step_lost i s m rest :
      down (frame i s) = m :: rest -> started (frame i s) = false ->
      step s (LKid i) (set_frame i (mk_frame (emb (frame i s)) false (up (frame i s)) rest) s)
  | step_drag i c f s :
      started (frame i s) = true -> may_drag (emb (frame i s)) c = true ->
      step s (LDrag i c f) (frame_run i BoardEmbedComponent.onUserMove (drag_board i f s))
  | step_new_game s :
      step s LNewGame (host_run (GameHostComponent.newGame (Some 1) (Some 2)) s)
  | step_reload i bd s :
      reversed bd = false ->
      step s (LReload i bd) (set_frame i (reload_frame bd (frame i s)) s).

Definition sys_step s s' : Prop := exists l, step s l s'.

(** The page after load: the host has resumed from storage [ls], the
    iframes' components are constructed on the widget [bd0]. *)
Definition init_sys (ls : LocalStorage) (bd0 : B) : Sys P B :=
  mk_sys (exec GameHostComponent.ngAfterViewInit (GameHostComponent.init_host ls))
    (mk_frame (BoardEmbedComponent.init_embed bd0) false [] [])
    (mk_frame (BoardEmbedComponent.init_embed bd0) false [] []).

Definition reachable (ls : LocalStorage) (bd0 : B) s : Prop := rtc sys_step (init_sys ls bd0) s.

(** Run a list of steps. *)
Fixpoint run s (ls : list (Label B)) : option (Sys P B) :=
  match ls with [] => Some s | l :: ls' => step_fn s l ≫= fun s' => run s' ls' end.
End system.

(** ** The step function and the step relation *)

Section system_steps.
Context {P : Type} `{Engine P} {B : Type} `{BoardWidget B}.
Implicit Types (s : Sys P B).

Lemma step_fn_sound s l s' : step_fn s l = Some s' -> step s l s'.
Proof.
  destruct l as [i|i|i|i c f| |i bd]; simpl.
  - destruct (started (frame i s)) eqn:E; [done|]. intros [= <-]. by constructor.
  - destruct (up (frame i s)) as [|m rest] eqn:E; [done|]. intros [= <-]. by constructor.
  - destruct (down (frame i s)) as [|m rest] eqn:E; [done|].
    destruct (started (frame i s)) eqn:Es; intros [= <-]; [by eapply step_kid|by eapply step_lost].
  - destruct (started (frame i s)) eqn:Es, (may_drag (emb (frame i s)) c) eqn:Ed; try done.
    intros [= <-]. by constructor.
  - intros [= <-]. constructor.
  - destruct (reversed bd) eqn:Er; [done|]. intros [= <-]. by constructor.
Qed.

Lemma step_fn_complete s l s' : step s l s' -> step_fn s l = Some s'.
Proof.
  destruct 1 as [i s Hst|i s m rest Hu|i s m rest Hd Hst|i s m rest Hd Hst|i c f s Hst Hd|s|i bd s Hr];
    simpl; rewrite ?Hst, ?Hu, ?Hd, ?Hr; simpl; done.
Qed.

(** The executable step function is the step relation. *)
Theorem step_fn_step s l s' : step_fn s l = Some s' <-> step s l s'.
Proof. split; [apply step_fn_sound|apply step_fn_complete]. Qed.

Lemma run_steps s ls s' : run s ls = Some s' -> rtc sys_step s s'.
Proof.
  revert s. induction ls as [|l ls IH]; simpl; intros s Hr; [by inversion Hr|].
  destruct (step_fn s l) as [s1|] eqn:E; [|done]. simpl in Hr.
  apply rtc_l with s1; [exists l; by apply step_fn_sound|by apply IH].
Qed.
End system_steps.

(** ** The invariant of the reachable states *)

(** A [ROLE_ASSIGN] for window [i] carries [i]'s role. *)
Definition role_msg_ok (i : Side) (m : WireMessage) : bool :=
  match m with ROLE_ASSIGN r => bool_decide (r = side_role i) | _ => true end.

(** What the host posts to window [n] is right for that window. *)
Definition post_ok (nm : nat * WireMessage) : bool :=
  match nm.1 with 1 => role_msg_ok K1 nm.2 | _ => role_msg_ok K2 nm.2 end.

Section system_invariant.
Context {P : Type} `{Engine P} {B : Type} `{BoardWidget B}.
Implicit Types (s : Sys P B) (fr : Frame B).

(** An iframe with its channel from the host: its role is its window's
    (or not yet assigned), every role in flight to it is its window's, a
    board without a role is disabled, and its orientation is right. *)
Definition frame_ok (i : Side) fr : Prop :=
  (role (emb fr) = None \/ role (emb fr) = Some (side_role i)) /\
  Forall (fun m => role_msg_ok i m = true) (down fr) /\
  gated (emb fr) /\ wf_embed (emb fr).

Definition sys_ok s : Prop := frame_ok K1 (fr1 s) /\ frame_ok K2 (fr2 s).

Lemma frame_set_frame i j fr s : frame i (set_frame j fr s) = if decide (i = j) then fr else frame i s.
Proof. by destruct i, j. Qed.

Lemma sys_ok_frame s : sys_ok s <-> forall i, frame_ok i (frame i s).
Proof. split; [intros [??] []; done|]. intros Hf. split; [apply (Hf K1)|apply (Hf K2)]. Qed.

Lemma sys_ok_set_frame i fr s : sys_ok s -> frame_ok i fr -> sys_ok (set_frame i fr s).
Proof. intros [??] ?. by destruct i; split. Qed.

Lemma post_sys_ok n m s : sys_ok s -> post_ok (n, m) = true -> sys_ok (post n m s).
Proof.
  intros [H1 H2] Hp. destruct n as [|[|[|n]]]; simpl in *; try by split.
  - destruct H1 as (? & ? & ? & ?). split; [|done]. split_and!; try done. apply Forall_app; split; [done|by constructor].
  - destruct H2 as (? & ? & ? & ?). split; [done|]. split_and!; try done. apply Forall_app; split; [done|by constructor].
Qed.

Lemma deliver_sys_ok os s : sys_ok s -> Forall (fun nm => post_ok nm = true) os -> sys_ok (deliver os s).
Proof.
  revert s. induction os as [|[n m] os IH]; intros s Hs Ho; [done|].
  apply Forall_cons in Ho as [Hm Ho]. apply IH; [by apply post_sys_ok|done].
Qed.

Lemma host_onMessage_posts i m h :
  Forall (fun nm => post_ok nm = true) (outs (host_onMessage i m) h).
Proof.
  unfold host_onMessage, GameHostComponent.onMessage. simpl.
  destruct m; simpl; try (by constructor);
    unfold onReady, onRequestSync, onBoardUpdate; autorewrite with pencil_rw; simpl;
    repeat case_match; autorewrite with pencil_rw; simpl; destruct i; repeat constructor;
    bool_hyps; simplify_eq/=.
Qed.
Lemma newGame_posts h :
  Forall (fun nm => post_ok nm = true) (outs (newGame (P:=P) (Some 1) (Some 2)) h).
Proof. unfold newGame. autorewrite with pencil_rw. simpl. repeat constructor. Qed.

Lemma host_run_sys_ok m s :
  sys_ok s -> Forall (fun nm => post_ok nm = true) (outs m (host s)) -> sys_ok (host_run m s).
Proof. intros [??] Ho. unfold host_run. apply deliver_sys_ok; [by split|done]. Qed.

Lemma frame_run_ok i m s :
  frame_ok i (frame i s) ->
  (role (exec m (emb (frame i s))) = None \/ role (exec m (emb (frame i s))) = Some (side_role i)) ->
  gated (exec m (emb (frame i s))) -> wf_embed (exec m (emb (frame i s))) ->
  sys_ok s -> sys_ok (frame_run i m s).
Proof.
  intros (_ & Hd & _) Hr Hg Hw Hs. unfold frame_run. apply sys_ok_set_frame; [done|].
  split_and!; simpl; done.
Qed.

(** The iframe's listener passes the host's messages to [handle]. *)
Lemma embed_onMessage_handle m e :
  exec (BoardEmbedComponent.onMessage ORIGIN (ev_to m)) e = exec (handle (B:=B) m) e.
Proof. unfold BoardEmbedComponent.onMessage. simpl. by rewrite ?String.eqb_refl. Qed.

(** A freshly constructed iframe on an unflipped widget. *)
Lemma init_frame_ok i bd st ups :
  reversed bd = false -> frame_ok i (mk_frame (BoardEmbedComponent.init_embed bd) st ups []).
Proof. intros Hr. split_and!; [by left|done|done|]. by unfold wf_embed; simpl; rewrite Hr. Qed.

Context `{!SetFenResetsOrientation B}.

(** Every step keeps the invariant. *)
Lemma step_sys_ok s l s' : step s l s' -> sys_ok s -> sys_ok s'.
Proof.
  intros Hst Hs. pose proof (proj1 (sys_ok_frame s) Hs) as Hf.
  destruct Hst as [i s Hst|i s m rest Hu|i s m rest Hd Hst|i s m rest Hd Hst|i c f s Hst Hd|s|i bd s Hr].
  - destruct (Hf i) as (Hr & Hdn & Hg & Hw).
    apply frame_run_ok; rewrite ?frame_set_frame, ?decide_True by done; simpl; try done.
    by apply sys_ok_set_frame.
  - apply host_run_sys_ok; [|apply host_onMessage_posts].
    destruct (Hf i) as (Hr & Hdn & Hg & Hw). by apply sys_ok_set_frame.
  - destruct (Hf i) as (Hr & Hdn & Hg & Hw). rewrite Hd in Hdn. apply Forall_cons in Hdn as [Hm Hdn].
    apply frame_run_ok; rewrite ?frame_set_frame, ?decide_True by done; simpl;
      rewrite ?embed_onMessage_handle.
    + split_and!; done.
    + rewrite handle_role. destruct m; try done. simpl in Hm. bool_hyps. subst. by right.
    + by apply handle_gated.
    + by apply handle_wf.
    + by apply sys_ok_set_frame.
  - destruct (Hf i) as (Hr & Hdn & Hg & Hw). rewrite Hd in Hdn. apply Forall_cons in Hdn as [_ Hdn].
    by apply sys_ok_set_frame.
  - destruct (Hf i) as (Hr & Hdn & Hg & (Hw1 & Hw2 & Hw3)). unfold drag_board.
    apply frame_run_ok; rewrite ?frame_set_frame, ?decide_True by done; simpl; rewrite ?exec_onUserMove;
      try done.
    all: try (apply sys_ok_set_frame; [done|]).
    all: unfold frame_ok, gated, wf_embed; simpl; rewrite ?reversed_drag; split_and!; done.
  - apply host_run_sys_ok; [done|apply newGame_posts].
  - apply sys_ok_set_frame; [done|]. by apply init_frame_ok.
Qed.
End system_invariant.

Section system_theorems.
Context {P : Type} `{Engine P} {B : Type} `{BoardWidget B} `{!SetFenResetsOrientation B}.
Implicit Types (s : Sys P B).

Lemma init_sys_ok ls bd0 : reversed bd0 = false -> sys_ok (init_sys (P:=P) ls bd0).
Proof. intros Hr. split; by apply init_frame_ok. Qed.

Lemma rtc_sys_ok s s' : rtc sys_step s s' -> sys_ok s -> sys_ok s'.
Proof. induction 1 as [|s1 s2 s3 [l Hst] _ IH]; [done|]. intros Hs. by eapply IH, step_sys_ok. Qed.

(** C5. Offline role safety and iframe invariant: in every state the page can
    reach, the first iframe is white or has no role yet and the second is
    black or has no role yet (also every [ROLE_ASSIGN] still in flight), an
    iframe without a role is disabled, and each board is reversed exactly
    when its role is black, with [isReversed] tracking the widget. *)
Theorem offline_invariant ls bd0 s :
  reversed bd0 = false -> reachable ls bd0 s -> sys_ok s.
Proof.
  intros Hr Hreach. apply (rtc_sys_ok _ _ Hreach), init_sys_ok, Hr.
Qed.
(** C6. Offline drag safety: in a reachable state, the user can drag only the
    pieces of the iframe's own colour (white in the first window, black in
    the second), and only while that iframe has its role and is enabled. *)
Theorem offline_drag_own_colour ls bd0 s i c f s' :
  reversed bd0 = false -> reachable ls bd0 s -> step s (LDrag i c f) s' ->
  c = side_role i /\ role (emb (frame i s)) = Some (side_role i) /\
  moveDisabled (emb (frame i s)) = false.
Proof.
  intros Hr Hreach Hst. apply step_fn_complete in Hst. simpl in Hst.
  destruct (started (frame i s) && may_drag (emb (frame i s)) c) eqn:Hd; [|done].
  apply andb_prop in Hd as [_ Hd].
  destruct (proj1 (sys_ok_frame s) (rtc_sys_ok _ _ Hreach (init_sys_ok ls bd0 Hr)) i) as ([Hro|Hro] & _ & Hg & _);
    unfold gated, may_drag, lightDisabled, darkDisabled in *;
    destruct (role (emb (frame i s))) as [[|]|], (moveDisabled (emb (frame i s))),
      (applyingRemote (emb (frame i s))), c, i; simpl in *; naive_solver.
Qed.
End system_theorems.

(** ** A report in flight across "New game" *)

Section stale_report.
Context {P : Type} `{Engine P} {B : Type} `{BoardWidget B}.
Implicit Types (s : Sys P B).

(** The messages of a post list addressed to window [n], in order. *)
Definition to_window (n : nat) (os : list (nat * WireMessage)) : list WireMessage :=
  omap (fun nm => if Nat.eqb nm.1 n then Some nm.2 else None) os.

Lemma deliver_host os s : host (deliver os s) = host s.
Proof. revert s. induction os as [|[n m] os IH]; intros s; [done|]. simpl. rewrite IH. by destruct n as [|[|[|n]]]. Qed.

Lemma deliver_up1 os s : up (fr1 (deliver os s)) = up (fr1 s).
Proof. revert s. induction os as [|[n m] os IH]; intros s; [done|]. simpl. rewrite IH. by destruct n as [|[|[|n]]]. Qed.

Lemma deliver_down1 os s : down (fr1 (deliver os s)) = down (fr1 s) ++ to_window 1 os.
Proof.
  revert s. induction os as [|[n m] os IH]; intros s; simpl; [by rewrite app_nil_r|].
  rewrite IH. destruct n as [|[|[|n]]]; simpl; by rewrite <-?app_assoc.
Qed.

Lemma newGame_host h : chess (exec (newGame (P:=P) (Some 1) (Some 2)) h) = start.
Proof. unfold newGame. by autorewrite with pencil_rw. Qed.

Lemma newGame_to_window1 h :
  to_window 1 (outs (newGame (P:=P) (Some 1) (Some 2)) h) = [RESET; SYNC_STATE (fen start) None; TURN w].
Proof. unfold newGame. autorewrite with pencil_rw. simpl. by rewrite turn_start. Qed.

(** C15. A move reported before "New game" and read by the host after it
    is taken into the new game: whenever the white iframe's next report is
    a BOARD_UPDATE with a FEN the engine loads (and does not mate), running
    "New game" resets the host to the start position, and the host then
    reads the stale report, accepts it (white is to move at the start) and
    holds the old game's position; the white iframe is sent only the
    reset, the start position and two turns, never that FEN, so its board
    shows the start while the host holds the reported position. *)
Theorem offline_stale_move_after_new_game s f p rest :
  up (fr1 s) = BOARD_UPDATE f :: rest -> load f = Some p -> isCheckmate p = false ->
  let s1 := host_run (newGame (Some 1) (Some 2)) s in
  step s LNewGame s1 /\ chess (host s1) = start /\
  exists s2, step s1 (LHost K1) s2 /\ chess (host s2) = p /\
    down (fr1 s2) = down (fr1 s) ++ [RESET; SYNC_STATE (fen start) None; TURN w; TURN (turn p)].
Proof.
  intros Hu Hl Hm s1. split; [constructor|].
  assert (Hh : chess (host s1) = start).
  { unfold s1, host_run. rewrite deliver_host. apply newGame_host. }
  split; [exact Hh|].
  assert (Hu1 : up (frame K1 s1) = BOARD_UPDATE f :: rest).
  { unfold s1, host_run, frame. rewrite deliver_up1. exact Hu. }
  eexists. split; [by eapply step_host|].
  unfold host_run. rewrite deliver_host, deliver_down1. cbn [set_frame host fr1 down frame emb started up].
  assert (Ht : Some 1 = currentTurnWindow (Some 1) (Some 2) (host s1)).
  { unfold currentTurnWindow. by rewrite Hh, turn_start. }
  unfold host_onMessage. rewrite (onMsg_dispatch ORIGIN (Some 1) (Some 2) (ev_from K1 (BOARD_UPDATE f)) 1 (BOARD_UPDATE f) eq_refl eq_refl eq_refl).
  destruct (onBoardUpdate_accepted (Some 1) (Some 2) 1 f (host s1) p Ht Hl) as [He Ho].
  rewrite He, Ho, Hm. simpl. split; [done|].
  rewrite turn_start, <-!app_assoc. done.
Qed.
End stale_report.

(** ** Executions of the page with the executable engine and widget *)

Section executions.
Context {P : Type} `{Engine P} {B : Type} `{BoardWidget B}.
Implicit Types (s : Sys P B).

(** The first enabled delivery, host first: the scheduler of the traces. *)
Definition next_delivery s : option (Label B * Sys P B) :=
  match step_fn s (LHost K1) with Some s' => Some (LHost K1, s') | None =>
  match step_fn s (LHost K2) with Some s' => Some (LHost K2, s') | None =>
  match step_fn s (LKid K1) with Some s' => Some (LKid K1, s') | None =>
  match step_fn s (LKid K2) with Some s' => Some (LKid K2, s') | None => None end end end end.

(** Deliver every message in flight, at most [n] of them. *)
Fixpoint settle (n : nat) s : list (Label B) :=
  match n with
  | 0 => []
  | S n' => match next_delivery s with Some (l, s') => l :: settle n' s' | None => [] end
  end.

End executions.

Definition page0 : Sys FenLite.pos Ngx.ngx := init_sys (mk_ls ∅ true) Ngx.initial.

(** Run labels, then settle. *)
Definition play (s : Sys FenLite.pos Ngx.ngx) (ls : list (Label Ngx.ngx)) : option (Sys FenLite.pos Ngx.ngx) :=
  run s ls ≫= fun s' => run s' (settle 64 s').

Definition fen_f3 : string := "rnbqkbnr/pppppppp/8/8/8/5P2/PPPPP1PP/RNBQKBNR b KQkq - 0 1".
Definition fen_e5 : string := "rnbqkbnr/pppp1ppp/8/4p3/8/5P2/PPPPP1PP/RNBQKBNR w KQkq e6 0 2".
Definition fen_g4 : string := "rnbqkbnr/pppp1ppp/8/4p3/6P1/5P2/PPPPP2P/RNBQKBNR b KQkq g3 0 2".

(** Play a sequence of user actions, settling the page after each. *)
Fixpoint play_all (s : Sys FenLite.pos Ngx.ngx) (acts : list (list (Label Ngx.ngx))) : option (Sys FenLite.pos Ngx.ngx) :=
  match acts with [] => Some s | a :: acts' => play s a ≫= fun s' => play_all s' acts' end.

Definition act_start : list (Label Ngx.ngx) := [LStart K1; LStart K2].
(** 1.f3 e5, each report settled. *)
Definition acts_opening : list (list (Label Ngx.ngx)) := [act_start; [LDrag K1 white fen_f3]; [LDrag K2 black fen_e5]].

Definition state_of (acts : list (list (Label Ngx.ngx))) : Sys FenLite.pos Ngx.ngx := default page0 (play_all page0 acts).

Definition handshake_state := state_of [act_start].
Definition opening_state := state_of acts_opening.
(** The position after 1.f3 e5 2.g4. *)
Definition g4_pos : FenLite.pos := FenLite.mk_pos "rnbqkbnr/pppp1ppp/8/4p3/6P1/5P2/PPPPP2P/RNBQKBNR" b "KQkq g3 0 2".
(** In the opening position white drags 2.g4; the report is still in flight. *)
Definition g4_dragged := default opening_state (step_fn opening_state (LDrag K1 white fen_g4)).

Lemma play_steps s a s' : play s a = Some s' -> rtc sys_step s s'.
Proof.
  unfold play. destruct (run s a) as [s1|] eqn:E; simpl; [|done].
  intros Hr. by eapply rtc_trans; eapply run_steps.
Qed.

Lemma play_all_steps s acts s' : play_all s acts = Some s' -> rtc sys_step s s'.
Proof.
  revert s. induction acts as [|a acts IH]; simpl; intros s Hp; [by simplify_eq|].
  destruct (play s a) as [s1|] eqn:E; simpl in Hp; [|done].
  eapply rtc_trans; [by eapply play_steps|by apply IH].
Qed.

Lemma state_of_reachable acts :
  is_Some (play_all page0 acts) -> reachable (mk_ls ∅ true) Ngx.initial (state_of acts).
Proof. intros [s' Hs]. unfold state_of. rewrite Hs. by eapply play_all_steps. Qed.

Lemma handshake_reachable : reachable (mk_ls ∅ true) Ngx.initial handshake_state.
Proof. apply state_of_reachable. vm_compute. by eexists. Qed.

Lemma opening_reachable : reachable (mk_ls ∅ true) Ngx.initial opening_state.
Proof. apply state_of_reachable. vm_compute. by eexists. Qed.

Lemma step_of s l s' : step_fn s l = Some s' -> step s l (default s (step_fn s l)).
Proof. intros E. rewrite E. by apply step_fn_sound. Qed.

Lemma offline_invariant_witness :
  reversed Ngx.initial = false /\ sys_ok handshake_state.
Proof.
  split; [reflexivity|].
  apply (offline_invariant (mk_ls ∅ true) Ngx.initial handshake_state); [reflexivity|apply handshake_reachable].
Defined.

(** White drags a white piece in the opening position. *)
Lemma offline_drag_own_colour_witness :
  white = side_role K1 /\ role (emb (frame K1 opening_state)) = Some (side_role K1) /\
  moveDisabled (emb (frame K1 opening_state)) = false.
Proof.
  apply (offline_drag_own_colour (mk_ls ∅ true) Ngx.initial opening_state K1 white fen_g4 g4_dragged);
    [reflexivity|apply opening_reachable|].
  by apply step_of with (s' := g4_dragged); vm_compute.
Defined.

(** In the opening position white drags 2.g4; the report is still in
    flight when "New game" runs. *)
Lemma offline_stale_move_after_new_game_witness :
  (up (fr1 g4_dragged) = [BOARD_UPDATE fen_g4] /\ load fen_g4 = Some g4_pos /\ isCheckmate g4_pos = false) /\
  chess (host (host_run (newGame (Some 1) (Some 2)) g4_dragged)) = start.
Proof.
  assert (Hu : up (fr1 g4_dragged) = [BOARD_UPDATE fen_g4]) by (vm_compute; reflexivity).
  assert (Hl : load fen_g4 = Some g4_pos) by reflexivity.
  assert (Hm : isCheckmate g4_pos = false) by reflexivity.
  split; [split_and!; assumption|].
  exact (proj1 (proj2 (offline_stale_move_after_new_game g4_dragged fen_g4 g4_pos [] Hu Hl Hm))).
Defined.
