(* ===== verification/Routing.v ===== *)
(** * The route tables ([AppRoutingModule])

    The sources hold three versions of the application's route table: two
    in src/unnamed/part_000 (lines 1-35 and 37-72) and one in
    src/unnamed/part_001.  Each is a list of Angular [Route]s, tried in
    order: a route either lazily loads a component or redirects, and
    matches by prefix (the default) or, with [pathMatch: 'full'], only the
    whole remaining URL; [**] matches any URL.  The three tables are the
    definitions [routes] of the modules [RoutesWildcard], [RoutesGame] and
    [RoutesShort], written as the source writes them.

    The matching is done by the Angular router, a library the code only
    calls; [recognize] models its rules for the routes used here (no
    children, no parameters, no outlets, relative redirects): the URL is a
    list of segments; a route consumes the segments of its path; a
    component route that leaves segments unconsumed does not match (it has
    no children to consume them); a redirect replaces the consumed segments
    by its target and matching restarts on the whole table; when a redirect
    leads nowhere the next route is tried.  Whether the router follows a
    second relative redirect after a first one is kept as the parameter
    [chain]: Angular's recognizer does not ([chain = false]); the theorems
    that depend on it say so.  The redirect budget [fuel] bounds the
    chain; without chaining one redirect is all there is. *)

From S2P Require Import Prelude.
From Stdlib Require Import String Ascii.

Inductive LoadedComponent :=
  | GameHostComponent
  | BoardEmbedComponent
  | OnlineGameComponent.

#[export] Instance LoadedComponent_eq_dec : EqDecision LoadedComponent.
Proof. solve_decision. Defined.

Inductive PathMatch := prefix | full.

Inductive RouteTarget :=
  | loadComponent (c : LoadedComponent)
  | redirectTo (to : string).

(** A route as the source writes it; [pathMatch] defaults to [prefix]. *)
Record Route := mk_route { path : string; target : RouteTarget; pathMatch : PathMatch }.

Definition route_load (p : string) (c : LoadedComponent) : Route := mk_route p (loadComponent c) prefix.
Definition route_redirect (p : string) (to : string) (m : PathMatch) : Route := mk_route p (redirectTo to) m.

(** ** URLs and paths as segment lists *)

(** Split at ['/'], dropping empty segments: ["/embed-board"] is
    [["embed-board"]], [""] and ["/"] are the empty URL. *)
Fixpoint split_segments (s : string) (cur : string) : list string :=
  match s with
  | EmptyString => if String.eqb cur "" then [] else [cur]
  | String c s' =>
      if Ascii.eqb c "/"%char then (if String.eqb cur "" then [] else [cur]) ++ split_segments s' ""
      else split_segments s' (cur ++ String c EmptyString)
  end.

Definition segments (s : string) : list string := split_segments s "".

(** [match_parts parts segs]: the segments left after consuming [parts]. *)
Fixpoint match_parts (parts segs : list string) : option (list string) :=
  match parts, segs with
  | [], _ => Some segs
  | p :: ps, s :: ss => if String.eqb p s then match_parts ps ss else None
  | _ :: _, [] => None
  end.

(** The segments a route leaves, or [None] when it does not match. *)
Definition match_route (r : Route) (segs : list string) : option (list string) :=
  if String.eqb (path r) "**" then Some []
  else match match_parts (segments (path r)) segs with
       | Some [] => Some []
       | Some rest => match pathMatch r with prefix => Some rest | full => None end
       | None => None
       end.

Section router.
Variable chain : bool.

(** Try the routes in order; [rd] follows a redirect, when one is allowed. *)
Fixpoint try_routes (rd : option (list string -> option LoadedComponent)) (rs : list Route)
    (segs : list string) : option LoadedComponent :=
  match rs with
  | [] => None
  | r :: rs' =>
      match match_route r segs, target r with
      | Some [], loadComponent c => Some c
      | Some rest, redirectTo to =>
          match rd ≫= fun k => k (segments to ++ rest) with
          | Some c => Some c
          | None => try_routes rd rs' segs
          end
      | _, _ => try_routes rd rs' segs
      end
  end.

Fixpoint recognize (fuel : nat) (allow : bool) (table : list Route) (segs : list string)
    : option LoadedComponent :=
  try_routes (if allow then match fuel with 0 => None | S f => Some (recognize f chain table) end else None)
    table segs.

(** Navigating to a URL: the router starts with redirects allowed. *)
Definition navigate (fuel : nat) (table : list Route) (url : string) : option LoadedComponent :=
  recognize fuel true table (segments url).
End router.

(** ** The three tables of the sources *)

Module RoutesWildcard.
Definition routes : list Route := [
  route_load "game/offline" GameHostComponent;
  route_load "embed-board" BoardEmbedComponent;
  route_load "game/online" OnlineGameComponent;
  route_redirect "mainpage" "game/offline" full;
  route_redirect "iframepage" "embed-board" full;
  route_redirect "**" "game/offline" prefix ].
End RoutesWildcard.

Module RoutesGame.
Definition routes : list Route := [
  route_load "game/offline" GameHostComponent;
  route_load "embed-board" BoardEmbedComponent;
  route_load "game/online" OnlineGameComponent;
  route_redirect "game" "game/offline" full;
  route_redirect "mainpage" "game/offline" full;
  route_redirect "iframepage" "embed-board" full;
  route_redirect "" "game" full ].
End RoutesGame.

Module RoutesShort.
Definition routes : list Route := [
  route_load "game" GameHostComponent;
  route_load "embed/board" BoardEmbedComponent;
  route_load "online" OnlineGameComponent;
  route_redirect "" "game" full ].
End RoutesShort.

(** The URL the host gives both iframes ([GameHostComponent.boardSrc]). *)
Definition boardSrc : string := "/embed-board".

(** ** The router's rules *)

Section router_lemmas.
Variable chain : bool.

Lemma try_routes_app rd rs1 rs2 segs :
  try_routes rd (rs1 ++ rs2) segs =
  match try_routes rd rs1 segs with Some c => Some c | None => try_routes rd rs2 segs end.
Proof.
  induction rs1 as [|r rs1 IH]; simpl; [done|].
  destruct (match_route r segs) as [[|s rest]|], (target r); rewrite ?IH; try done;
    destruct (rd ≫= _); done.
Qed.

Lemma recognize_S fuel allow table segs :
  recognize chain (S fuel) allow table segs =
  try_routes (if allow then Some (recognize chain fuel chain table) else None) table segs.
Proof. done. Qed.

End router_lemmas.

(** ** What the tables do *)

(** C16. The wildcard table sends every URL to a component, whatever the
    router's redirect rule and budget: an unknown URL falls through to
    the last route, whose redirect to [game/offline] loads the host. *)
Theorem wildcard_routes_total chain fuel url :
  navigate chain (S fuel) RoutesWildcard.routes url <> None.
Proof.
  unfold navigate. rewrite recognize_S.
  change RoutesWildcard.routes with
    (firstn 5 RoutesWildcard.routes ++ [route_redirect "**" "game/offline" prefix]).
  rewrite try_routes_app. destruct (try_routes _ _ _); [done|].
  simpl. by destruct fuel, chain.
Qed.

(** The URL the host gives its iframes, [/embed-board], loads the board
    component under both tables of part_000, but matches no route of the
    table of part_001, whose board route is [embed/board]: with that table
    the offline page's iframes never run [BoardEmbedComponent]. *)
Theorem iframe_src_route chain fuel :
  navigate chain fuel RoutesWildcard.routes boardSrc = Some BoardEmbedComponent /\
  navigate chain fuel RoutesGame.routes boardSrc = Some BoardEmbedComponent /\
  navigate chain fuel RoutesShort.routes boardSrc = None.
Proof. by destruct fuel, chain. Qed.

(** The root URL under the second table of part_000 needs two
    redirects ([''] to [game], then [game] to [game/offline]): when the
    router does not follow a redirect reached through a redirect, as
    Angular's recognizer does not, the root URL matches nothing; a router
    that chains redirects with a budget of two or more loads the host. *)
Theorem game_routes_root fuel :
  navigate false fuel RoutesGame.routes "/" = None /\
  navigate true (S (S fuel)) RoutesGame.routes "/" = Some GameHostComponent.
Proof. split; [by destruct fuel as [|[]]|by destruct fuel]. Qed.
