(* ===== verification/RoomCode.v ===== *)
(** * The room code of the online game: [makeCode] and [copyCode]

    Two private methods of [OnlineGameComponent]
    (src/src/app/features/online-game/online-game.component.ts) that touch
    only the room code and the copy feedback, kept apart from Online.v:

    - [makeCode] (lines 360-363) renders [Math.random()] in base 36, keeps
      [slice(2, 8)] and upper-cases it.  The random number is given by the
      digits of its base-36 rendering (what [toString(36)] prints after
      ["0."]; none for 0): [Math.random] and the engine's choice of how
      many digits to print are not modelled, their result is the input.
    - [copyCode] (lines 400-420) writes the code to the clipboard, through
      [navigator.clipboard.writeText] when it exists and through a hidden
      textarea and [document.execCommand('copy')] otherwise, then shows the
      [copied] flag for 1200 ms with [window.setTimeout], cancelling the
      previous timer.  The fields [copied] and [copyTimer] are read and
      written by no other method, so they form the record [CopyWorld]
      together with the window's pending timers, its timer ids and its
      clock (in ms).  The [await] of [writeText] is taken as resolved
      before the next event: two clicks' continuations run in click order.

    Theorems: the bounds of the code (at most six characters, digits and
    capital letters only, fewer than six when the rendering is short), and
    the refinement of the copy feedback: over every sequence of clicks and
    clock ticks, [copied] is exactly the abstract specification "a copy
    took effect less than 1200 ms ago". *)

From S2P Require Import Prelude.
From Stdlib Require Import String Ascii.

Module RoomCode.

(** ** [makeCode] *)

(** A base-36 digit as [toString(36)] prints it: [0-9], then [a-z]. *)
Definition digit36 (d : nat) : ascii :=
  if d <? 10 then ascii_of_nat (48 + d) else ascii_of_nat (87 + d).

Fixpoint digits_string (ds : list nat) : string :=
  match ds with [] => EmptyString | d :: ds' => String (digit36 d) (digits_string ds') end.

(** [x.toString(36)] for [0 <= x < 1] with base-36 digits [ds]. *)
Definition toString36 (ds : list nat) : string :=
  match ds with [] => "0" | _ => "0." ++ digits_string ds end.

(** [s.slice(b, e)] for [0 <= b <= e]: clamped to the string's end. *)
Definition slice (b e : nat) (s : string) : string := substring b (e - b) s.

(** [toUpperCase] on the ASCII letters. *)
Definition upper (c : ascii) : ascii :=
  let n := nat_of_ascii c in if (97 <=? n) && (n <=? 122) then ascii_of_nat (n - 32) else c.

Fixpoint toUpperCase (s : string) : string :=
  match s with EmptyString => EmptyString | String c s' => String (upper c) (toUpperCase s') end.

(** [Math.random().toString(36).slice(2, 8).toUpperCase()] *)
Definition makeCode (ds : list nat) : string := toUpperCase (slice 2 8 (toString36 ds)).

(** The characters of a room code: [0-9] and [A-Z]. *)
Definition code_char (c : ascii) : bool :=
  let n := nat_of_ascii c in ((48 <=? n) && (n <=? 57)) || ((65 <=? n) && (n <=? 90)).

Fixpoint all_chars (p : ascii -> bool) (s : string) : bool :=
  match s with EmptyString => true | String c s' => p c && all_chars p s' end.

(** ** [copyCode] *)

Definition COPY_FEEDBACK_MS : nat := 1200.

Record CopyWorld := mk_cw {
  copied : bool;              (* this.copied *)
  copyTimer : option nat;     (* this.copyTimer, null as None *)
  timers : list (nat * nat);  (* the window's pending timers: (id, due time) *)
  next_id : nat;              (* the id the next window.setTimeout returns *)
  now : nat;                  (* the clock, in ms *)
  clipboard : string
}.

(** A click on the code, with whether [navigator.clipboard.writeText]
    exists and whether the copy succeeds (the promise resolves, or the
    [execCommand] copies); or one millisecond passing. *)
Inductive CopyEvent := EClick (api ok : bool) | ETick.

Definition set_copied (b : bool) (w : CopyWorld) : CopyWorld :=
  mk_cw b (copyTimer w) (timers w) (next_id w) (now w) (clipboard w).
Definition set_clipboard (s : string) (w : CopyWorld) : CopyWorld :=
  mk_cw (copied w) (copyTimer w) (timers w) (next_id w) (now w) s.

(** [window.clearTimeout(id)] *)
Definition clearTimeout (id : nat) (w : CopyWorld) : CopyWorld :=
  mk_cw (copied w) (copyTimer w) (List.filter (fun t => negb (t.1 =? id)) (timers w)) (next_id w) (now w) (clipboard w).

(** [this.copyTimer = window.setTimeout(() => (this.copied = false), ms)] *)
Definition setCopyTimer (ms : nat) (w : CopyWorld) : CopyWorld :=
  mk_cw (copied w) (Some (next_id w)) (timers w ++ [(next_id w, now w + ms)]) (S (next_id w)) (now w) (clipboard w).

(** The clipboard write: [None] when it throws (a rejected [writeText]);
    the fallback's [execCommand] result is not looked at. *)
Definition writeCode (code : string) (api ok : bool) (w : CopyWorld) : option CopyWorld :=
  if api then (if ok then Some (set_clipboard code w) else None)
  else Some (if ok then set_clipboard code w else w).

Definition copyCode (code : string) (api ok : bool) (w : CopyWorld) : CopyWorld :=
  if String.eqb code "" then w else
  match writeCode code api ok w with
  | None => w
  | Some w1 =>
      let w2 := set_copied true w1 in
      let w3 := match copyTimer w2 with Some (S _ as id) => clearTimeout id w2 | _ => w2 end in
      setCopyTimer COPY_FEEDBACK_MS w3
  end.

(** One millisecond passes; the timers now due run their callback
    [this.copied = false]. *)
Definition tick (w : CopyWorld) : CopyWorld :=
  let n := S (now w) in
  let fired := List.filter (fun t => t.2 <=? n) (timers w) in
  mk_cw (if fired is [] then copied w else false) (copyTimer w)
    (List.filter (fun t => negb (t.2 <=? n)) (timers w)) (next_id w) n (clipboard w).

Definition copy_step (code : string) (w : CopyWorld) (ev : CopyEvent) : CopyWorld :=
  match ev with EClick api ok => copyCode code api ok w | ETick => tick w end.

Definition copy_run (code : string) (evs : list CopyEvent) (w : CopyWorld) : CopyWorld :=
  fold_left (copy_step code) evs w.

(** The component after construction: no feedback, no timer. *)
Definition copy_init (t0 : nat) (clip : string) : CopyWorld := mk_cw false None [] 1 t0 clip.

(** ** The abstract specification of the copy feedback *)

(** The clock and the time of the last copy that took effect. *)
Record CopySpec := mk_spec { s_now : nat; s_last : option nat }.

(** A click takes effect when there is a code and the copy did not throw. *)
Definition takes_effect (code : string) (api ok : bool) : bool :=
  negb (String.eqb code "") && (negb api || ok).

Definition spec_step (code : string) (a : CopySpec) (ev : CopyEvent) : CopySpec :=
  match ev with
  | EClick api ok => if takes_effect code api ok then mk_spec (s_now a) (Some (s_now a)) else a
  | ETick => mk_spec (S (s_now a)) (s_last a)
  end.

Definition spec_run (code : string) (evs : list CopyEvent) (a : CopySpec) : CopySpec :=
  fold_left (spec_step code) evs a.

(** "Copied" is shown for the 1200 ms after the last copy. *)
Definition spec_copied (a : CopySpec) : bool :=
  match s_last a with Some t => s_now a <? t + COPY_FEEDBACK_MS | None => false end.

(** ** The code's shape *)

Lemma substring_digits m ds : substring 0 m (digits_string ds) = digits_string (firstn m ds).
Proof. revert ds. induction m as [|m IH]; intros [|d ds]; simpl; rewrite ?IH; done. Qed.

(** [makeCode] is the upper-cased rendering of the first six digits. *)
Lemma makeCode_spec ds : makeCode ds = toUpperCase (digits_string (firstn 6 ds)).
Proof. unfold makeCode, slice, toString36. destruct ds; simpl; [done|]. by rewrite substring_digits. Qed.

Lemma length_toUpperCase s : String.length (toUpperCase s) = String.length s.
Proof. induction s; simpl; auto. Qed.

Lemma length_digits ds : String.length (digits_string ds) = List.length ds.
Proof. induction ds; simpl; auto. Qed.

(** Every base-36 digit becomes a digit or a capital letter. *)
Lemma upper_digit36 d : d < 36 -> code_char (upper (digit36 d)) = true.
Proof. intros Hd. do 36 (destruct d as [|d]; [reflexivity|]). lia. Qed.

Lemma all_chars_code ds :
  Forall (fun d => d < 36) ds -> all_chars code_char (toUpperCase (digits_string ds)) = true.
Proof. induction 1; simpl; [done|]. by rewrite upper_digit36. Qed.

(** ** The copy feedback refines its specification *)

(** The concrete world of the copy feedback against the abstract state:
    the same clock; while a copy is less than 1200 ms old, exactly one
    pending timer, the one [copyTimer] names, due 1200 ms after the copy,
    and [copied] is set; otherwise no pending timer and [copied] unset. *)
Definition copy_rel (w : CopyWorld) (a : CopySpec) : Prop :=
  now w = s_now a /\ 0 < next_id w /\
  match s_last a with
  | Some t =>
      if s_now a <? t + COPY_FEEDBACK_MS then
        copied w = true /\ exists id, 0 < id /\ copyTimer w = Some id /\ timers w = [(id, t + COPY_FEEDBACK_MS)]
      else copied w = false /\ timers w = []
  | None => copied w = false /\ timers w = []
  end.

Lemma copy_rel_copied w a : copy_rel w a -> copied w = spec_copied a.
Proof.
  unfold copy_rel, spec_copied. intros (_ & _ & Hw).
  destruct (s_last a) as [t|]; [|naive_solver]. case_match; naive_solver.
Qed.

Section copy_sim.
Variable code : string.

(** The pending timers once [copyTimer], if truthy, is cleared. *)
Definition cleared (ct : option nat) (ts : list (nat * nat)) : list (nat * nat) :=
  match ct with Some (S _ as id) => List.filter (fun t => negb (t.1 =? id)) ts | _ => ts end.

Lemma copyCode_effect api ok w :
  takes_effect code api ok = true ->
  copyCode code api ok w =
  mk_cw true (Some (next_id w)) (cleared (copyTimer w) (timers w) ++ [(next_id w, now w + COPY_FEEDBACK_MS)])
    (S (next_id w)) (now w) (if ok then code else clipboard w).
Proof.
  unfold takes_effect, copyCode, writeCode. intros He.
  destruct (String.eqb code ""), api, ok; simpl in *; try done; by destruct (copyTimer w) as [[|]|].
Qed.

Lemma copyCode_no_effect api ok w : takes_effect code api ok = false -> copyCode code api ok w = w.
Proof.
  unfold takes_effect, copyCode, writeCode. intros He.
  destruct (String.eqb code ""), api, ok; simpl in *; done.
Qed.

Lemma copy_step_sim w a ev : copy_rel w a -> copy_rel (copy_step code w ev) (spec_step code a ev).
Proof.
  intros (Hn & Hid & Hw). destruct ev as [api ok|]; simpl.
  - destruct (takes_effect code api ok) eqn:He; [|by rewrite copyCode_no_effect].
    rewrite copyCode_effect by done. unfold copy_rel; simpl.
    rewrite (proj2 (Nat.ltb_lt _ _)) by (unfold COPY_FEEDBACK_MS; lia).
    split_and!; [done|lia|done|]. exists (next_id w). split_and!; [lia|done|].
    enough (Hc : cleared (copyTimer w) (timers w) = []) by (by rewrite Hc, Hn).
    destruct (s_last a) as [t|]; [case_match|]; destruct Hw as (_ & Hw);
      [destruct Hw as (id & Hid' & -> & ->)|rewrite Hw; by destruct (copyTimer w) as [[|]|]..].
    destruct id; [lia|]. simpl. by rewrite Nat.eqb_refl.
  - unfold copy_rel, tick; simpl. split_and!; [lia|done|].
    destruct (s_last a) as [t|]; [|destruct Hw as [-> ->]; done].
    destruct (s_now a <? t + COPY_FEEDBACK_MS) eqn:Hlt.
    + destruct Hw as (Hc & id & Hid' & Ht & Hts). rewrite Hts, <- Hn. simpl.
      apply Nat.ltb_lt in Hlt. rewrite Hn.
      destruct (t + COPY_FEEDBACK_MS <=? S (s_now a)) eqn:Hd; simpl.
      * apply Nat.leb_le in Hd. rewrite (proj2 (Nat.ltb_ge _ _)) by lia. done.
      * apply Nat.leb_gt in Hd. rewrite (proj2 (Nat.ltb_lt _ _)) by lia. naive_solver.
    + destruct Hw as (Hc & Ht). rewrite Ht. simpl.
      apply Nat.ltb_ge in Hlt. rewrite (proj2 (Nat.ltb_ge _ _)) by lia. done.
Qed.

Lemma copy_run_sim evs w a : copy_rel w a -> copy_rel (copy_run code evs w) (spec_run code evs a).
Proof.
  revert w a. induction evs as [|ev evs IH]; simpl; [done|]. intros w a Hr. by apply IH, copy_step_sim.
Qed.
End copy_sim.

Lemma copy_init_rel t0 clip : copy_rel (copy_init t0 clip) (mk_spec t0 None).
Proof. unfold copy_rel; simpl. split_and!; try done. lia. Qed.

(** C30. Room code bounds: for any base-36 rendering of [Math.random()],
    [makeCode] gives at most six characters, all digits or capital
    letters (never a character a database path cannot hold), and exactly
    as many as the rendering has digits when it has fewer than six. *)
Theorem makeCode_bounds ds :
  Forall (fun d => d < 36) ds ->
  String.length (makeCode ds) = Nat.min 6 (List.length ds) /\ all_chars code_char (makeCode ds) = true.
Proof.
  intros Hds. rewrite makeCode_spec, length_toUpperCase, length_digits, length_firstn.
  split; [done|]. apply all_chars_code, Forall_take, Hds.
Qed.

(** [Math.random()] = 0.5 renders as [0.i]: a one-letter room code. *)
Lemma makeCode_bounds_witness :
  Forall (fun d => d < 36) [18] /\
  String.length (makeCode [18]) = 1 /\ all_chars code_char (makeCode [18]) = true.
Proof.
  assert (H : Forall (fun d => d < 36) [18]) by (repeat constructor; lia).
  split; [exact H|]. exact (makeCode_bounds [18] H).
Defined.

(** C29. The copy feedback refines its specification: after any sequence
    of clicks on the code (with or without the clipboard API, copies
    succeeding or not) and clock ticks from the component's start,
    [copied] is set exactly when a copy took effect less than 1200 ms
    before; a second click restarts the 1200 ms because the first timer
    is cancelled. *)
Theorem copy_feedback_refines code evs t0 clip :
  copied (copy_run code evs (copy_init t0 clip)) = spec_copied (spec_run code evs (mk_spec t0 None)) /\
  now (copy_run code evs (copy_init t0 clip)) = s_now (spec_run code evs (mk_spec t0 None)).
Proof.
  pose proof (copy_run_sim code evs _ _ (copy_init_rel t0 clip)) as Hr.
  split; [by apply copy_rel_copied|apply Hr].
Qed.

End RoomCode.
