(* ===== verification/OnlineDocs.v ===== *)
(** * The room documents stay well typed

    The room document of the online game ([interface GameDoc] of
    src/src/app/features/online-game/online-game.component.ts) carries the
    position ([fen]) and the side to move ([turn]) as two separate fields;
    every reader ([onValue]'s [myTurn], the status line) trusts [turn].  A
    document is well typed when its [fen] is one chess.js loads and its
    [turn] is the side to move of that position, or when both are absent.

    This file proves that every method of [OnlineGameComponent] (Online.v),
    run by any client on any database, keeps every room document well
    typed: [createGame] writes the start position with [turn: 'w'], a move
    writes the reported FEN only after [chess.load] accepted it, with the
    engine's [turn()], and joining and leaving write only [players] and
    [status].  The proof follows the structure of each method with the
    prelude's [solve_keeps] and the primitives below. *)

From S2P Require Import Prelude Messages Engine Widget Storage Online.
Import OnlineGameComponent.

Section docs.
Context {P : Type} `{Engine P} {B : Type} `{BoardWidget B}.
Implicit Types (wd : World P B) (d : GameDoc).

Definition doc_ok d : Prop :=
  match gfen d with
  | Some f => exists p, load f = Some p /\ gturn d = Some (turn p)
  | None => gturn d = None
  end.

Definition db_ok (dbs : DB) : Prop := map_Forall (fun _ d => doc_ok d) dbs.

Definition wd_ok wd : Prop := db_ok (db wd).

(** The client's entry points: its methods and the change callback. *)
Inductive Method :=
  | MCreate (c : string)
  | MJoin
  | MJoinRead
  | MJoinWrite (snap : option GameDoc)
  | MLeave
  | MMove
  | MConstructor
  | MDestroy
  | MCallback (v : option GameDoc).

Definition run_method (m : Method) : SW (World P B) DbWrite unit :=
  match m with
  | MCreate c => createGame c
  | MJoin => joinGame
  | MJoinRead => joinGame_read ;; skip
  | MJoinWrite snap => joinGame_write snap
  | MLeave => leaveGame
  | MMove => onUserMove
  | MConstructor => constructor ;; skip
  | MDestroy => ngOnDestroy
  | MCallback v => onValueCb v
  end.

(** ** Documents and patches *)

Lemma merge_ok old pt :
  (forall d, old = Some d -> doc_ok d) -> doc_ok pt -> doc_ok (merge old pt).
Proof.
  intros Ho Hp. unfold doc_ok, merge in *. simpl. destruct (gfen pt) as [f|].
  - destruct Hp as (p & Hl & ->). eauto.
  - rewrite Hp. destruct old as [d|]; simpl; [by apply Ho|done].
Qed.

Lemma players_patch_ok st ps : doc_ok (players_patch st ps).
Proof. done. Qed.

Lemma move_doc_ok f p pg st wn : load f = Some p -> doc_ok (mk_doc (Some f) pg (Some (turn p)) st wn None).
Proof. intros Hl. by exists p. Qed.

Lemma fresh_room_ok id : doc_ok (fresh_room (P:=P) id).
Proof. exists start. by rewrite load_start, turn_start. Qed.

(** ** The primitives keep the documents well typed *)

Lemma keeps_upd f : sw_keeps wd_ok (upd (P:=P) (B:=B) f).
Proof. intros wd. unfold wd_ok. by rewrite exec_upd, db_upd_me. Qed.

Lemma keeps_getme : sw_keeps wd_ok (getme (P:=P) (B:=B)).
Proof. by intros wd. Qed.

Lemma keeps_db_get c : sw_keeps wd_ok (db_get (P:=P) (B:=B) c).
Proof. by intros wd. Qed.

Lemma keeps_onValueCb v : sw_keeps wd_ok (onValueCb (P:=P) (B:=B) v).
Proof. apply (silent_keeps frame). { intros ?? [Hd _]. unfold wd_ok. by rewrite Hd. } apply silent_onValueCb. Qed.

Lemma keeps_notify c : sw_keeps wd_ok (notify (P:=P) (B:=B) c).
Proof. intros wd. unfold wd_ok. by rewrite db_notify. Qed.

Lemma keeps_db_set c d : doc_ok d -> sw_keeps wd_ok (db_set (P:=P) (B:=B) c d).
Proof.
  intros Hd wd Hw. unfold wd_ok. rewrite exec_db_set, db_notify. simpl.
  by apply map_Forall_insert_2.
Qed.

Lemma keeps_db_update c pt : doc_ok pt -> sw_keeps wd_ok (db_update (P:=P) (B:=B) c pt).
Proof.
  intros Hp wd Hw. unfold wd_ok. rewrite exec_db_update, db_notify. simpl.
  apply map_Forall_insert_2; [|done]. apply merge_ok; [|done].
  intros d Hd. by apply (Hw c).
Qed.

Lemma db_createGame wd c :
  role (me wd) = None -> db (exec (createGame c) wd) = <[c := fresh_room (clientId (me wd))]> (db wd).
Proof.
  intros Hr. unfold createGame. om_simp. rewrite Hr, bool_decide_eq_false_2 by tauto.
  unfold listenForUpdates. by om_simp.
Qed.

Lemma keeps_createGame c : sw_keeps wd_ok (createGame (P:=P) (B:=B) c).
Proof.
  intros wd Hw. destruct (role (me wd)) eqn:Hr.
  - unfold createGame. om_simp. by rewrite Hr.
  - unfold wd_ok. rewrite (db_createGame wd c Hr). apply map_Forall_insert_2; [apply fresh_room_ok|done].
Qed.

#[local] Hint Resolve keeps_upd keeps_getme keeps_db_get keeps_onValueCb keeps_notify
  keeps_db_set keeps_db_update keeps_createGame players_patch_ok move_doc_ok : keeps.

Lemma keeps_orient : sw_keeps wd_ok (orientForRole (P:=P) (B:=B)).
Proof. unfold orientForRole. solve_keeps. Qed.
#[local] Hint Resolve keeps_orient : keeps.

Lemma keeps_handleGameOver wn : sw_keeps wd_ok (handleGameOver (P:=P) (B:=B) wn).
Proof. unfold handleGameOver. solve_keeps. Qed.

Lemma keeps_resetLocalUI : sw_keeps wd_ok (resetLocalUI (P:=P) (B:=B)).
Proof. unfold resetLocalUI. solve_keeps. Qed.

Lemma keeps_listen : sw_keeps wd_ok (listenForUpdates (P:=P) (B:=B)).
Proof. unfold listenForUpdates. solve_keeps. Qed.
#[local] Hint Resolve keeps_handleGameOver keeps_resetLocalUI keeps_listen : keeps.

Lemma keeps_orient_unviewed : sw_keeps wd_ok (orientForRole_unviewed (P:=P) (B:=B)).
Proof. unfold orientForRole_unviewed. solve_keeps. Qed.
#[local] Hint Resolve keeps_orient_unviewed : keeps.

Lemma keeps_attach c r : sw_keeps wd_ok (attachToGame (P:=P) (B:=B) c r).
Proof. unfold attachToGame. solve_keeps. Qed.
#[local] Hint Resolve keeps_attach : keeps.

Lemma keeps_joinGame_read : sw_keeps wd_ok (joinGame_read (P:=P) (B:=B)).
Proof. unfold joinGame_read. solve_keeps. Qed.

Lemma keeps_joinGame_write snap : sw_keeps wd_ok (joinGame_write (P:=P) (B:=B) snap).
Proof. unfold joinGame_write. solve_keeps. Qed.
#[local] Hint Resolve keeps_joinGame_read keeps_joinGame_write : keeps.

Lemma keeps_joinGame : sw_keeps wd_ok (joinGame (P:=P) (B:=B)).
Proof. unfold joinGame. solve_keeps. Qed.

Lemma keeps_leaveGame : sw_keeps wd_ok (leaveGame (P:=P) (B:=B)).
Proof. unfold leaveGame. solve_keeps. Qed.

Lemma keeps_onUserMove : sw_keeps wd_ok (onUserMove (P:=P) (B:=B)).
Proof. unfold onUserMove. cbv zeta. solve_keeps. Qed.

Lemma keeps_constructor : sw_keeps wd_ok (constructor (P:=P) (B:=B)).
Proof. unfold constructor. solve_keeps. Qed.

Lemma keeps_ngOnDestroy : sw_keeps wd_ok (ngOnDestroy (P:=P) (B:=B)).
Proof. unfold ngOnDestroy. solve_keeps. Qed.
#[local] Hint Resolve keeps_joinGame keeps_leaveGame keeps_onUserMove keeps_constructor
  keeps_ngOnDestroy : keeps.

(** C17. The room documents stay well typed: whatever method of the online
    component a client runs (create, join in one step or split at its
    read, leave, move, resume in the constructor, destroy) and whatever
    change reaches its callback, if every room document of the database
    had a [fen] that chess.js loads with [turn] its side to move (or
    neither field), every room document still has. *)
Theorem online_docs_typed m wd : db_ok (db wd) -> db_ok (db (exec (run_method m) wd)).
Proof. revert wd. change (sw_keeps wd_ok (run_method m)). destruct m; simpl; solve_keeps. Qed.
End docs.

(** Alice creates room [ABC] over a room where a game is under way. *)
Lemma online_docs_typed_witness :
  db_ok (db (mk_world alice0 live_room)) /\
  db_ok (db (exec (run_method (MCreate room)) (mk_world alice0 live_room))).
Proof.
  assert (H : db_ok (db (mk_world alice0 live_room))).
  { unfold db_ok, live_room. simpl. apply map_Forall_singleton. exists FenLite.lstart. by split. }
  split; [exact H|exact (online_docs_typed (MCreate room) _ H)].
Defined.
